(** * x402 payment gating for HTTP and gRPC: a shallow embedding

    The development follows the Go sources of grpc-gateway-x402.  The root
    package (protocol V1) and the [v2] package (protocol V2) are embedded in
    the modules [V1] and [V2]; what the two packages declare with the same
    text (the pricing rule resolver, [PaymentContext], the context helpers)
    is embedded once, in [Resolver] and [Net].

    Functions of the Go standard library that the sources call
    ([path.Match], [base64.StdEncoding], [encoding/json], [fmt.Sprintf]) are
    parameters, gathered in a record per package; the order in which Go
    visits a map is a parameter of each call that ranges over one.  An
    instance of the parameters is provided for evaluation on concrete
    requests. *)

From Stdlib Require Import ZArith Ascii String List Bool Lia.
From stdpp Require Import base gmap strings list fin_maps.
Import ListNotations.

Set Warnings "-register-all".

Local Open Scope string_scope.
Local Open Scope Z_scope.

(** ** Go values and standard helpers *)

Module Go.

(** The outcome of running a piece of Go code that may panic. *)
Inductive Outcome (A : Type) : Type :=
| Done (a : A)
| Panic (msg : string).
Arguments Done {A} a.
Arguments Panic {A} msg.

Definition len (s : string) : nat := String.length s.

(** [s[i:]] and [s[:i]] on byte strings. *)
Definition slice_from (i : nat) (s : string) : string :=
  String.substring i (len s - i) s.
Definition slice_to (i : nat) (s : string) : string :=
  String.substring 0 i s.

(** [strings.HasPrefix], [strings.HasSuffix], [strings.TrimSuffix]. *)
Definition HasPrefix (s pre : string) : bool :=
  (len pre <=? len s)%nat && String.eqb (slice_to (len pre) s) pre.

Definition HasSuffix (s suffix : string) : bool :=
  (len suffix <=? len s)%nat
  && String.eqb (slice_from (len s - len suffix) s) suffix.

Definition TrimSuffix (s suffix : string) : string :=
  if HasSuffix s suffix then slice_to (len s - len suffix) s else s.

(** [strings.Contains]. *)
Fixpoint Contains (s substr : string) : bool :=
  HasPrefix s substr
  || match s with
     | EmptyString => false
     | String _ s' => Contains s' substr
     end.

(** A value held in an [interface{}] after [json.Unmarshal]; [AnyNil] is
    the nil interface. *)
Inductive Any : Type :=
| AnyNil
| AnyBool (b : bool)
| AnyNumber (literal : string)
| AnyString (s : string)
| AnyList (l : list Any)
| AnyMap (m : list (string * Any)).

(** [time.Time] as an offset from Go's zero time, and [time.Duration] in
    nanoseconds. *)
Definition Time : Type := Z.
Definition Time_zero : Time := 0.
Definition Duration : Type := Z.
Definition Minute : Duration := 60 * 1000000000.
(** [d.Seconds()] truncated by the [int(...)] conversion at its call sites. *)
Definition Seconds (d : Duration) : Z := Z.quot d 1000000000.

Definition isNil (v : Any) : bool :=
  match v with
  | AnyNil => true
  | _ => false
  end.

End Go.
Export Go.

(** ** [path.Match] of the Go standard library

    A transcription of [path/match.go], used for the reference instance of
    the glob parameter of the resolver. *)

Module GoPath.

Definition byte (c : ascii) : Z := Z.of_N (N_of_ascii c).
Definition RuneError : Z := 65533.

(** [utf8.first]: information about the first byte of an encoding. *)
Definition first (b : Z) : Z :=
  if b <? 128 then 240          (* as *)
  else if b <? 194 then 241     (* xx *)
  else if b <? 224 then 2       (* s1 *)
  else if b =? 224 then 19      (* s2 *)
  else if b <? 237 then 3       (* s3 *)
  else if b =? 237 then 35      (* s4 *)
  else if b <? 240 then 3       (* s3 *)
  else if b =? 240 then 52      (* s5 *)
  else if b <? 244 then 4       (* s6 *)
  else if b =? 244 then 68      (* s7 *)
  else 241.

Definition acceptRanges (i : Z) : Z * Z :=
  if i =? 0 then (128, 191)
  else if i =? 1 then (160, 191)
  else if i =? 2 then (128, 159)
  else if i =? 3 then (144, 191)
  else if i =? 4 then (128, 143)
  else (0, 0).

Definition nth_byte (i : nat) (s : string) : Z :=
  match String.get i s with
  | Some c => byte c
  | None => 0
  end.

(** [utf8.DecodeRuneInString]. *)
Definition DecodeRuneInString (s : string) : Z * nat :=
  let n := len s in
  if (n <? 1)%nat then (RuneError, 0%nat)
  else
    let s0 := nth_byte 0 s in
    let x := first s0 in
    if 240 <=? x then
      (if x =? 240 then (s0, 1%nat) else (RuneError, 1%nat))
    else
      let sz := Z.to_nat (Z.land x 7) in
      let '(lo, hi) := acceptRanges (Z.shiftr x 4) in
      if (n <? sz)%nat then (RuneError, 1%nat)
      else
        let s1 := nth_byte 1 s in
        if (s1 <? lo) || (hi <? s1) then (RuneError, 1%nat)
        else if (sz <=? 2)%nat then
          (Z.lor (Z.shiftl (Z.land s0 31) 6) (Z.land s1 63), 2%nat)
        else
          let s2 := nth_byte 2 s in
          if (s2 <? 128) || (191 <? s2) then (RuneError, 1%nat)
          else if (sz <=? 3)%nat then
            (Z.lor (Z.lor (Z.shiftl (Z.land s0 15) 12)
                          (Z.shiftl (Z.land s1 63) 6))
                   (Z.land s2 63), 3%nat)
          else
            let s3 := nth_byte 3 s in
            if (s3 <? 128) || (191 <? s3) then (RuneError, 1%nat)
            else
              (Z.lor (Z.lor (Z.lor (Z.shiftl (Z.land s0 7) 18)
                                   (Z.shiftl (Z.land s1 63) 12))
                            (Z.shiftl (Z.land s2 63) 6))
                     (Z.land s3 63), 4%nat).

Definition is_char (c : ascii) (lit : string) : bool :=
  String.eqb (String c EmptyString) lit.

Fixpoint strip_stars (p : string) : bool * string :=
  match p with
  | String c p' =>
      if is_char c "*" then (true, snd (strip_stars p')) else (false, p)
  | EmptyString => (false, p)
  end.

(** The [Scan] loop of [scanChunk]: the chunk up to the first star outside
    a character class, and what follows it. *)
Fixpoint scan (inrange : bool) (p : string) : string * string :=
  match p with
  | EmptyString => (EmptyString, EmptyString)
  | String c p' =>
      if is_char c "\" then
        match p' with
        | EmptyString => (String c EmptyString, EmptyString)
        | String d p'' =>
            let '(chunk, rest) := scan inrange p'' in
            (String c (String d chunk), rest)
        end
      else if is_char c "[" then
        let '(chunk, rest) := scan true p' in (String c chunk, rest)
      else if is_char c "]" then
        let '(chunk, rest) := scan false p' in (String c chunk, rest)
      else if is_char c "*" && negb inrange then (EmptyString, p)
      else
        let '(chunk, rest) := scan inrange p' in (String c chunk, rest)
  end.

Definition scanChunk (pattern : string) : bool * string * string :=
  let '(star, p) := strip_stars pattern in
  let '(chunk, rest) := scan false p in
  (star, chunk, rest).

(** [getEsc]: [None] is [ErrBadPattern]. *)
Definition getEsc (chunk : string) : option (Z * string) :=
  match chunk with
  | EmptyString => None
  | String c chunk' =>
      if is_char c "-" || is_char c "]" then None
      else
        let esc := is_char c "\" in
        let chunk1 := if esc then chunk' else chunk in
        if esc && (len chunk1 =? 0)%nat then None
        else
          let '(r, n) := DecodeRuneInString chunk1 in
          let nchunk := slice_from n chunk1 in
          if ((r =? RuneError) && (n =? 1)%nat) || (len nchunk =? 0)%nat
          then None
          else Some (r, nchunk)
  end.

(** The range loop of a character class: [None] is [ErrBadPattern]. *)
Fixpoint ranges (fuel : nat) (chunk : string) (r : Z) (matched : bool)
  (nrange : nat) : option (bool * string) :=
  match fuel with
  | O => None
  | S fuel' =>
      match chunk with
      | String c chunk' =>
          if is_char c "]" && (0 <? nrange)%nat then Some (matched, chunk')
          else
            match getEsc chunk with
            | None => None
            | Some (lo, chunk1) =>
                match chunk1 with
                | String d chunk2 =>
                    if is_char d "-" then
                      match getEsc chunk2 with
                      | None => None
                      | Some (hi, chunk3) =>
                          ranges fuel' chunk3 r
                            (matched || ((lo <=? r) && (r <=? hi)))
                            (S nrange)
                      end
                    else
                      ranges fuel' chunk1 r
                        (matched || ((lo <=? r) && (r <=? lo))) (S nrange)
                | EmptyString => None
                end
            end
      | EmptyString => None
      end
  end.

Inductive chunkResult : Type :=
| BadPattern
| NoMatch
| Rest (s : string).

Definition tail (s : string) : string :=
  match s with
  | String _ s' => s'
  | EmptyString => EmptyString
  end.

Definition head_is (s : string) (c : ascii) : bool :=
  match s with
  | String d _ => Ascii.eqb c d
  | EmptyString => false
  end.

(** [matchChunk]; [failed] records that the match has failed while the
    rest of the chunk is still checked for being well formed. *)
Fixpoint matchChunk_loop (fuel : nat) (chunk s : string) (failed : bool)
  : chunkResult :=
  match fuel with
  | O => BadPattern
  | S fuel' =>
      match chunk with
      | EmptyString => if failed then NoMatch else Rest s
      | String c chunk' =>
          let failed := failed || (len s =? 0)%nat in
          if is_char c "[" then
            let '(r, s1) :=
              if failed then (0, s)
              else let '(r, n) := DecodeRuneInString s in (r, slice_from n s) in
            let '(negated, chunk1) :=
              match chunk' with
              | String d t => if is_char d "^" then (true, t) else (false, chunk')
              | EmptyString => (false, chunk')
              end in
            match ranges (S (len chunk1)) chunk1 r false 0 with
            | None => BadPattern
            | Some (m, chunk2) =>
                matchChunk_loop fuel' chunk2 s1 (failed || Bool.eqb m negated)
            end
          else if is_char c "?" then
            if failed then matchChunk_loop fuel' chunk' s true
            else
              let '(_, n) := DecodeRuneInString s in
              matchChunk_loop fuel' chunk' (slice_from n s) (head_is s "/")
          else if is_char c "\" then
            match chunk' with
            | EmptyString => BadPattern
            | String d chunk'' =>
                if failed then matchChunk_loop fuel' chunk'' s true
                else matchChunk_loop fuel' chunk'' (tail s) (negb (head_is s d))
            end
          else
            if failed then matchChunk_loop fuel' chunk' s true
            else matchChunk_loop fuel' chunk' (tail s) (negb (head_is s c))
      end
  end.

Definition matchChunk (chunk s : string) : chunkResult :=
  matchChunk_loop (S (len chunk)) chunk s false.

Inductive starResult : Type :=
| StarBad
| StarNone
| StarFound (t : string).

(** The loop that looks for a match of the chunk after skipping [i+1]
    bytes of the name, never skipping a slash. *)
Fixpoint star_search (chunk rest name : string) : starResult :=
  match name with
  | EmptyString => StarNone
  | String c name' =>
      if is_char c "/" then StarNone
      else
        match matchChunk chunk name' with
        | Rest t =>
            if (len rest =? 0)%nat && (0 <? len t)%nat
            then star_search chunk rest name'
            else StarFound t
        | BadPattern => StarBad
        | NoMatch => star_search chunk rest name'
        end
  end.

(** The check that the remainder of the pattern is well formed. *)
Fixpoint rest_ok (fuel : nat) (pattern : string) : bool :=
  match fuel with
  | O => true
  | S fuel' =>
      if (len pattern =? 0)%nat then true
      else
        let '(_, chunk, rest) := scanChunk pattern in
        match matchChunk chunk EmptyString with
        | BadPattern => false
        | _ => rest_ok fuel' rest
        end
  end.

Fixpoint Match_loop (fuel : nat) (pattern name : string) : option bool :=
  match fuel with
  | O => None
  | S fuel' =>
      if (len pattern =? 0)%nat then Some (len name =? 0)%nat
      else
        let '(star, chunk, rest) := scanChunk pattern in
        if star && (len chunk =? 0)%nat then Some (negb (Contains name "/"))
        else
          let fail :=
            if rest_ok (S (len rest)) rest then Some false else None in
          let try_star :=
            if star then
              match star_search chunk rest name with
              | StarFound t => Match_loop fuel' rest t
              | StarBad => None
              | StarNone => fail
              end
            else fail in
          match matchChunk chunk name with
          | Rest t =>
              if (len t =? 0)%nat || (0 <? len rest)%nat
              then Match_loop fuel' rest t
              else try_star
          | BadPattern => None
          | NoMatch => try_star
          end
  end.

(** [path.Match pattern name]: [Some matched], or [None] for
    [ErrBadPattern] (reported by Go together with [matched = false]). *)
Definition Match (pattern name : string) : option bool :=
  Match_loop (S (len pattern)) pattern name.

End GoPath.


(** ** Configuration and the pricing rule resolver

    [config.go] of both packages: [Config], [MatchEndpoint], [MatchMethod]
    and [matchPath] have the same text in the two packages, up to the types
    of the pricing rule and of the verifier, which are parameters here. *)

Module Resolver.

Section Resolver.
Context {PricingRule ChainVerifier : Type}.

Record Config : Type := {
  Verifier : ChainVerifier;
  EndpointPricing : gmap string PricingRule;
  MethodPricing : gmap string PricingRule;
  DefaultPricing : option PricingRule;
  ValidityDuration : Duration;
  SkipPaths : list string;
  SkipMethods : list string;
  CustomPaywallHTML : string
}.

(** [path.Match pattern name] of the standard library. *)
Variable path_Match : string -> string -> option bool.

Definition matchPath (requestPath pattern : string) : bool :=
  if String.eqb requestPath pattern then true
  else if HasSuffix pattern "/*" then
    let pre := TrimSuffix pattern "/*" in
    HasPrefix requestPath (pre ++ "/") || String.eqb requestPath pre
  else
    match path_Match pattern requestPath with
    | Some matched => matched
    | None => false
    end.

(** One iteration of the wildcard loop on the pair
    [(bestMatch, bestRule)]. *)
Definition bestStep (requestPath : string)
  (best : string * option PricingRule) (entry : string * PricingRule)
  : string * option PricingRule :=
  let '(pattern, rule) := entry in
  if matchPath requestPath pattern then
    if (len (fst best) <? len pattern)%nat then (pattern, Some rule)
    else best
  else best.

(** The wildcard loop; [order] is the order in which [range] visits the
    entries of the map. *)
Definition bestMatch (requestPath : string)
  (order : list (string * PricingRule)) : string * option PricingRule :=
  fold_left (bestStep requestPath) order (EmptyString, None).

(** An order in which Go may iterate over a map. *)
Definition range_order (m : gmap string PricingRule)
  (order : list (string * PricingRule)) : Prop :=
  order ≡ₚ map_to_list m.

Definition MatchEndpoint (c : Config) (order : list (string * PricingRule))
  (requestPath : string) : option PricingRule * bool :=
  if existsb (fun skipPath => matchPath requestPath skipPath) (SkipPaths c)
  then (None, false)
  else
    match EndpointPricing c !! requestPath with
    | Some rule => (Some rule, true)
    | None =>
        match snd (bestMatch requestPath order) with
        | Some bestRule => (Some bestRule, true)
        | None =>
            match DefaultPricing c with
            | Some rule => (Some rule, true)
            | None => (None, false)
            end
        end
    end.

Definition MatchMethod (c : Config) (order : list (string * PricingRule))
  (fullMethod : string) : option PricingRule * bool :=
  if existsb (fun skipMethod => matchPath fullMethod skipMethod)
       (SkipMethods c)
  then (None, false)
  else
    match MethodPricing c !! fullMethod with
    | Some rule => (Some rule, true)
    | None =>
        match snd (bestMatch fullMethod order) with
        | Some bestRule => (Some bestRule, true)
        | None =>
            match DefaultPricing c with
            | Some rule => (Some rule, true)
            | None => (None, false)
            end
        end
    end.

(** Matching as the specification words it: equality, a pattern ending in
    [/*] whose prefix the identifier equals or extends with a slash, or
    a shell-glob match. *)
Definition spec_matches (identifier pattern : string) : Prop :=
  identifier = pattern
  \/ (HasSuffix pattern "/*" = true
      /\ (identifier = TrimSuffix pattern "/*"
          \/ HasPrefix identifier (TrimSuffix pattern "/*" ++ "/") = true))
  \/ path_Match pattern identifier = Some true.

(** Matching as [matchPath] decides it: the glob is consulted only for a
    pattern that does not end in [/*]. *)
Definition code_matches (identifier pattern : string) : Prop :=
  identifier = pattern
  \/ (HasSuffix pattern "/*" = true
      /\ (identifier = TrimSuffix pattern "/*"
          \/ HasPrefix identifier (TrimSuffix pattern "/*" ++ "/") = true))
  \/ (HasSuffix pattern "/*" = false
      /\ path_Match pattern identifier = Some true).

(** What the resolver returns when neither the skip list nor an exact key
    decides: the rule of a longest matching pattern, else the default. *)
Definition longest_match_or_default (table : gmap string PricingRule)
  (default : option PricingRule) (identifier : string)
  (result : option PricingRule * bool) : Prop :=
  ((exists p r, table !! p = Some r /\ matchPath identifier p = true) ->
   exists p r,
     table !! p = Some r /\ matchPath identifier p = true
     /\ (forall q r', table !! q = Some r' ->
           matchPath identifier q = true -> (len q <= len p)%nat)
     /\ result = (Some r, true))
  /\ ((forall p r, table !! p = Some r -> matchPath identifier p = false) ->
      result = match default with
               | Some rule => (Some rule, true)
               | None => (None, false)
               end).

End Resolver.

Arguments Config : clear implicits.

End Resolver.
Export Resolver.

(** ** Errors, formatting, HTTP headers, gRPC metadata and contexts *)

Module Net.

(** Sequencing of code that may panic. *)
Definition bind {A B : Type} (m : Outcome A) (k : A -> Outcome B)
  : Outcome B :=
  match m with
  | Done a => k a
  | Panic msg => Panic msg
  end.

(** Dereferencing a pointer. *)
Definition deref {A : Type} (p : option A) : Outcome A :=
  match p with
  | Some a => Done a
  | None => Panic "nil pointer dereference"
  end.

(** gRPC status codes ([google.golang.org/grpc/codes]). *)
Inductive Code : Type :=
| OK | Canceled | Unknown | InvalidArgument | DeadlineExceeded | NotFound
| AlreadyExists | PermissionDenied | ResourceExhausted | FailedPrecondition
| Aborted | OutOfRange | Unimplemented | Internal | Unavailable | DataLoss
| Unauthenticated.

(** A Go [error]: one made by [fmt.Errorf] or [errors.New], carried by its
    message, or one made by [status.Error]. *)
Inductive error : Type :=
| errorString (msg : string)
| statusError (code : Code) (msg : string).

(** A Go call that returns [(value, error)]. *)
Inductive Result (A : Type) : Type :=
| Ok (a : A)
| Err (e : error).
Arguments Ok {A} a.
Arguments Err {A} e.

(** An argument of [fmt.Sprintf] or [fmt.Errorf]. *)
Inductive fmtArg : Type :=
| ArgString (s : string)
| ArgInt (i : Z)
| ArgError (e : error).

(** HTTP status codes used by the middleware. *)
Definition StatusBadRequest : Z := 400.
Definition StatusPaymentRequired : Z := 402.
Definition StatusInternalServerError : Z := 500.
Definition StatusOK : Z := 200.

(** *** [net/http.Header] *)

Definition code_of (c : ascii) : nat := nat_of_ascii c.

Definition is_upper (c : ascii) : bool :=
  (65 <=? code_of c)%nat && (code_of c <=? 90)%nat.
Definition is_lower (c : ascii) : bool :=
  (97 <=? code_of c)%nat && (code_of c <=? 122)%nat.
Definition is_digit (c : ascii) : bool :=
  (48 <=? code_of c)%nat && (code_of c <=? 57)%nat.
Definition to_upper (c : ascii) : ascii :=
  if is_lower c then ascii_of_nat (code_of c - 32) else c.
Definition to_lower (c : ascii) : ascii :=
  if is_upper c then ascii_of_nat (code_of c + 32) else c.

(** [validHeaderFieldByte] of [net/textproto]: the token characters. *)
Definition validHeaderFieldByte (c : ascii) : bool :=
  is_upper c || is_lower c || is_digit c
  || Contains "!#$%&'*+-.^_`|~" (String c EmptyString).

Fixpoint all_bytes (f : ascii -> bool) (s : string) : bool :=
  match s with
  | EmptyString => true
  | String c s' => f c && all_bytes f s'
  end.

Fixpoint canonical_from (upper : bool) (s : string) : string :=
  match s with
  | EmptyString => EmptyString
  | String c s' =>
      let c' := if upper then to_upper c else to_lower c in
      String c' (canonical_from (Ascii.eqb c' "-") s')
  end.

(** [textproto.CanonicalMIMEHeaderKey]: a key with a byte that is not a
    token character is returned unchanged. *)
Definition CanonicalMIMEHeaderKey (s : string) : string :=
  if all_bytes validHeaderFieldByte s then canonical_from true s else s.

Abbreviation Header := (gmap string (list string)).

Definition Header_Get (h : Header) (key : string) : string :=
  match h !! CanonicalMIMEHeaderKey key with
  | Some (v :: _) => v
  | _ => EmptyString
  end.

Definition Header_Set (h : Header) (key value : string) : Header :=
  <[CanonicalMIMEHeaderKey key := [value]]> h.


(** *** [google.golang.org/grpc/metadata.MD]

    Keys are lower-cased with [strings.ToLower]; the embedding lower-cases
    the ASCII letters, which is what [ToLower] does on the ASCII keys that
    the packages use. *)

Fixpoint ToLower (s : string) : string :=
  match s with
  | EmptyString => EmptyString
  | String c s' => String (to_lower c) (ToLower s')
  end.

Abbreviation MD := (gmap string (list string)).

Definition MD_Get (md : MD) (k : string) : list string :=
  match md !! ToLower k with
  | Some vals => vals
  | None => []
  end.

Definition MD_Set (md : MD) (k : string) (vals : list string) : MD :=
  match vals with
  | [] => md
  | _ => <[ToLower k := vals]> md
  end.

(** [metadata.Pairs k v] with one pair. *)
Definition Pairs (k v : string) : MD := {[ ToLower k := [v] ]}.

(** *** The payment context and [context.Context] *)

Module PaymentContext.
Record t : Type := {
  Verified : bool;
  PayerAddress : string;
  Amount : string;
  TokenSymbol : string;
  Network : string;
  TransactionHash : string;
  SettledAt : Time
}.
End PaymentContext.

(** The keys of context values: the package's [PaymentContextKey], and
    the keys of other packages. *)
Inductive contextKey : Type :=
| PaymentContextKey
| otherKey (name : string).

#[global] Instance contextKey_eq_dec : EqDecision contextKey.
Proof. solve_decision. Defined.

(** The dynamic value stored under a key: a [*PaymentContext], which may
    be a nil pointer, or a value of another type. *)
Inductive contextValue : Type :=
| PaymentContextPtr (p : option PaymentContext.t)
| otherValue (v : Any).

(** A request context: the chain of [WithValue] bindings, innermost
    first, and the incoming gRPC metadata when the transport attached
    some. *)
Record Context : Type := {
  values : list (contextKey * contextValue);
  incomingMD : option MD
}.

Definition WithValue (ctx : Context) (k : contextKey) (v : contextValue)
  : Context :=
  {| values := (k, v) :: values ctx; incomingMD := incomingMD ctx |}.

Fixpoint lookup_value (k : contextKey)
  (l : list (contextKey * contextValue)) : option contextValue :=
  match l with
  | [] => None
  | (k', v) :: l' => if decide (k = k') then Some v else lookup_value k l'
  end.

Definition Value (ctx : Context) (k : contextKey) : option contextValue :=
  lookup_value k (values ctx).

(** [metadata.FromIncomingContext]. *)
Definition FromIncomingContext (ctx : Context) : option MD := incomingMD ctx.

(** [GetPaymentFromContext], declared with the same text by the root
    package, by [v2] and by the two [grpc] packages: the type assertion
    succeeds on any [*PaymentContext], also on a nil one. *)
Definition GetPaymentFromContext (ctx : Context)
  : option PaymentContext.t * bool :=
  match Value ctx PaymentContextKey with
  | Some (PaymentContextPtr payment) => (payment, true)
  | _ => (None, false)
  end.

(** [RequirePayment] of the HTTP packages. *)
Definition RequirePayment (ctx : Context)
  : Outcome (Result PaymentContext.t) :=
  let '(payment, ok) := GetPaymentFromContext ctx in
  if negb ok then Done (Err (errorString "payment context not found"))
  else
    bind (deref payment) (fun payment =>
      if negb (PaymentContext.Verified payment)
      then Done (Err (errorString "payment not verified"))
      else Done (Ok payment)).

(** [RequirePayment] of the [grpc] packages. *)
Definition RequirePayment_grpc (ctx : Context)
  : Outcome (Result PaymentContext.t) :=
  let '(payment, ok) := GetPaymentFromContext ctx in
  if negb ok
  then Done (Err (statusError ResourceExhausted "payment context not found"))
  else
    bind (deref payment) (fun payment =>
      if negb (PaymentContext.Verified payment)
      then Done (Err (statusError ResourceExhausted "payment not verified"))
      else Done (Ok payment)).

(** *** HTTP requests and response writers *)

Record Request : Type := {
  URL_Path : string;
  ReqHeader : Header;
  ReqContext : Context
}.

Definition WithContext (r : Request) (ctx : Context) : Request :=
  {| URL_Path := URL_Path r; ReqHeader := ReqHeader r; ReqContext := ctx |}.

(** The state behind an [http.ResponseWriter]: the header map, the status
    and header as sent by the first [WriteHeader], and the body written so
    far. *)
Record ResponseWriter : Type := {
  RespHeader : Header;
  Sent : option (Z * Header);
  Body : string
}.

Definition SetHeader (key value : string) (w : ResponseWriter)
  : ResponseWriter :=
  {| RespHeader := Header_Set (RespHeader w) key value;
     Sent := Sent w; Body := Body w |}.

Definition WriteHeader (statusCode : Z) (w : ResponseWriter)
  : ResponseWriter :=
  match Sent w with
  | Some _ => w
  | None =>
      {| RespHeader := RespHeader w;
         Sent := Some (statusCode, RespHeader w); Body := Body w |}
  end.

Definition Write (bytes : string) (w : ResponseWriter) : ResponseWriter :=
  let w := WriteHeader StatusOK w in
  {| RespHeader := RespHeader w; Sent := Sent w;
     Body := Body w ++ bytes |}.

(** The status of the response, once sent. *)
Definition StatusCode (w : ResponseWriter) : option Z :=
  match Sent w with
  | Some (code, _) => Some code
  | None => None
  end.

(** The wrapped [http.Handler]: what [ServeHTTP] does to the writer. *)
Definition Handler : Type := ResponseWriter -> Request -> ResponseWriter.

(** The writer together with the log of the calls of the wrapped handler,
    each with the state of the writer and the request it was given. *)
Record World : Type := {
  writer : ResponseWriter;
  served : list (ResponseWriter * Request)
}.

Definition on_writer (f : ResponseWriter -> ResponseWriter) (w : World)
  : World :=
  {| writer := f (writer w); served := served w |}.

Definition ServeHTTP (next : Handler) (w : World) (r : Request) : World :=
  {| writer := next (writer w) r; served := served w ++ [(writer w, r)] |}.

(** *** gRPC calls *)

(** The effects of an interceptor that the claims speak of: the contexts
    given to the wrapped handler, and the trailers set. *)
Record Trace : Type := {
  handled : list Context;
  trailers : list MD
}.

Definition no_trace : Trace := {| handled := []; trailers := [] |}.

Definition log_handled (ctx : Context) (t : Trace) : Trace :=
  {| handled := handled t ++ [ctx]; trailers := trailers t |}.

Definition SetTrailer (md : MD) (t : Trace) : Trace :=
  {| handled := handled t; trailers := trailers t ++ [md] |}.

(** [grpc.UnaryHandler]: the response or the error for a context and a
    request message. *)
Definition UnaryHandler : Type := Context -> Any -> Result Any.

(** [grpc.StreamHandler] on a stream whose [Context()] is the argument:
    the error it returns, if any. *)
Definition StreamHandler : Type := Any -> Context -> option error.

End Net.
Export Net.

Declare Scope outcome_scope.
Delimit Scope outcome_scope with outcome.
Notation "x <- m ;; k" := (bind m (fun x => k))
  (at level 100, m at next level, right associativity) : outcome_scope.


(** ** Package [v2]: types, HTTP middleware, gRPC interceptors *)

Module V2.

Local Open Scope outcome_scope.

(** *** [types.go] and [config.go] *)

Module TokenRequirement.
Record t : Type := {
  Network : string;
  AssetContract : string;
  Symbol : string;
  Recipient : string;
  Amount : string;
  TokenName : string;
  TokenDecimals : Z
}.
End TokenRequirement.

(** The middleware and the interceptors read [rule.Amount], so the rule
    carries an amount next to the amounts of its tokens. *)
Module PricingRule.
Record t : Type := {
  Amount : string;
  AcceptedTokens : list TokenRequirement.t;
  Description : string;
  MimeType : string;
  OutputSchema : option (list (string * Any))
}.
End PricingRule.

Module PaymentRequirements.
Record t : Type := {
  Scheme : string;
  Network : string;
  Amount : string;
  Asset : string;
  PayTo : string;
  MaxTimeoutSeconds : Z;
  Extra : option (list (string * Any))
}.
End PaymentRequirements.

Module PaymentPayload.
Record t : Type := {
  X402Version : Z;
  Accepted : PaymentRequirements.t;
  Payload : Any;
  Extensions : option (list (string * Any))
}.
End PaymentPayload.

Module LegacyPayment.
Record t : Type := {
  X402Version : Z;
  Scheme : string;
  Network : string;
  Payload : Any
}.
End LegacyPayment.

Module SupportedKind.
Record t : Type := { Scheme : string; Network : string }.
End SupportedKind.

Module VerificationResult.
Record t : Type := {
  Valid : bool;
  Reason : string;
  PayerAddress : string;
  Amount : string;
  TokenSymbol : string
}.
End VerificationResult.

Module SettlementResult.
Record t : Type := {
  TransactionHash : string;
  Status : string;
  SettledAt : Time;
  Amount : string;
  PayerAddress : string;
  RecipientAddress : string;
  Network : string
}.
End SettlementResult.

Module PaymentResponse.
Record t : Type := {
  Success : bool;
  Transaction : string;
  Network : string;
  Payer : string;
  ErrorReason : string
}.
End PaymentResponse.

Module PaymentRequiredResponse.
Record t : Type := {
  X402Version : Z;
  Error : string;
  Accepts : list PaymentRequirements.t
}.
End PaymentRequiredResponse.

(** The [ChainVerifier] interface; a nil [*PaymentRequirements] is
    [None]. *)
Module ChainVerifier.
Record t : Type := {
  Verify : Context -> PaymentPayload.t -> option PaymentRequirements.t ->
           Result VerificationResult.t;
  Settle : Context -> PaymentPayload.t -> option PaymentRequirements.t ->
           Result SettlementResult.t;
  SupportedKinds : list SupportedKind.t
}.
End ChainVerifier.

(** A nil [Verifier] interface is [None]. *)
Abbreviation Config := (Resolver.Config PricingRule.t (option ChainVerifier.t)).

(** The values given to [json.Marshal] and to [Encoder.Encode]. *)
Inductive Marshalable : Type :=
| MarshalPaymentResponse (v : PaymentResponse.t)
| MarshalPaymentRequiredResponse (v : PaymentRequiredResponse.t)
| MarshalPaymentPayload (v : PaymentPayload.t)
| MarshalErrorBody (message : string).

(** The functions of the Go standard library that the package calls. *)
Record Lib : Type := {
  path_Match : string -> string -> option bool;
  base64_DecodeString : string -> Result string;
  base64_EncodeToString : string -> string;
  json_Unmarshal_PaymentPayload : string -> Result PaymentPayload.t;
  json_Unmarshal_LegacyPayment : string -> Result LegacyPayment.t;
  json_Unmarshal_PaymentResponse : string -> Result PaymentResponse.t;
  json_Marshal : Marshalable -> Result string;
  Sprintf : string -> list fmtArg -> string
}.

Section Package.
Variable lib : Lib.

Definition Errorf (format : string) (args : list fmtArg) : error :=
  errorString (Sprintf lib format args).

Definition TokenRequirement_Validate (t : TokenRequirement.t)
  : option error :=
  if String.eqb (TokenRequirement.Network t) "" then
    Some (Errorf "network is required" [])
  else if String.eqb (TokenRequirement.Symbol t) "" then
    Some (Errorf "symbol is required" [])
  else if String.eqb (TokenRequirement.Recipient t) "" then
    Some (Errorf "recipient is required" [])
  else if String.eqb (TokenRequirement.AssetContract t) "" then
    Some (Errorf "asset contract is required" [])
  else if String.eqb (TokenRequirement.Amount t) "" then
    Some (Errorf "amount is required" [])
  else None.

Fixpoint validate_tokens (i : Z) (tokens : list TokenRequirement.t)
  : option error :=
  match tokens with
  | [] => None
  | token :: tokens' =>
      match TokenRequirement_Validate token with
      | Some err =>
          Some (Errorf "invalid token requirement at index %d: %w"
                  [ArgInt i; ArgError err])
      | None => validate_tokens (i + 1) tokens'
      end
  end.

Definition PricingRule_Validate (p : PricingRule.t) : option error :=
  if (List.length (PricingRule.AcceptedTokens p) =? 0)%nat then
    Some (Errorf "at least one accepted token is required" [])
  else validate_tokens 0 (PricingRule.AcceptedTokens p).

Fixpoint validate_rules (format : string)
  (order : list (string * PricingRule.t)) : option error :=
  match order with
  | [] => None
  | (pattern, rule) :: order' =>
      match PricingRule_Validate rule with
      | Some err => Some (Errorf format [ArgString pattern; ArgError err])
      | None => validate_rules format order'
      end
  end.

(** [Config.Validate]: the configuration with its default validity
    duration filled in, or the error.  The two orders are those in
    which [range] visits the two pricing maps. *)
Definition Validate (c : Config)
  (endpointOrder methodOrder : list (string * PricingRule.t))
  : Result Config :=
  match Verifier c with
  | None => Err (Errorf "verifier is required" [])
  | Some _ =>
      let c :=
        if ValidityDuration c =? 0 then
          {| Verifier := Verifier c;
             EndpointPricing := EndpointPricing c;
             MethodPricing := MethodPricing c;
             DefaultPricing := DefaultPricing c;
             ValidityDuration := 5 * Minute;
             SkipPaths := SkipPaths c;
             SkipMethods := SkipMethods c;
             CustomPaywallHTML := CustomPaywallHTML c |}
        else c in
      match validate_rules "invalid pricing rule for pattern %q: %w"
              endpointOrder with
      | Some err => Err err
      | None =>
          match validate_rules "invalid pricing rule for method %q: %w"
                  methodOrder with
          | Some err => Err err
          | None =>
              match DefaultPricing c with
              | Some rule =>
                  match PricingRule_Validate rule with
                  | Some err =>
                      Err (Errorf "invalid default pricing rule: %w"
                             [ArgError err])
                  | None => Ok c
                  end
              | None => Ok c
              end
          end
      end
  end.

(** *** [middleware.go] *)

Definition HeaderPaymentSignature : string := "PAYMENT-SIGNATURE".
Definition HeaderPaymentResponse : string := "PAYMENT-RESPONSE".
Definition HeaderPaymentRequired : string := "PAYMENT-REQUIRED".
Definition HeaderLegacyPayment : string := "X-PAYMENT".
Definition HeaderLegacyPaymentResponse : string := "X-PAYMENT-RESPONSE".

Definition buildRequirementsFromRule (rule : option PricingRule.t)
  : Outcome (option PaymentRequirements.t) :=
  rule <- deref rule ;;
  match PricingRule.AcceptedTokens rule with
  | [] => Done None
  | token :: _ =>
      Done (Some {|
        PaymentRequirements.Scheme := "exact";
        PaymentRequirements.Network := TokenRequirement.Network token;
        PaymentRequirements.Amount := PricingRule.Amount rule;
        PaymentRequirements.Asset := TokenRequirement.AssetContract token;
        PaymentRequirements.PayTo := TokenRequirement.Recipient token;
        PaymentRequirements.MaxTimeoutSeconds := 0;
        PaymentRequirements.Extra := None |})
  end.

Definition isBrowserRequest (r : Request) : bool :=
  let userAgent := Header_Get (ReqHeader r) "User-Agent" in
  if String.eqb userAgent "" then false
  else
    existsb (fun indicator => Contains userAgent indicator)
      ["Mozilla/"; "Chrome/"; "Safari/"; "Firefox/"; "Edge/"; "Opera/"].

(** [json.NewEncoder(w).Encode(v)]: the encoding and a newline, or
    nothing when the value cannot be marshalled. *)
Definition Encode (v : Marshalable) (w : ResponseWriter) : ResponseWriter :=
  match json_Marshal lib v with
  | Ok bytes => Write (bytes ++ String "010" EmptyString) w
  | Err _ => w
  end.

Definition sendPaymentRequired (w : World) (r : Request)
  (rule : option PricingRule.t) (cfg : Config) : Outcome World :=
  if negb (String.eqb (CustomPaywallHTML cfg) "") && isBrowserRequest r then
    Done (on_writer (fun w =>
      Write (CustomPaywallHTML cfg)
        (WriteHeader StatusPaymentRequired
           (SetHeader "Content-Type" "text/html; charset=utf-8" w))) w)
  else
    rule <- deref rule ;;
    let accepts :=
      map (fun token => {|
        PaymentRequirements.Scheme := "exact";
        PaymentRequirements.Network := TokenRequirement.Network token;
        PaymentRequirements.Amount := PricingRule.Amount rule;
        PaymentRequirements.Asset := TokenRequirement.AssetContract token;
        PaymentRequirements.PayTo := TokenRequirement.Recipient token;
        PaymentRequirements.MaxTimeoutSeconds :=
          Seconds (ValidityDuration cfg);
        PaymentRequirements.Extra :=
          Some [("name", AnyString (TokenRequirement.TokenName token));
                ("version", AnyString "2")] |})
        (PricingRule.AcceptedTokens rule) in
    let response := {|
      PaymentRequiredResponse.X402Version := 2;
      PaymentRequiredResponse.Error := "Payment required";
      PaymentRequiredResponse.Accepts := accepts |} in
    Done (on_writer (fun w =>
      let w :=
        match json_Marshal lib (MarshalPaymentRequiredResponse response) with
        | Ok responseJSON =>
            SetHeader HeaderPaymentRequired
              (base64_EncodeToString lib responseJSON) w
        | Err _ => w
        end in
      Encode (MarshalPaymentRequiredResponse response)
        (WriteHeader StatusPaymentRequired
           (SetHeader "Content-Type" "application/json" w))) w).

Definition sendError (w : World) (statusCode : Z) (message : string)
  : World :=
  on_writer (fun w =>
    Encode (MarshalErrorBody message)
      (WriteHeader statusCode
         (SetHeader "Content-Type" "application/json" w))) w.

Definition parsePaymentPayload (header : string) : Result PaymentPayload.t :=
  match base64_DecodeString lib header with
  | Err err => Err (Errorf "failed to decode base64: %w" [ArgError err])
  | Ok payloadBytes =>
      match json_Unmarshal_PaymentPayload lib payloadBytes with
      | Err err => Err (Errorf "failed to parse JSON: %w" [ArgError err])
      | Ok payload =>
          if PaymentPayload.X402Version payload <? 2 then
            Err (Errorf
                   "PAYMENT-SIGNATURE header requires x402Version >= 2, got %d"
                   [ArgInt (PaymentPayload.X402Version payload)])
          else if isNil (PaymentPayload.Payload payload) then
            Err (Errorf "payload is required" [])
          else Ok payload
      end
  end.

Definition parseLegacyPayment (header : string)
  (requirements : option PaymentRequirements.t) : Result PaymentPayload.t :=
  match base64_DecodeString lib header with
  | Err err => Err (Errorf "failed to decode base64: %w" [ArgError err])
  | Ok payloadBytes =>
      match json_Unmarshal_LegacyPayment lib payloadBytes with
      | Err err => Err (Errorf "failed to parse JSON: %w" [ArgError err])
      | Ok legacy =>
          if LegacyPayment.X402Version legacy =? 0 then
            Err (Errorf "x402Version is required" [])
          else if String.eqb (LegacyPayment.Scheme legacy) "" then
            Err (Errorf "scheme is required" [])
          else if String.eqb (LegacyPayment.Network legacy) "" then
            Err (Errorf "network is required" [])
          else if isNil (LegacyPayment.Payload legacy) then
            Err (Errorf "payload is required" [])
          else
            let accepted :=
              match requirements with
              | Some requirements => {|
                  PaymentRequirements.Scheme :=
                    LegacyPayment.Scheme legacy;
                  PaymentRequirements.Network :=
                    LegacyPayment.Network legacy;
                  PaymentRequirements.Amount :=
                    PaymentRequirements.Amount requirements;
                  PaymentRequirements.Asset :=
                    PaymentRequirements.Asset requirements;
                  PaymentRequirements.PayTo :=
                    PaymentRequirements.PayTo requirements;
                  PaymentRequirements.MaxTimeoutSeconds := 0;
                  PaymentRequirements.Extra := None |}
              | None => {|
                  PaymentRequirements.Scheme :=
                    LegacyPayment.Scheme legacy;
                  PaymentRequirements.Network :=
                    LegacyPayment.Network legacy;
                  PaymentRequirements.Amount := "";
                  PaymentRequirements.Asset := "";
                  PaymentRequirements.PayTo := "";
                  PaymentRequirements.MaxTimeoutSeconds := 0;
                  PaymentRequirements.Extra := None |}
              end in
            Ok {| PaymentPayload.X402Version :=
                    LegacyPayment.X402Version legacy;
                  PaymentPayload.Accepted := accepted;
                  PaymentPayload.Payload := LegacyPayment.Payload legacy;
                  PaymentPayload.Extensions := None |}
      end
  end.

(** The version detection of the middleware: the credential and whether
    it came under the V2 header. *)
Definition detectPaymentHeader (r : Request) : string * bool :=
  let paymentHeader := Header_Get (ReqHeader r) HeaderPaymentSignature in
  let isV2 := true in
  if String.eqb paymentHeader "" then
    (Header_Get (ReqHeader r) HeaderLegacyPayment, false)
  else (paymentHeader, isV2).

(** The handler that [PaymentMiddleware(cfg)(next)] returns, once
    [cfg.Validate()] has succeeded; [order] is the order in which
    [MatchEndpoint] ranges over the pricing map for this request. *)
Definition ServePayment (cfg : Config) (order : list (string * PricingRule.t))
  (next : Handler) (w : World) (r : Request) : Outcome World :=
  let ctx := ReqContext r in
  let '(rule, requiresPayment) :=
    MatchEndpoint (path_Match lib) cfg order (URL_Path r) in
  if negb requiresPayment then Done (ServeHTTP next w r)
  else
    let '(paymentHeader, isV2) := detectPaymentHeader r in
    if String.eqb paymentHeader "" then sendPaymentRequired w r rule cfg
    else
      requirements <- buildRequirementsFromRule rule ;;
      let parsed :=
        if isV2 then parsePaymentPayload paymentHeader
        else parseLegacyPayment paymentHeader requirements in
      match parsed with
      | Err err =>
          Done (sendError w StatusBadRequest
                  (Sprintf lib "Invalid payment header: %v" [ArgError err]))
      | Ok payload =>
          verifier <- deref (Verifier cfg) ;;
          match ChainVerifier.Verify verifier ctx payload requirements with
          | Err err =>
              Done (sendError w StatusInternalServerError
                      (Sprintf lib "Payment verification error: %v"
                         [ArgError err]))
          | Ok verifyResult =>
              if negb (VerificationResult.Valid verifyResult) then
                sendPaymentRequired w r rule cfg
              else
                match ChainVerifier.Settle verifier ctx payload requirements
                with
                | Err err =>
                    Done (sendError w StatusInternalServerError
                            (Sprintf lib "Payment settlement error: %v"
                               [ArgError err]))
                | Ok settlementResult =>
                    requirements <- deref requirements ;;
                    let paymentCtx := {|
                      PaymentContext.Verified := true;
                      PaymentContext.PayerAddress :=
                        VerificationResult.PayerAddress verifyResult;
                      PaymentContext.Amount :=
                        VerificationResult.Amount verifyResult;
                      PaymentContext.TokenSymbol :=
                        VerificationResult.TokenSymbol verifyResult;
                      PaymentContext.Network :=
                        PaymentRequirements.Network requirements;
                      PaymentContext.TransactionHash :=
                        SettlementResult.TransactionHash settlementResult;
                      PaymentContext.SettledAt :=
                        SettlementResult.SettledAt settlementResult |} in
                    let ctx :=
                      WithValue ctx PaymentContextKey
                        (PaymentContextPtr (Some paymentCtx)) in
                    let paymentResponse := {|
                      PaymentResponse.Success := true;
                      PaymentResponse.Transaction :=
                        SettlementResult.TransactionHash settlementResult;
                      PaymentResponse.Network :=
                        SettlementResult.Network settlementResult;
                      PaymentResponse.Payer :=
                        SettlementResult.PayerAddress settlementResult;
                      PaymentResponse.ErrorReason := "" |} in
                    let w :=
                      match json_Marshal lib
                              (MarshalPaymentResponse paymentResponse) with
                      | Ok responseJSON =>
                          let encoded :=
                            base64_EncodeToString lib responseJSON in
                          if isV2 then
                            on_writer
                              (SetHeader HeaderPaymentResponse encoded) w
                          else
                            on_writer
                              (SetHeader HeaderLegacyPaymentResponse encoded)
                              w
                      | Err _ => w
                      end in
                    Done (ServeHTTP next w (WithContext r ctx))
                end
          end
      end.

(** [PaymentMiddleware]: panics on an invalid configuration. *)
Definition PaymentMiddleware (cfg : Config)
  (endpointOrder methodOrder : list (string * PricingRule.t))
  : Outcome (list (string * PricingRule.t) -> Handler -> World -> Request ->
             Outcome World) :=
  match Validate cfg endpointOrder methodOrder with
  | Err err =>
      Panic (Sprintf lib "invalid x402 middleware configuration: %v"
               [ArgError err])
  | Ok cfg => Done (ServePayment cfg)
  end.

Definition buildAcceptsFromRule (rule : PricingRule.t)
  (validityDuration : Duration) : list PaymentRequirements.t :=
  map (fun token => {|
    PaymentRequirements.Scheme := "exact";
    PaymentRequirements.Network := TokenRequirement.Network token;
    PaymentRequirements.Amount := PricingRule.Amount rule;
    PaymentRequirements.Asset := TokenRequirement.AssetContract token;
    PaymentRequirements.PayTo := TokenRequirement.Recipient token;
    PaymentRequirements.MaxTimeoutSeconds := Seconds validityDuration;
    PaymentRequirements.Extra := None |})
    (PricingRule.AcceptedTokens rule).

Definition EncodePaymentPayload (payload : PaymentPayload.t)
  : Result string :=
  match json_Marshal lib (MarshalPaymentPayload payload) with
  | Err err =>
      Err (Errorf "failed to marshal payment payload: %w" [ArgError err])
  | Ok payloadJSON => Ok (base64_EncodeToString lib payloadJSON)
  end.

Definition DecodePaymentResponse (header : string)
  : Result PaymentResponse.t :=
  match base64_DecodeString lib header with
  | Err err => Err (Errorf "failed to decode base64: %w" [ArgError err])
  | Ok responseBytes =>
      match json_Unmarshal_PaymentResponse lib responseBytes with
      | Err err => Err (Errorf "failed to parse JSON: %w" [ArgError err])
      | Ok response => Ok response
      end
  end.

End Package.

End V2.

(** ** Package [v2/grpc]: metadata codec and interceptors *)

Module GrpcV2.

Import V2.
Local Open Scope outcome_scope.

Definition MetadataKeyPaymentSignature : string := "payment-signature".
Definition MetadataKeyPaymentResponse : string := "payment-response".
Definition MetadataKeyPaymentRequired : string := "payment-required".
Definition MetadataKeyLegacyPayment : string := "x402-payment".
Definition MetadataKeyLegacyPaymentRequirements : string :=
  "x402-payment-requirements".
Definition MetadataKeyLegacyPaymentResponse : string :=
  "x402-payment-response".

Section Package.
Variable lib : Lib.

(** *** [metadata.go] *)

Definition EncodePaymentRequirements (accepts : list PaymentRequirements.t)
  : Result string :=
  let response := {|
    PaymentRequiredResponse.X402Version := 2;
    PaymentRequiredResponse.Error := "payment required";
    PaymentRequiredResponse.Accepts := accepts |} in
  match json_Marshal lib (MarshalPaymentRequiredResponse response) with
  | Err err =>
      Err (Errorf lib "failed to marshal payment requirements: %w"
             [ArgError err])
  | Ok jsonBytes => Ok (base64_EncodeToString lib jsonBytes)
  end.

Definition DecodePaymentPayload (encoded : string)
  : Result PaymentPayload.t :=
  match base64_DecodeString lib encoded with
  | Err err =>
      Err (Errorf lib "failed to decode base64: %w" [ArgError err])
  | Ok jsonBytes =>
      match json_Unmarshal_PaymentPayload lib jsonBytes with
      | Err err =>
          Err (Errorf lib "failed to unmarshal payment payload: %w"
                 [ArgError err])
      | Ok payload =>
          if isNil (PaymentPayload.Payload payload) then
            Err (Errorf lib "payload is required" [])
          else Ok payload
      end
  end.

Definition DecodeLegacyPayment (encoded : string)
  : Result PaymentPayload.t :=
  match base64_DecodeString lib encoded with
  | Err err =>
      Err (Errorf lib "failed to decode base64: %w" [ArgError err])
  | Ok jsonBytes =>
      match json_Unmarshal_LegacyPayment lib jsonBytes with
      | Err err =>
          Err (Errorf lib "failed to unmarshal legacy payment: %w"
                 [ArgError err])
      | Ok legacy =>
          if LegacyPayment.X402Version legacy =? 0 then
            Err (Errorf lib "x402Version is required" [])
          else if String.eqb (LegacyPayment.Scheme legacy) "" then
            Err (Errorf lib "scheme is required" [])
          else if String.eqb (LegacyPayment.Network legacy) "" then
            Err (Errorf lib "network is required" [])
          else if isNil (LegacyPayment.Payload legacy) then
            Err (Errorf lib "payload is required" [])
          else
            Ok {| PaymentPayload.X402Version :=
                    LegacyPayment.X402Version legacy;
                  PaymentPayload.Accepted := {|
                    PaymentRequirements.Scheme :=
                      LegacyPayment.Scheme legacy;
                    PaymentRequirements.Network :=
                      LegacyPayment.Network legacy;
                    PaymentRequirements.Amount := "";
                    PaymentRequirements.Asset := "";
                    PaymentRequirements.PayTo := "";
                    PaymentRequirements.MaxTimeoutSeconds := 0;
                    PaymentRequirements.Extra := None |};
                  PaymentPayload.Payload := LegacyPayment.Payload legacy;
                  PaymentPayload.Extensions := None |}
      end
  end.

Definition EncodePaymentResponse (response : PaymentResponse.t)
  : Result string :=
  match json_Marshal lib (MarshalPaymentResponse response) with
  | Err err =>
      Err (Errorf lib "failed to marshal payment response: %w"
             [ArgError err])
  | Ok jsonBytes => Ok (base64_EncodeToString lib jsonBytes)
  end.

(** [ExtractPaymentFromMetadata]: the decoding result and [isV2]. *)
Definition ExtractPaymentFromMetadata (md : MD)
  : Result PaymentPayload.t * bool :=
  match MD_Get md MetadataKeyPaymentSignature with
  | value :: _ => (DecodePaymentPayload value, true)
  | [] =>
      match MD_Get md MetadataKeyLegacyPayment with
      | value :: _ => (DecodeLegacyPayment value, false)
      | [] => (Err (Errorf lib "no payment found in metadata" []), false)
      end
  end.

Definition BuildPaymentRequirements (rule : option PricingRule.t)
  (fullMethod : string) (validityDuration : Duration)
  : Outcome (list PaymentRequirements.t) :=
  rule <- deref rule ;;
  Done (map (fun token => {|
    PaymentRequirements.Scheme := "exact";
    PaymentRequirements.Network := TokenRequirement.Network token;
    PaymentRequirements.Amount := PricingRule.Amount rule;
    PaymentRequirements.Asset := TokenRequirement.AssetContract token;
    PaymentRequirements.PayTo := TokenRequirement.Recipient token;
    PaymentRequirements.MaxTimeoutSeconds := 0;
    PaymentRequirements.Extra := None |})
    (PricingRule.AcceptedTokens rule)).

(** *** [interceptor.go] *)

Definition sendPaymentRequired (rule : option PricingRule.t)
  (fullMethod : string) (cfg : Config) : Outcome error :=
  accepts <- BuildPaymentRequirements rule fullMethod (ValidityDuration cfg) ;;
  match EncodePaymentRequirements accepts with
  | Err err =>
      Done (statusError Internal
              (Sprintf lib "failed to encode payment requirements: %v"
                 [ArgError err]))
  | Ok encoded => Done (statusError ResourceExhausted encoded)
  end.

Definition paymentContext (verifyResult : VerificationResult.t)
  (requirements : PaymentRequirements.t)
  (settlementResult : SettlementResult.t) : PaymentContext.t := {|
  PaymentContext.Verified := true;
  PaymentContext.PayerAddress := VerificationResult.PayerAddress verifyResult;
  PaymentContext.Amount := VerificationResult.Amount verifyResult;
  PaymentContext.TokenSymbol := VerificationResult.TokenSymbol verifyResult;
  PaymentContext.Network := PaymentRequirements.Network requirements;
  PaymentContext.TransactionHash :=
    SettlementResult.TransactionHash settlementResult;
  PaymentContext.SettledAt := SettlementResult.SettledAt settlementResult |}.

Definition paymentResponse (settlementResult : SettlementResult.t)
  : PaymentResponse.t := {|
  PaymentResponse.Success := true;
  PaymentResponse.Transaction :=
    SettlementResult.TransactionHash settlementResult;
  PaymentResponse.Network := SettlementResult.Network settlementResult;
  PaymentResponse.Payer := SettlementResult.PayerAddress settlementResult;
  PaymentResponse.ErrorReason := "" |}.

(** The version-aware trailer set after the handler has succeeded. *)
Definition setPaymentTrailer (isV2 : bool)
  (settlementResult : SettlementResult.t) (t : Trace) : Trace :=
  match EncodePaymentResponse (paymentResponse settlementResult) with
  | Ok encoded =>
      if isV2 then SetTrailer (Pairs MetadataKeyPaymentResponse encoded) t
      else SetTrailer (Pairs MetadataKeyLegacyPaymentResponse encoded) t
  | Err _ => t
  end.

(** The interceptor that [UnaryServerInterceptor(cfg)] returns, once
    [cfg.Validate()] has succeeded: the pair returned to grpc-go and the
    effects. *)
Definition UnaryIntercept (cfg : Config)
  (order : list (string * PricingRule.t))
  (ctx : Context) (req : Any) (fullMethod : string)
  (handler : UnaryHandler) (t : Trace) : Outcome (Result Any * Trace) :=
  let '(rule, requiresPayment) :=
    MatchMethod (path_Match lib) cfg order fullMethod in
  if negb requiresPayment then Done (handler ctx req, log_handled ctx t)
  else
    match FromIncomingContext ctx with
    | None =>
        err <- sendPaymentRequired rule fullMethod cfg ;; Done (Err err, t)
    | Some md =>
        let '(decoded, isV2) := ExtractPaymentFromMetadata md in
        match decoded with
        | Err _ =>
            err <- sendPaymentRequired rule fullMethod cfg ;;
            Done (Err err, t)
        | Ok payload =>
            accepts <-
              BuildPaymentRequirements rule fullMethod (ValidityDuration cfg) ;;
            match accepts with
            | [] =>
                Done (Err (statusError Internal
                             "no payment requirements configured"), t)
            | requirements :: _ =>
                verifier <- deref (Verifier cfg) ;;
                match ChainVerifier.Verify verifier ctx payload
                        (Some requirements) with
                | Err err =>
                    Done (Err (statusError Internal
                                 (Sprintf lib "payment verification error: %v"
                                    [ArgError err])), t)
                | Ok verifyResult =>
                    if negb (VerificationResult.Valid verifyResult) then
                      err <- sendPaymentRequired rule fullMethod cfg ;;
                      Done (Err err, t)
                    else
                      match ChainVerifier.Settle verifier ctx payload
                              (Some requirements) with
                      | Err err =>
                          Done (Err (statusError Unavailable
                                       (Sprintf lib
                                          "payment settlement failed: %v"
                                          [ArgError err])), t)
                      | Ok settlementResult =>
                          let paymentCtx :=
                            paymentContext verifyResult requirements
                              settlementResult in
                          let ctx :=
                            WithValue ctx PaymentContextKey
                              (PaymentContextPtr (Some paymentCtx)) in
                          let t := log_handled ctx t in
                          match handler ctx req with
                          | Err err => Done (Err err, t)
                          | Ok resp =>
                              Done (Ok resp,
                                    setPaymentTrailer isV2 settlementResult t)
                          end
                      end
                end
            end
        end
    end.

Definition UnaryServerInterceptor (cfg : Config)
  (endpointOrder methodOrder : list (string * PricingRule.t))
  : Outcome (list (string * PricingRule.t) -> Context -> Any -> string ->
             UnaryHandler -> Trace -> Outcome (Result Any * Trace)) :=
  match Validate lib cfg endpointOrder methodOrder with
  | Err err => Panic (Sprintf lib "invalid x402 config: %v" [ArgError err])
  | Ok cfg => Done (UnaryIntercept cfg)
  end.

(** *** [stream_interceptor.go]

    [ctx] is [ss.Context()]; the handler runs on the wrapped stream, whose
    [Context()] is the context with the payment, and whose [SetTrailer]
    is that of [ss]. *)
Definition StreamIntercept (cfg : Config)
  (order : list (string * PricingRule.t))
  (srv : Any) (ctx : Context) (fullMethod : string)
  (handler : StreamHandler) (t : Trace) : Outcome (option error * Trace) :=
  let '(rule, requiresPayment) :=
    MatchMethod (path_Match lib) cfg order fullMethod in
  if negb requiresPayment then Done (handler srv ctx, log_handled ctx t)
  else
    match FromIncomingContext ctx with
    | None =>
        err <- sendPaymentRequired rule fullMethod cfg ;; Done (Some err, t)
    | Some md =>
        let '(decoded, isV2) := ExtractPaymentFromMetadata md in
        match decoded with
        | Err _ =>
            err <- sendPaymentRequired rule fullMethod cfg ;;
            Done (Some err, t)
        | Ok payload =>
            accepts <-
              BuildPaymentRequirements rule fullMethod (ValidityDuration cfg) ;;
            match accepts with
            | [] =>
                Done (Some (statusError Internal
                              "no payment requirements configured"), t)
            | requirements :: _ =>
                verifier <- deref (Verifier cfg) ;;
                match ChainVerifier.Verify verifier ctx payload
                        (Some requirements) with
                | Err err =>
                    Done (Some (statusError Internal
                                  (Sprintf lib
                                     "payment verification error: %v"
                                     [ArgError err])), t)
                | Ok verifyResult =>
                    if negb (VerificationResult.Valid verifyResult) then
                      err <- sendPaymentRequired rule fullMethod cfg ;;
                      Done (Some err, t)
                    else
                      match ChainVerifier.Settle verifier ctx payload
                              (Some requirements) with
                      | Err err =>
                          Done (Some (statusError Unavailable
                                        (Sprintf lib
                                           "payment settlement failed: %v"
                                           [ArgError err])), t)
                      | Ok settlementResult =>
                          let paymentCtx :=
                            paymentContext verifyResult requirements
                              settlementResult in
                          let ctx :=
                            WithValue ctx PaymentContextKey
                              (PaymentContextPtr (Some paymentCtx)) in
                          let t := log_handled ctx t in
                          let handlerErr := handler srv ctx in
                          match handlerErr with
                          | None =>
                              Done (handlerErr,
                                    setPaymentTrailer isV2 settlementResult t)
                          | Some _ => Done (handlerErr, t)
                          end
                      end
                end
            end
        end
    end.

Definition StreamServerInterceptor (cfg : Config)
  (endpointOrder methodOrder : list (string * PricingRule.t))
  : Outcome (list (string * PricingRule.t) -> Any -> Context -> string ->
             StreamHandler -> Trace -> Outcome (option error * Trace)) :=
  match Validate lib cfg endpointOrder methodOrder with
  | Err err => Panic (Sprintf lib "invalid x402 config: %v" [ArgError err])
  | Ok cfg => Done (StreamIntercept cfg)
  end.

End Package.

End GrpcV2.

(** ** The root package (protocol V1): types and HTTP middleware *)

Module V1.

Local Open Scope outcome_scope.

(** *** [types.go] and [config.go] *)

Module TokenRequirement.
Record t : Type := {
  Network : string;
  AssetContract : string;
  Symbol : string;
  Recipient : string;
  TokenName : string;
  TokenDecimals : Z
}.
End TokenRequirement.

Module PricingRule.
Record t : Type := {
  Amount : string;
  AcceptedTokens : list TokenRequirement.t;
  Description : string;
  MimeType : string;
  OutputSchema : option (list (string * Any))
}.
End PricingRule.

Module Payment.
Record t : Type := {
  X402Version : Z;
  Scheme : string;
  Network : string;
  Payload : Any
}.
End Payment.

Module Metadata.
Record t : Type := {
  TokenSymbol : string;
  TokenName : string;
  TokenDecimals : Z
}.
End Metadata.

Module PaymentRequirements.
Record t : Type := {
  X402Version : Z;
  Scheme : string;
  Network : string;
  MaxAmountRequired : string;
  Resource : string;
  Description : string;
  MimeType : string;
  Recipient : string;
  ValidBefore : Z;
  AssetContract : string;
  Metadata : Metadata.t;
  OutputSchema : option (list (string * Any))
}.
End PaymentRequirements.

Module PaymentRequiredResponse.
Record t : Type := {
  Error : string;
  PaymentRequirements : list PaymentRequirements.t
}.
End PaymentRequiredResponse.

Module VerificationResult.
Record t : Type := {
  Valid : bool;
  Reason : string;
  PayerAddress : string;
  Amount : string;
  TokenSymbol : string
}.
End VerificationResult.

Module SettlementResult.
Record t : Type := {
  TransactionHash : string;
  Status : string;
  SettledAt : Time;
  Amount : string;
  PayerAddress : string;
  RecipientAddress : string
}.
End SettlementResult.

Module PaymentResponse.
Record t : Type := {
  TransactionHash : string;
  Status : string;
  Message : string
}.
End PaymentResponse.

Module NetworkInfo.
Record t : Type := {
  Network : string;
  ChainID : string;
  ChainType : string;
  NativeCurrency : string
}.
End NetworkInfo.

Module ChainVerifier.
Record t : Type := {
  Verify : Context -> Payment.t -> Result VerificationResult.t;
  Settle : Context -> Payment.t -> Result SettlementResult.t;
  SupportedNetworks : list NetworkInfo.t
}.
End ChainVerifier.

Abbreviation Config := (Resolver.Config PricingRule.t (option ChainVerifier.t)).

Inductive Marshalable : Type :=
| MarshalPaymentResponse (v : PaymentResponse.t)
| MarshalPaymentRequiredResponse (v : PaymentRequiredResponse.t)
| MarshalPayment (v : Payment.t)
| MarshalErrorBody (message : string).

(** The functions of the Go standard library that the package calls. *)
Record Lib : Type := {
  path_Match : string -> string -> option bool;
  base64_DecodeString : string -> Result string;
  base64_EncodeToString : string -> string;
  json_Unmarshal_Payment : string -> Result Payment.t;
  json_Unmarshal_PaymentResponse : string -> Result PaymentResponse.t;
  json_Marshal : Marshalable -> Result string;
  Sprintf : string -> list fmtArg -> string
}.

(** [t.Unix()]: seconds since the Unix epoch. *)
Definition Unix (t : Time) : Z := t / 1000000000 - 62135596800.

Section Package.
Variable lib : Lib.

Definition Errorf (format : string) (args : list fmtArg) : error :=
  errorString (Sprintf lib format args).

Definition TokenRequirement_Validate (t : TokenRequirement.t)
  : option error :=
  if String.eqb (TokenRequirement.Network t) "" then
    Some (Errorf "network is required" [])
  else if String.eqb (TokenRequirement.Symbol t) "" then
    Some (Errorf "symbol is required" [])
  else if String.eqb (TokenRequirement.Recipient t) "" then
    Some (Errorf "recipient is required" [])
  else if String.eqb (TokenRequirement.AssetContract t) "" then
    Some (Errorf "asset contract is required" [])
  else None.

Fixpoint validate_tokens (i : Z) (tokens : list TokenRequirement.t)
  : option error :=
  match tokens with
  | [] => None
  | token :: tokens' =>
      match TokenRequirement_Validate token with
      | Some err =>
          Some (Errorf "invalid token requirement at index %d: %w"
                  [ArgInt i; ArgError err])
      | None => validate_tokens (i + 1) tokens'
      end
  end.

Definition PricingRule_Validate (p : PricingRule.t) : option error :=
  if String.eqb (PricingRule.Amount p) "" then
    Some (Errorf "amount is required" [])
  else if (List.length (PricingRule.AcceptedTokens p) =? 0)%nat then
    Some (Errorf "at least one accepted token is required" [])
  else validate_tokens 0 (PricingRule.AcceptedTokens p).

Fixpoint validate_rules (format : string)
  (order : list (string * PricingRule.t)) : option error :=
  match order with
  | [] => None
  | (pattern, rule) :: order' =>
      match PricingRule_Validate rule with
      | Some err => Some (Errorf format [ArgString pattern; ArgError err])
      | None => validate_rules format order'
      end
  end.

Definition Validate (c : Config)
  (endpointOrder methodOrder : list (string * PricingRule.t))
  : Result Config :=
  match Verifier c with
  | None => Err (Errorf "verifier is required" [])
  | Some _ =>
      let c :=
        if ValidityDuration c =? 0 then
          {| Verifier := Verifier c;
             EndpointPricing := EndpointPricing c;
             MethodPricing := MethodPricing c;
             DefaultPricing := DefaultPricing c;
             ValidityDuration := 5 * Minute;
             SkipPaths := SkipPaths c;
             SkipMethods := SkipMethods c;
             CustomPaywallHTML := CustomPaywallHTML c |}
        else c in
      match validate_rules "invalid pricing rule for pattern %q: %w"
              endpointOrder with
      | Some err => Err err
      | None =>
          match validate_rules "invalid pricing rule for method %q: %w"
                  methodOrder with
          | Some err => Err err
          | None =>
              match DefaultPricing c with
              | Some rule =>
                  match PricingRule_Validate rule with
                  | Some err =>
                      Err (Errorf "invalid default pricing rule: %w"
                             [ArgError err])
                  | None => Ok c
                  end
              | None => Ok c
              end
          end
      end
  end.

(** *** [middleware.go] *)

(** [findSubstring]: a window of [s] equals [substr]. *)
Definition findSubstring (s substr : string) : bool :=
  existsb
    (fun i => String.eqb (String.substring i (len substr) s) substr)
    (seq 0 (len s - len substr + 1)).

Definition contains (s substr : string) : bool :=
  (len substr <=? len s)%nat && findSubstring s substr.

Definition isBrowserRequest (r : Request) : bool :=
  let userAgent := Header_Get (ReqHeader r) "User-Agent" in
  if String.eqb userAgent "" then false
  else
    existsb (fun indicator => contains userAgent indicator)
      ["Mozilla/"; "Chrome/"; "Safari/"; "Firefox/"; "Edge/"; "Opera/"].

Definition Encode (v : Marshalable) (w : ResponseWriter) : ResponseWriter :=
  match json_Marshal lib v with
  | Ok bytes => Write (bytes ++ String "010" EmptyString) w
  | Err _ => w
  end.

(** The requirement offered for one token; [resource] is the request
    path or the full method. *)
Definition requirementFor (rule : PricingRule.t) (resource : string)
  (validBefore : Z) (token : TokenRequirement.t) : PaymentRequirements.t := {|
  PaymentRequirements.X402Version := 1;
  PaymentRequirements.Scheme := "exact";
  PaymentRequirements.Network := TokenRequirement.Network token;
  PaymentRequirements.MaxAmountRequired := PricingRule.Amount rule;
  PaymentRequirements.Resource := resource;
  PaymentRequirements.Description := PricingRule.Description rule;
  PaymentRequirements.MimeType := PricingRule.MimeType rule;
  PaymentRequirements.Recipient := TokenRequirement.Recipient token;
  PaymentRequirements.ValidBefore := validBefore;
  PaymentRequirements.AssetContract := TokenRequirement.AssetContract token;
  PaymentRequirements.Metadata := {|
    Metadata.TokenSymbol := TokenRequirement.Symbol token;
    Metadata.TokenName := TokenRequirement.TokenName token;
    Metadata.TokenDecimals := TokenRequirement.TokenDecimals token |};
  PaymentRequirements.OutputSchema := PricingRule.OutputSchema rule |}.

(** [now] is what [time.Now()] returns during the call. *)
Definition sendPaymentRequired (now : Time) (w : World) (r : Request)
  (rule : option PricingRule.t) (cfg : Config) : Outcome World :=
  let isBrowser := isBrowserRequest r in
  if negb (String.eqb (CustomPaywallHTML cfg) "") && isBrowser then
    Done (on_writer (fun w =>
      Write (CustomPaywallHTML cfg)
        (WriteHeader StatusPaymentRequired
           (SetHeader "Content-Type" "text/html; charset=utf-8" w))) w)
  else
    rule <- deref rule ;;
    let validBefore := Unix (now + ValidityDuration cfg) in
    let requirements :=
      map (requirementFor rule (URL_Path r) validBefore)
        (PricingRule.AcceptedTokens rule) in
    let response := {|
      PaymentRequiredResponse.Error := "Payment required";
      PaymentRequiredResponse.PaymentRequirements := requirements |} in
    Done (on_writer (fun w =>
      Encode (MarshalPaymentRequiredResponse response)
        (WriteHeader StatusPaymentRequired
           (SetHeader "Content-Type" "application/json" w))) w).

Definition sendError (w : World) (statusCode : Z) (message : string)
  : World :=
  on_writer (fun w =>
    Encode (MarshalErrorBody message)
      (WriteHeader statusCode
         (SetHeader "Content-Type" "application/json" w))) w.

Definition parsePayment (xPaymentHeader : string) : Result Payment.t :=
  match base64_DecodeString lib xPaymentHeader with
  | Err err => Err (Errorf "failed to decode base64: %w" [ArgError err])
  | Ok payloadBytes =>
      match json_Unmarshal_Payment lib payloadBytes with
      | Err err => Err (Errorf "failed to parse JSON: %w" [ArgError err])
      | Ok payment =>
          if Payment.X402Version payment =? 0 then
            Err (Errorf "x402Version is required" [])
          else if String.eqb (Payment.Scheme payment) "" then
            Err (Errorf "scheme is required" [])
          else if String.eqb (Payment.Network payment) "" then
            Err (Errorf "network is required" [])
          else if isNil (Payment.Payload payment) then
            Err (Errorf "payload is required" [])
          else Ok payment
      end
  end.

Definition paymentContext (verifyResult : VerificationResult.t)
  (payment : Payment.t) (settlementResult : SettlementResult.t)
  : PaymentContext.t := {|
  PaymentContext.Verified := true;
  PaymentContext.PayerAddress := VerificationResult.PayerAddress verifyResult;
  PaymentContext.Amount := VerificationResult.Amount verifyResult;
  PaymentContext.TokenSymbol := VerificationResult.TokenSymbol verifyResult;
  PaymentContext.Network := Payment.Network payment;
  PaymentContext.TransactionHash :=
    SettlementResult.TransactionHash settlementResult;
  PaymentContext.SettledAt := SettlementResult.SettledAt settlementResult |}.

Definition paymentResponse (settlementResult : SettlementResult.t)
  : PaymentResponse.t := {|
  PaymentResponse.TransactionHash :=
    SettlementResult.TransactionHash settlementResult;
  PaymentResponse.Status := SettlementResult.Status settlementResult;
  PaymentResponse.Message := "" |}.

(** The handler that [PaymentMiddleware(cfg)(next)] returns, once
    [cfg.Validate()] has succeeded. *)
Definition ServePayment (cfg : Config) (order : list (string * PricingRule.t))
  (now : Time) (next : Handler) (w : World) (r : Request) : Outcome World :=
  let ctx := ReqContext r in
  let '(rule, requiresPayment) :=
    MatchEndpoint (path_Match lib) cfg order (URL_Path r) in
  if negb requiresPayment then Done (ServeHTTP next w r)
  else
    let xPayment := Header_Get (ReqHeader r) "X-PAYMENT" in
    if String.eqb xPayment "" then sendPaymentRequired now w r rule cfg
    else
      match parsePayment xPayment with
      | Err err =>
          Done (sendError w StatusBadRequest
                  (Sprintf lib "Invalid X-PAYMENT header: %v"
                     [ArgError err]))
      | Ok payment =>
          verifier <- deref (Verifier cfg) ;;
          match ChainVerifier.Verify verifier ctx payment with
          | Err err =>
              Done (sendError w StatusInternalServerError
                      (Sprintf lib "Payment verification error: %v"
                         [ArgError err]))
          | Ok verifyResult =>
              if negb (VerificationResult.Valid verifyResult) then
                sendPaymentRequired now w r rule cfg
              else
                match ChainVerifier.Settle verifier ctx payment with
                | Err err =>
                    Done (sendError w StatusInternalServerError
                            (Sprintf lib "Payment settlement error: %v"
                               [ArgError err]))
                | Ok settlementResult =>
                    let paymentCtx :=
                      paymentContext verifyResult payment settlementResult in
                    let ctx :=
                      WithValue ctx PaymentContextKey
                        (PaymentContextPtr (Some paymentCtx)) in
                    let w :=
                      match json_Marshal lib
                              (MarshalPaymentResponse
                                 (paymentResponse settlementResult)) with
                      | Ok responseJSON =>
                          on_writer
                            (SetHeader "X-PAYMENT-RESPONSE"
                               (base64_EncodeToString lib responseJSON)) w
                      | Err _ => w
                      end in
                    Done (ServeHTTP next w (WithContext r ctx))
                end
          end
      end.

Definition PaymentMiddleware (cfg : Config)
  (endpointOrder methodOrder : list (string * PricingRule.t))
  : Outcome (list (string * PricingRule.t) -> Time -> Handler -> World ->
             Request -> Outcome World) :=
  match Validate cfg endpointOrder methodOrder with
  | Err err =>
      Panic (Sprintf lib "invalid x402 middleware configuration: %v"
               [ArgError err])
  | Ok cfg => Done (ServePayment cfg)
  end.

End Package.

End V1.

(** ** Package [grpc] of the root module (protocol V1) *)

Module GrpcV1.

Import V1.
Local Open Scope outcome_scope.

Definition MetadataKeyPaymentRequirements : string :=
  "x402-payment-requirements".
Definition MetadataKeyPayment : string := "x402-payment".
Definition MetadataKeyPaymentResponse : string := "x402-payment-response".

Section Package.
Variable lib : Lib.

Definition EncodePaymentRequirements
  (requirements : list PaymentRequirements.t) : Result string :=
  let response := {|
    PaymentRequiredResponse.Error := "payment required";
    PaymentRequiredResponse.PaymentRequirements := requirements |} in
  match json_Marshal lib (MarshalPaymentRequiredResponse response) with
  | Err err =>
      Err (Errorf lib "failed to marshal payment requirements: %w"
             [ArgError err])
  | Ok jsonBytes => Ok (base64_EncodeToString lib jsonBytes)
  end.

Definition DecodePayment (encoded : string) : Result Payment.t :=
  match base64_DecodeString lib encoded with
  | Err err =>
      Err (Errorf lib "failed to decode base64: %w" [ArgError err])
  | Ok jsonBytes =>
      match json_Unmarshal_Payment lib jsonBytes with
      | Err err =>
          Err (Errorf lib "failed to unmarshal payment: %w" [ArgError err])
      | Ok payment =>
          if Payment.X402Version payment =? 0 then
            Err (Errorf lib "x402Version is required" [])
          else if String.eqb (Payment.Scheme payment) "" then
            Err (Errorf lib "scheme is required" [])
          else if String.eqb (Payment.Network payment) "" then
            Err (Errorf lib "network is required" [])
          else if isNil (Payment.Payload payment) then
            Err (Errorf lib "payload is required" [])
          else Ok payment
      end
  end.

Definition EncodePaymentResponse (response : PaymentResponse.t)
  : Result string :=
  match json_Marshal lib (MarshalPaymentResponse response) with
  | Err err =>
      Err (Errorf lib "failed to marshal payment response: %w"
             [ArgError err])
  | Ok jsonBytes => Ok (base64_EncodeToString lib jsonBytes)
  end.

Definition BuildPaymentRequirements (now : Time)
  (rule : option PricingRule.t) (fullMethod : string)
  (validityDuration : Duration) : Outcome (list PaymentRequirements.t) :=
  rule <- deref rule ;;
  let validBefore := Unix (now + validityDuration) in
  Done (map (requirementFor rule fullMethod validBefore)
          (PricingRule.AcceptedTokens rule)).

Definition sendPaymentRequiredWithReason (now : Time)
  (rule : option PricingRule.t) (fullMethod : string) (cfg : Config)
  (reason : string) : Outcome error :=
  requirements <-
    BuildPaymentRequirements now rule fullMethod (ValidityDuration cfg) ;;
  match EncodePaymentRequirements requirements with
  | Err err =>
      Done (statusError Internal
              (Sprintf lib "failed to encode payment requirements: %v"
                 [ArgError err]))
  | Ok encoded => Done (statusError ResourceExhausted encoded)
  end.

Definition sendPaymentRequired (now : Time) (rule : option PricingRule.t)
  (fullMethod : string) (cfg : Config) : Outcome error :=
  sendPaymentRequiredWithReason now rule fullMethod cfg "".

Definition setPaymentTrailer (settlementResult : SettlementResult.t)
  (t : Trace) : Trace :=
  match EncodePaymentResponse (paymentResponse settlementResult) with
  | Ok encoded => SetTrailer (Pairs MetadataKeyPaymentResponse encoded) t
  | Err _ => t
  end.

(** The interceptor that [UnaryServerInterceptor(cfg)] returns, once
    [cfg.Validate()] has succeeded. *)
Definition UnaryIntercept (cfg : Config)
  (order : list (string * PricingRule.t)) (now : Time)
  (ctx : Context) (req : Any) (fullMethod : string)
  (handler : UnaryHandler) (t : Trace) : Outcome (Result Any * Trace) :=
  let '(rule, requiresPayment) :=
    MatchMethod (path_Match lib) cfg order fullMethod in
  if negb requiresPayment then Done (handler ctx req, log_handled ctx t)
  else
    match FromIncomingContext ctx with
    | None =>
        err <- sendPaymentRequired now rule fullMethod cfg ;;
        Done (Err err, t)
    | Some md =>
        match MD_Get md MetadataKeyPayment with
        | [] =>
            err <- sendPaymentRequired now rule fullMethod cfg ;;
            Done (Err err, t)
        | value :: _ =>
            match DecodePayment value with
            | Err err =>
                Done (Err (statusError InvalidArgument
                             (Sprintf lib "invalid payment: %v"
                                [ArgError err])), t)
            | Ok payment =>
                verifier <- deref (Verifier cfg) ;;
                match ChainVerifier.Verify verifier ctx payment with
                | Err err =>
                    Done (Err (statusError Internal
                                 (Sprintf lib "payment verification error: %v"
                                    [ArgError err])), t)
                | Ok verifyResult =>
                    if negb (VerificationResult.Valid verifyResult) then
                      err <-
                        sendPaymentRequiredWithReason now rule fullMethod cfg
                          (VerificationResult.Reason verifyResult) ;;
                      Done (Err err, t)
                    else
                      match ChainVerifier.Settle verifier ctx payment with
                      | Err err =>
                          Done (Err (statusError Unavailable
                                       (Sprintf lib
                                          "payment settlement failed: %v"
                                          [ArgError err])), t)
                      | Ok settlementResult =>
                          let paymentCtx :=
                            paymentContext verifyResult payment
                              settlementResult in
                          let ctx :=
                            WithValue ctx PaymentContextKey
                              (PaymentContextPtr (Some paymentCtx)) in
                          let t := log_handled ctx t in
                          match handler ctx req with
                          | Err err => Done (Err err, t)
                          | Ok resp =>
                              Done (Ok resp,
                                    setPaymentTrailer settlementResult t)
                          end
                      end
                end
            end
        end
    end.

(** The stream interceptor, on [ctx = ss.Context()]. *)
Definition StreamIntercept (cfg : Config)
  (order : list (string * PricingRule.t)) (now : Time)
  (srv : Any) (ctx : Context) (fullMethod : string)
  (handler : StreamHandler) (t : Trace) : Outcome (option error * Trace) :=
  let '(rule, requiresPayment) :=
    MatchMethod (path_Match lib) cfg order fullMethod in
  if negb requiresPayment then Done (handler srv ctx, log_handled ctx t)
  else
    match FromIncomingContext ctx with
    | None =>
        err <- sendPaymentRequired now rule fullMethod cfg ;;
        Done (Some err, t)
    | Some md =>
        match MD_Get md MetadataKeyPayment with
        | [] =>
            err <- sendPaymentRequired now rule fullMethod cfg ;;
            Done (Some err, t)
        | value :: _ =>
            match DecodePayment value with
            | Err err =>
                Done (Some (statusError InvalidArgument
                              (Sprintf lib "invalid payment: %v"
                                 [ArgError err])), t)
            | Ok payment =>
                verifier <- deref (Verifier cfg) ;;
                match ChainVerifier.Verify verifier ctx payment with
                | Err err =>
                    Done (Some (statusError Internal
                                  (Sprintf lib
                                     "payment verification error: %v"
                                     [ArgError err])), t)
                | Ok verifyResult =>
                    if negb (VerificationResult.Valid verifyResult) then
                      err <-
                        sendPaymentRequiredWithReason now rule fullMethod cfg
                          (VerificationResult.Reason verifyResult) ;;
                      Done (Some err, t)
                    else
                      match ChainVerifier.Settle verifier ctx payment with
                      | Err err =>
                          Done (Some (statusError Unavailable
                                        (Sprintf lib
                                           "payment settlement failed: %v"
                                           [ArgError err])), t)
                      | Ok settlementResult =>
                          let paymentCtx :=
                            paymentContext verifyResult payment
                              settlementResult in
                          let ctx :=
                            WithValue ctx PaymentContextKey
                              (PaymentContextPtr (Some paymentCtx)) in
                          let t := log_handled ctx t in
                          let err := handler srv ctx in
                          match err with
                          | None =>
                              Done (err, setPaymentTrailer settlementResult t)
                          | Some _ => Done (err, t)
                          end
                      end
                end
            end
        end
    end.

Definition UnaryServerInterceptor (cfg : Config)
  (endpointOrder methodOrder : list (string * PricingRule.t))
  : Outcome (list (string * PricingRule.t) -> Time -> Context -> Any ->
             string -> UnaryHandler -> Trace ->
             Outcome (Result Any * Trace)) :=
  match Validate lib cfg endpointOrder methodOrder with
  | Err err => Panic (Sprintf lib "invalid x402 config: %v" [ArgError err])
  | Ok cfg => Done (UnaryIntercept cfg)
  end.

Definition StreamServerInterceptor (cfg : Config)
  (endpointOrder methodOrder : list (string * PricingRule.t))
  : Outcome (list (string * PricingRule.t) -> Time -> Any -> Context ->
             string -> StreamHandler -> Trace ->
             Outcome (option error * Trace)) :=
  match Validate lib cfg endpointOrder methodOrder with
  | Err err => Panic (Sprintf lib "invalid x402 config: %v" [ArgError err])
  | Ok cfg => Done (StreamIntercept cfg)
  end.

End Package.

End GrpcV1.

(** ** [grpcgateway.go]: payment facts across the gateway *)

Module Gateway.

(** The annotator that [WithPaymentMetadata] registers with
    [runtime.WithMetadata]. *)
Definition WithPaymentMetadata (ctx : Context) (r : Request) : MD :=
  let md : MD := ∅ in
  match GetPaymentFromContext ctx with
  | (Some payment, true) =>
      if PaymentContext.Verified payment then
        let md := MD_Set md "x-payment-verified" ["true"] in
        let md :=
          MD_Set md "x-payment-payer" [PaymentContext.PayerAddress payment] in
        let md := MD_Set md "x-payment-amount" [PaymentContext.Amount payment] in
        let md :=
          MD_Set md "x-payment-network" [PaymentContext.Network payment] in
        let md :=
          if negb (String.eqb (PaymentContext.TokenSymbol payment) "") then
            MD_Set md "x-payment-token" [PaymentContext.TokenSymbol payment]
          else md in
        let md :=
          if negb (String.eqb (PaymentContext.TransactionHash payment) "") then
            MD_Set md "x-payment-tx-hash"
              [PaymentContext.TransactionHash payment]
          else md in
        md
      else md
  | _ => md
  end.

Definition first_or {A : Type} (vals : list A) (default : A) : A :=
  match vals with
  | v :: _ => v
  | [] => default
  end.

Definition GetPaymentFromGRPCContext (ctx : Context)
  : option PaymentContext.t * bool :=
  match FromIncomingContext ctx with
  | None => (None, false)
  | Some md =>
      match MD_Get md "x-payment-verified" with
      | verified :: _ =>
          if negb (String.eqb verified "true") then (None, false)
          else
            (Some {|
               PaymentContext.Verified := true;
               PaymentContext.PayerAddress :=
                 first_or (MD_Get md "x-payment-payer") "";
               PaymentContext.Amount :=
                 first_or (MD_Get md "x-payment-amount") "";
               PaymentContext.TokenSymbol :=
                 first_or (MD_Get md "x-payment-token") "";
               PaymentContext.Network :=
                 first_or (MD_Get md "x-payment-network") "";
               PaymentContext.TransactionHash :=
                 first_or (MD_Get md "x-payment-tx-hash") "";
               PaymentContext.SettledAt := Time_zero |}, true)
      | [] => (None, false)
      end
  end.

(** What the gateway carries of a payment: every field but the settlement
    time, for which no metadata key exists. *)
Definition carried (payment : PaymentContext.t) : PaymentContext.t := {|
  PaymentContext.Verified := PaymentContext.Verified payment;
  PaymentContext.PayerAddress := PaymentContext.PayerAddress payment;
  PaymentContext.Amount := PaymentContext.Amount payment;
  PaymentContext.TokenSymbol := PaymentContext.TokenSymbol payment;
  PaymentContext.Network := PaymentContext.Network payment;
  PaymentContext.TransactionHash := PaymentContext.TransactionHash payment;
  PaymentContext.SettledAt := Time_zero |}.

(** The context of the gRPC handler behind the gateway: the metadata of
    the annotator arrives as the incoming metadata. *)
Definition forward (ctx : Context) (r : Request) : Context :=
  {| values := []; incomingMD := Some (WithPaymentMetadata ctx r) |}.

End Gateway.

(** ** An instance of the library parameters, and test data

    [base64] follows [encoding/base64.StdEncoding]; the JSON functions are
    test doubles that know the documents of the packages' own tests.  The
    theorems below hold for every instance of the parameters; this one
    serves to evaluate the middleware on concrete requests. *)

Module Testdata.

(** *** [base64.StdEncoding] *)

Definition encodeStd : string :=
  "ABCDEFGHIJKLMNOPQRSTUVWXYZabcdefghijklmnopqrstuvwxyz0123456789+/".

Definition sextet_char (n : nat) : ascii :=
  match String.get n encodeStd with
  | Some c => c
  | None => "="%char
  end.

Fixpoint index_in (c : ascii) (s : string) (i : nat) : option nat :=
  match s with
  | EmptyString => None
  | String d s' => if Ascii.eqb c d then Some i else index_in c s' (S i)
  end.

Definition char_sextet (c : ascii) : option nat := index_in c encodeStd 0.

Definition byte_of (n : nat) : ascii := ascii_of_nat (n mod 256).

Fixpoint encode_bytes (l : list nat) : string :=
  match l with
  | [] => EmptyString
  | [a] =>
      String (sextet_char (a / 4))
        (String (sextet_char ((a mod 4) * 16)) "==")
  | [a; b] =>
      String (sextet_char (a / 4))
        (String (sextet_char ((a mod 4) * 16 + b / 16))
           (String (sextet_char ((b mod 16) * 4)) "="))
  | a :: b :: c :: l' =>
      String (sextet_char (a / 4))
        (String (sextet_char ((a mod 4) * 16 + b / 16))
           (String (sextet_char ((b mod 16) * 4 + c / 64))
              (String (sextet_char (c mod 64)) (encode_bytes l'))))
  end%nat.

Definition bytes_of (s : string) : list nat :=
  map nat_of_ascii (list_ascii_of_string s).

Definition EncodeToString (src : string) : string :=
  encode_bytes (bytes_of src).

Definition is_pad (c : ascii) : bool := Ascii.eqb c "="%char.

(** Quanta of four characters; padding is required and may only close the
    input. *)
Fixpoint decode_quanta (fuel : nat) (l : list ascii) : option string :=
  match fuel with
  | O => None
  | S fuel' =>
      match l with
      | [] => Some EmptyString
      | [a; b; c; d] =>
          match char_sextet a, char_sextet b with
          | Some x, Some y =>
              let b0 := byte_of (x * 4 + y / 16) in
              if is_pad c && is_pad d then Some (String b0 EmptyString)
              else
                match char_sextet c with
                | Some z =>
                    let b1 := byte_of ((y mod 16) * 16 + z / 4) in
                    if is_pad d then Some (String b0 (String b1 EmptyString))
                    else
                      match char_sextet d with
                      | Some u =>
                          let b2 := byte_of ((z mod 4) * 64 + u) in
                          Some (String b0 (String b1 (String b2 EmptyString)))
                      | None => None
                      end
                | None => None
                end
          | _, _ => None
          end
      | a :: b :: c :: d :: l' =>
          match char_sextet a, char_sextet b, char_sextet c, char_sextet d with
          | Some x, Some y, Some z, Some u =>
              match decode_quanta fuel' l' with
              | Some rest =>
                  Some (String (byte_of (x * 4 + y / 16))
                          (String (byte_of ((y mod 16) * 16 + z / 4))
                             (String (byte_of ((z mod 4) * 64 + u)) rest)))
              | None => None
              end
          | _, _, _, _ => None
          end
      | _ => None
      end
  end%nat.

Definition is_newline (c : ascii) : bool :=
  Ascii.eqb c "010"%char || Ascii.eqb c "013"%char.

Definition DecodeString (s : string) : Result string :=
  let l := List.filter (fun c => negb (is_newline c)) (list_ascii_of_string s) in
  match decode_quanta (S (List.length l)) l with
  | Some bytes => Ok bytes
  | None => Err (errorString "illegal base64 data")
  end.

(** *** JSON documents *)

Definition quote : string := String (ascii_of_nat 34) EmptyString.

Definition quoted (s : string) : string := quote ++ s ++ quote.

(** The text of a document whose strings need no escaping. *)
Fixpoint print (v : Any) : string :=
  match v with
  | AnyNil => "null"
  | AnyBool true => "true"
  | AnyBool false => "false"
  | AnyNumber literal => literal
  | AnyString s => quoted s
  | AnyList l =>
      let fix elements (l : list Any) : string :=
        match l with
        | [] => EmptyString
        | [x] => print x
        | x :: l' => print x ++ "," ++ elements l'
        end in
      "[" ++ elements l ++ "]"
  | AnyMap m =>
      let fix members (m : list (string * Any)) : string :=
        match m with
        | [] => EmptyString
        | [(k, x)] => quoted k ++ ":" ++ print x
        | (k, x) :: m' => quoted k ++ ":" ++ print x ++ "," ++ members m'
        end in
      "{" ++ members m ++ "}"
  end.

Definition omitempty (key value : string) : list (string * Any) :=
  if String.eqb value "" then [] else [(key, AnyString value)].

Fixpoint digits (fuel : nat) (n : nat) (acc : string) : string :=
  match fuel with
  | O => acc
  | S fuel' =>
      let acc := String (ascii_of_nat (48 + n mod 10)) acc in
      if (n / 10 =? 0)%nat then acc else digits fuel' (n / 10) acc
  end%nat.

Definition decimal (i : Z) : string :=
  let n := Z.to_nat (Z.abs i) in
  (if i <? 0 then "-" else "") ++ digits (S n) n EmptyString.

(** *** [fmt.Sprintf] for the verbs that the packages use *)

Definition Code_String (c : Code) : string :=
  match c with
  | OK => "OK" | Canceled => "Canceled" | Unknown => "Unknown"
  | InvalidArgument => "InvalidArgument"
  | DeadlineExceeded => "DeadlineExceeded" | NotFound => "NotFound"
  | AlreadyExists => "AlreadyExists" | PermissionDenied => "PermissionDenied"
  | ResourceExhausted => "ResourceExhausted"
  | FailedPrecondition => "FailedPrecondition" | Aborted => "Aborted"
  | OutOfRange => "OutOfRange" | Unimplemented => "Unimplemented"
  | Internal => "Internal" | Unavailable => "Unavailable"
  | DataLoss => "DataLoss" | Unauthenticated => "Unauthenticated"
  end.

Definition Error (e : error) : string :=
  match e with
  | errorString msg => msg
  | statusError code msg =>
      "rpc error: code = " ++ Code_String code ++ " desc = " ++ msg
  end.

Definition format_arg (verb : ascii) (a : fmtArg) : string :=
  let text :=
    match a with
    | ArgString s => s
    | ArgInt i => decimal i
    | ArgError e => Error e
    end in
  if Ascii.eqb verb "q"%char then quoted text else text.

Fixpoint Sprintf (format : string) (args : list fmtArg) : string :=
  match format with
  | String "%" (String verb rest) =>
      match args with
      | a :: args' => format_arg verb a ++ Sprintf rest args'
      | [] => "%!" ++ String verb "(MISSING)" ++ Sprintf rest []
      end
  | String c rest => String c (Sprintf rest args)
  | EmptyString => EmptyString
  end.

(** *** Documents of [middleware_test.go] and [metadata_test.go] *)

Definition authorization : Any :=
  AnyMap [("from", AnyString "0xPayer"); ("to", AnyString "0xRecipient");
          ("value", AnyString "1000000"); ("validAfter", AnyNumber "0");
          ("validBefore", AnyNumber "9999999999");
          ("nonce", AnyString "0xnonce123")].

Definition evmPayload : Any :=
  AnyMap [("authorization", authorization); ("signature", AnyString "0xsig123")].

Definition v2Accepted : V2.PaymentRequirements.t := {|
  V2.PaymentRequirements.Scheme := "exact";
  V2.PaymentRequirements.Network := "eip155:84532";
  V2.PaymentRequirements.Amount := "1000000";
  V2.PaymentRequirements.Asset := "0x036CbD53842c5426634e7929541eC2318f3dCF7e";
  V2.PaymentRequirements.PayTo := "0xRecipient";
  V2.PaymentRequirements.MaxTimeoutSeconds := 0;
  V2.PaymentRequirements.Extra := None |}.

Definition requirements_doc (q : V2.PaymentRequirements.t) : Any :=
  AnyMap ([("scheme", AnyString (V2.PaymentRequirements.Scheme q));
           ("network", AnyString (V2.PaymentRequirements.Network q));
           ("amount", AnyString (V2.PaymentRequirements.Amount q));
           ("asset", AnyString (V2.PaymentRequirements.Asset q));
           ("payTo", AnyString (V2.PaymentRequirements.PayTo q))]
          ++ (if V2.PaymentRequirements.MaxTimeoutSeconds q =? 0 then []
              else [("maxTimeoutSeconds",
                     AnyNumber
                       (decimal (V2.PaymentRequirements.MaxTimeoutSeconds q)))])
          ++ match V2.PaymentRequirements.Extra q with
             | Some ((_ :: _) as extra) => [("extra", AnyMap extra)]
             | _ => []
             end).

Definition payload_doc (p : V2.PaymentPayload.t) : Any :=
  AnyMap ([("x402Version", AnyNumber (decimal (V2.PaymentPayload.X402Version p)));
           ("accepted", requirements_doc (V2.PaymentPayload.Accepted p))]
          ++ [("payload", V2.PaymentPayload.Payload p)]).

(** The payload of [makeV2PaymentHeader]. *)
Definition v2Payload : V2.PaymentPayload.t := {|
  V2.PaymentPayload.X402Version := 2;
  V2.PaymentPayload.Accepted := v2Accepted;
  V2.PaymentPayload.Payload := evmPayload;
  V2.PaymentPayload.Extensions := None |}.

(** The payload of [TestPaymentMiddleware_V2Header_VersionTooLow]. *)
Definition lowVersionPayload : V2.PaymentPayload.t := {|
  V2.PaymentPayload.X402Version := 1;
  V2.PaymentPayload.Accepted := {|
    V2.PaymentRequirements.Scheme := "exact";
    V2.PaymentRequirements.Network := "eip155:84532";
    V2.PaymentRequirements.Amount := "";
    V2.PaymentRequirements.Asset := "";
    V2.PaymentRequirements.PayTo := "";
    V2.PaymentRequirements.MaxTimeoutSeconds := 0;
    V2.PaymentRequirements.Extra := None |};
  V2.PaymentPayload.Payload := AnyMap [("signature", AnyString "0xsig")];
  V2.PaymentPayload.Extensions := None |}.

(** The payload of [TestDecodePaymentPayload_MissingPayload]. *)
Definition missingPayloadDoc : Any :=
  AnyMap [("accepted", AnyMap [("scheme", AnyString "exact")]);
          ("x402Version", AnyNumber "2")].

Definition missingPayload : V2.PaymentPayload.t := {|
  V2.PaymentPayload.X402Version := 2;
  V2.PaymentPayload.Accepted := {|
    V2.PaymentRequirements.Scheme := "exact";
    V2.PaymentRequirements.Network := "";
    V2.PaymentRequirements.Amount := "";
    V2.PaymentRequirements.Asset := "";
    V2.PaymentRequirements.PayTo := "";
    V2.PaymentRequirements.MaxTimeoutSeconds := 0;
    V2.PaymentRequirements.Extra := None |};
  V2.PaymentPayload.Payload := AnyNil;
  V2.PaymentPayload.Extensions := None |}.

(** The payment of [makeV1PaymentHeader]. *)
Definition legacyPayment : V2.LegacyPayment.t := {|
  V2.LegacyPayment.X402Version := 1;
  V2.LegacyPayment.Scheme := "exact";
  V2.LegacyPayment.Network := "base-sepolia";
  V2.LegacyPayment.Payload := evmPayload |}.

Definition legacy_doc : Any :=
  AnyMap [("x402Version", AnyNumber "1"); ("scheme", AnyString "exact");
          ("network", AnyString "base-sepolia"); ("payload", evmPayload)].

Definition v2PayloadJSON : string := print (payload_doc v2Payload).
Definition lowVersionJSON : string := print (payload_doc lowVersionPayload).
Definition missingPayloadJSON : string := print missingPayloadDoc.
Definition legacyJSON : string := print legacy_doc.

Definition syntaxError : error :=
  errorString "invalid character 'x' looking for beginning of value".

Fixpoint lookup_doc {A : Type} (text : string) (table : list (string * A))
  : Result A :=
  match table with
  | [] => Err syntaxError
  | (doc, value) :: table' =>
      if String.eqb text doc then Ok value else lookup_doc text table'
  end.

Definition Unmarshal_PaymentPayload (data : string)
  : Result V2.PaymentPayload.t :=
  lookup_doc data
    [(v2PayloadJSON, v2Payload); (lowVersionJSON, lowVersionPayload);
     (missingPayloadJSON, missingPayload)].

Definition Unmarshal_LegacyPayment (data : string)
  : Result V2.LegacyPayment.t :=
  lookup_doc data [(legacyJSON, legacyPayment)].

Definition Marshal_V2 (v : V2.Marshalable) : Result string :=
  match v with
  | V2.MarshalPaymentResponse r =>
      Ok (print (AnyMap
            ([("success", AnyBool (V2.PaymentResponse.Success r))]
             ++ omitempty "transaction" (V2.PaymentResponse.Transaction r)
             ++ omitempty "network" (V2.PaymentResponse.Network r)
             ++ omitempty "payer" (V2.PaymentResponse.Payer r)
             ++ omitempty "errorReason" (V2.PaymentResponse.ErrorReason r))))
  | V2.MarshalPaymentRequiredResponse r =>
      Ok (print (AnyMap
            [("x402Version",
              AnyNumber (decimal (V2.PaymentRequiredResponse.X402Version r)));
             ("error", AnyString (V2.PaymentRequiredResponse.Error r));
             ("accepts",
              AnyList (map requirements_doc
                         (V2.PaymentRequiredResponse.Accepts r)))]))
  | V2.MarshalPaymentPayload p => Ok (print (payload_doc p))
  | V2.MarshalErrorBody message =>
      Ok (print (AnyMap [("error", AnyString message)]))
  end.

Definition lib : V2.Lib := {|
  V2.path_Match := GoPath.Match;
  V2.base64_DecodeString := DecodeString;
  V2.base64_EncodeToString := EncodeToString;
  V2.json_Unmarshal_PaymentPayload := Unmarshal_PaymentPayload;
  V2.json_Unmarshal_LegacyPayment := Unmarshal_LegacyPayment;
  V2.json_Unmarshal_PaymentResponse := fun _ => Err syntaxError;
  V2.json_Marshal := Marshal_V2;
  V2.Sprintf := Sprintf |}.

(** The headers of [makeV2PaymentHeader] and [makeV1PaymentHeader]. *)
Definition v2PaymentHeader : string := EncodeToString v2PayloadJSON.
Definition v1PaymentHeader : string := EncodeToString legacyJSON.
Definition lowVersionHeader : string := EncodeToString lowVersionJSON.

(** What [MockVerifier] returns, and the requirements of [paidRule]. *)
Definition mockVerification : V2.VerificationResult.t := {|
  V2.VerificationResult.Valid := true;
  V2.VerificationResult.Reason := "";
  V2.VerificationResult.PayerAddress := "0xtest";
  V2.VerificationResult.Amount := "1000000";
  V2.VerificationResult.TokenSymbol := "" |}.

Definition mockSettlement : V2.SettlementResult.t := {|
  V2.SettlementResult.TransactionHash := "0xtxhash";
  V2.SettlementResult.Status := "success";
  V2.SettlementResult.SettledAt := Time_zero;
  V2.SettlementResult.Amount := "";
  V2.SettlementResult.PayerAddress := "";
  V2.SettlementResult.RecipientAddress := "";
  V2.SettlementResult.Network := "eip155:84532" |}.

Definition paidRequirements : V2.PaymentRequirements.t := {|
  V2.PaymentRequirements.Scheme := "exact";
  V2.PaymentRequirements.Network := "eip155:84532";
  V2.PaymentRequirements.Amount := "1000000";
  V2.PaymentRequirements.Asset := "0x036CbD53842c5426634e7929541eC2318f3dCF7e";
  V2.PaymentRequirements.PayTo := "0xRecipient";
  V2.PaymentRequirements.MaxTimeoutSeconds := 0;
  V2.PaymentRequirements.Extra := None |}.

(** [MockVerifier] with its default functions. *)
Definition MockVerifier : V2.ChainVerifier.t := {|
  V2.ChainVerifier.Verify := fun _ _ _ => Ok mockVerification;
  V2.ChainVerifier.Settle := fun _ _ _ => Ok mockSettlement;
  V2.ChainVerifier.SupportedKinds :=
    [{| V2.SupportedKind.Scheme := "exact";
        V2.SupportedKind.Network := "eip155:84532" |}] |}.

(** A verifier that rejects, as in
    [TestPaymentMiddleware_VerificationFailed]. *)
Definition RejectingVerifier : V2.ChainVerifier.t := {|
  V2.ChainVerifier.Verify := fun _ _ _ =>
    Ok {| V2.VerificationResult.Valid := false;
          V2.VerificationResult.Reason := "insufficient balance";
          V2.VerificationResult.PayerAddress := "";
          V2.VerificationResult.Amount := "";
          V2.VerificationResult.TokenSymbol := "" |};
  V2.ChainVerifier.Settle := V2.ChainVerifier.Settle MockVerifier;
  V2.ChainVerifier.SupportedKinds := [] |}.

Definition paidRule : V2.PricingRule.t := {|
  V2.PricingRule.Amount := "1000000";
  V2.PricingRule.AcceptedTokens :=
    [{| V2.TokenRequirement.Network := "eip155:84532";
        V2.TokenRequirement.AssetContract :=
          "0x036CbD53842c5426634e7929541eC2318f3dCF7e";
        V2.TokenRequirement.Symbol := "USDC";
        V2.TokenRequirement.Recipient := "0xRecipient";
        V2.TokenRequirement.Amount := "1000000";
        V2.TokenRequirement.TokenName := "";
        V2.TokenRequirement.TokenDecimals := 0 |}];
  V2.PricingRule.Description := "";
  V2.PricingRule.MimeType := "";
  V2.PricingRule.OutputSchema := None |}.

Definition premiumRule : V2.PricingRule.t := {|
  V2.PricingRule.Amount := "5000000";
  V2.PricingRule.AcceptedTokens := V2.PricingRule.AcceptedTokens paidRule;
  V2.PricingRule.Description := "premium";
  V2.PricingRule.MimeType := "";
  V2.PricingRule.OutputSchema := None |}.

Definition config_with (verifier : V2.ChainVerifier.t)
  (endpoints methods : list (string * V2.PricingRule.t))
  (skipPaths skipMethods : list string) : V2.Config := {|
  Verifier := Some verifier;
  EndpointPricing := list_to_map endpoints;
  MethodPricing := list_to_map methods;
  DefaultPricing := None;
  ValidityDuration := 5 * Minute;
  SkipPaths := skipPaths;
  SkipMethods := skipMethods;
  CustomPaywallHTML := "" |}.

(** [testConfig()] of [middleware_test.go], with a priced method added. *)
Definition testConfig : V2.Config :=
  config_with MockVerifier [("/v1/paid", paidRule)]
    [("/test.v1.TestService/GetData", paidRule)] [] [].

Definition background : Context := {| values := []; incomingMD := None |}.

Definition request (path : string) (headers : list (string * string))
  : Request := {|
  URL_Path := path;
  ReqHeader :=
    list_to_map (map (fun '(k, v) => (CanonicalMIMEHeaderKey k, [v])) headers);
  ReqContext := background |}.

Definition recorder : World := {|
  writer := {| RespHeader := ∅; Sent := None; Body := EmptyString |};
  served := [] |}.

(** A wrapped handler that answers 200, and one that answers 500. *)
Definition okHandler : Handler := fun w _ => WriteHeader StatusOK w.

Definition incoming (pairs : list (string * string)) : Context := {|
  values := [];
  incomingMD := Some (list_to_map (map (fun '(k, v) => (ToLower k, [v])) pairs))
|}.

Definition endpointOrder : list (string * V2.PricingRule.t) :=
  map_to_list (EndpointPricing testConfig).
Definition methodOrder : list (string * V2.PricingRule.t) :=
  map_to_list (MethodPricing testConfig).

Definition paidMethod : string := "/test.v1.TestService/GetData".

Definition okUnary : UnaryHandler := fun _ req => Ok req.
Definition okStream : StreamHandler := fun _ _ => None.
Definition failingStream : StreamHandler :=
  fun _ _ => Some (statusError NotFound "no such content").


(** Configurations and requests for the claims. *)

(** A skip pattern with a glob in its prefix, and a priced endpoint that
    the glob matches. *)
Definition publicSkipConfig : V2.Config :=
  config_with MockVerifier
    [("/api/v1/public/x", paidRule)] [] ["/api/*/public/*"] [].

Definition healthSkipConfig : V2.Config :=
  config_with MockVerifier
    [("/health", paidRule); ("/*", paidRule)] []
    ["/health"; "/public/*"; "/static/*.css"] [].

Definition wildcardConfig : V2.Config :=
  config_with MockVerifier
    [("/v1/*", paidRule); ("/v1/premium/*", premiumRule)]
    [] ["/health"] [].

Definition malformedRequest : Request :=
  request "/v1/paid" [("PAYMENT-SIGNATURE", "not-valid-base64!!!")].

Definition v1Request : Request :=
  request "/v1/paid" [("X-PAYMENT", v1PaymentHeader)].

Definition v2Request : Request :=
  request "/v1/paid" [("PAYMENT-SIGNATURE", v2PaymentHeader)].



(** A verified payment with a settlement time, in a request context. *)
Definition settledPayment : PaymentContext.t := {|
  PaymentContext.Verified := true;
  PaymentContext.PayerAddress := "0xPayer";
  PaymentContext.Amount := "1000000";
  PaymentContext.TokenSymbol := "USDC";
  PaymentContext.Network := "eip155:84532";
  PaymentContext.TransactionHash := "0xabc";
  PaymentContext.SettledAt := 63900000000000000000 |}.

Definition settledContext : Context :=
  WithValue background PaymentContextKey
    (PaymentContextPtr (Some settledPayment)).

(** An unverified payment put in a context by other code. *)
Definition unverifiedContext : Context :=
  WithValue background PaymentContextKey
    (PaymentContextPtr (Some {|
       PaymentContext.Verified := false;
       PaymentContext.PayerAddress := "0xPayer";
       PaymentContext.Amount := "";
       PaymentContext.TokenSymbol := "";
       PaymentContext.Network := "";
       PaymentContext.TransactionHash := "";
       PaymentContext.SettledAt := Time_zero |})).

End Testdata.

(** ** The stages of the protocol, as conditions on a request

    These predicates say, on the inputs of a request, at which stage its
    processing fails, or that it is settled; the middleware and the
    interceptors are compared with them below. *)

Module Protocol.

Import V2.

(** The stages at which a priced request can fail before settlement has
    succeeded. *)
Inductive Stage : Type :=
| NoCredential
| DecodeFailed
| VerifierRejected
| VerifierErrored
| SettlementErrored.

(** The status of the HTTP response for a failure at each stage. *)
Definition http_status (s : Stage) : Z :=
  match s with
  | NoCredential => StatusPaymentRequired
  | DecodeFailed => StatusBadRequest
  | VerifierRejected => StatusPaymentRequired
  | VerifierErrored => StatusInternalServerError
  | SettlementErrored => StatusInternalServerError
  end.

(** The code of the gRPC status for a failure at each stage. *)
Definition grpc_code (s : Stage) : Code :=
  match s with
  | NoCredential => ResourceExhausted
  | DecodeFailed => ResourceExhausted
  | VerifierRejected => ResourceExhausted
  | VerifierErrored => Internal
  | SettlementErrored => Unavailable
  end.

Section HTTP.
Variables (lib : Lib) (cfg : Config) (rule : option PricingRule.t)
  (r : Request).

(** The decoder that the middleware applies to the detected credential. *)
Definition parseHeader (requirements : option PaymentRequirements.t)
  : Result PaymentPayload.t :=
  let '(paymentHeader, isV2) := detectPaymentHeader r in
  if isV2 then parsePaymentPayload lib paymentHeader
  else parseLegacyPayment lib paymentHeader requirements.

Inductive HTTPFails : Stage -> Prop :=
| http_no_credential :
    fst (detectPaymentHeader r) = EmptyString ->
    HTTPFails NoCredential
| http_decode_failed requirements err :
    fst (detectPaymentHeader r) <> EmptyString ->
    buildRequirementsFromRule rule = Done requirements ->
    parseHeader requirements = Err err ->
    HTTPFails DecodeFailed
| http_verifier_rejected requirements payload verifier verifyResult :
    fst (detectPaymentHeader r) <> EmptyString ->
    buildRequirementsFromRule rule = Done requirements ->
    parseHeader requirements = Ok payload ->
    Verifier cfg = Some verifier ->
    ChainVerifier.Verify verifier (ReqContext r) payload requirements
    = Ok verifyResult ->
    VerificationResult.Valid verifyResult = false ->
    HTTPFails VerifierRejected
| http_verifier_errored requirements payload verifier err :
    fst (detectPaymentHeader r) <> EmptyString ->
    buildRequirementsFromRule rule = Done requirements ->
    parseHeader requirements = Ok payload ->
    Verifier cfg = Some verifier ->
    ChainVerifier.Verify verifier (ReqContext r) payload requirements
    = Err err ->
    HTTPFails VerifierErrored
| http_settlement_errored requirements payload verifier verifyResult err :
    fst (detectPaymentHeader r) <> EmptyString ->
    buildRequirementsFromRule rule = Done requirements ->
    parseHeader requirements = Ok payload ->
    Verifier cfg = Some verifier ->
    ChainVerifier.Verify verifier (ReqContext r) payload requirements
    = Ok verifyResult ->
    VerificationResult.Valid verifyResult = true ->
    ChainVerifier.Settle verifier (ReqContext r) payload requirements
    = Err err ->
    HTTPFails SettlementErrored.

(** The request carries a credential that is decoded, verified and
    settled. *)
Definition HTTPSettles (requirements : PaymentRequirements.t)
  (verifyResult : VerificationResult.t)
  (settlementResult : SettlementResult.t) : Prop :=
  fst (detectPaymentHeader r) <> EmptyString
  /\ buildRequirementsFromRule rule = Done (Some requirements)
  /\ exists payload verifier,
       parseHeader (Some requirements) = Ok payload
       /\ Verifier cfg = Some verifier
       /\ ChainVerifier.Verify verifier (ReqContext r) payload
            (Some requirements) = Ok verifyResult
       /\ VerificationResult.Valid verifyResult = true
       /\ ChainVerifier.Settle verifier (ReqContext r) payload
            (Some requirements) = Ok settlementResult.

(** The context that the middleware builds for the wrapped handler. *)
Definition httpPaymentContext (requirements : PaymentRequirements.t)
  (verifyResult : VerificationResult.t)
  (settlementResult : SettlementResult.t) : PaymentContext.t := {|
  PaymentContext.Verified := true;
  PaymentContext.PayerAddress := VerificationResult.PayerAddress verifyResult;
  PaymentContext.Amount := VerificationResult.Amount verifyResult;
  PaymentContext.TokenSymbol := VerificationResult.TokenSymbol verifyResult;
  PaymentContext.Network := PaymentRequirements.Network requirements;
  PaymentContext.TransactionHash :=
    SettlementResult.TransactionHash settlementResult;
  PaymentContext.SettledAt := SettlementResult.SettledAt settlementResult |}.

(** The receipt that the middleware encodes. *)
Definition httpReceipt (settlementResult : SettlementResult.t)
  : Result string :=
  match json_Marshal lib
          (MarshalPaymentResponse {|
             PaymentResponse.Success := true;
             PaymentResponse.Transaction :=
               SettlementResult.TransactionHash settlementResult;
             PaymentResponse.Network :=
               SettlementResult.Network settlementResult;
             PaymentResponse.Payer :=
               SettlementResult.PayerAddress settlementResult;
             PaymentResponse.ErrorReason := "" |}) with
  | Ok responseJSON => Ok (base64_EncodeToString lib responseJSON)
  | Err err => Err err
  end.

End HTTP.

Section GRPC.
Variables (lib : Lib) (cfg : Config) (rule : option PricingRule.t)
  (ctx : Context) (fullMethod : string).

Definition credential_keys (md : MD) : list string :=
  MD_Get md GrpcV2.MetadataKeyPaymentSignature
  ++ MD_Get md GrpcV2.MetadataKeyLegacyPayment.

Inductive GRPCFails : Stage -> Prop :=
| grpc_no_metadata :
    FromIncomingContext ctx = None ->
    GRPCFails NoCredential
| grpc_no_credential md :
    FromIncomingContext ctx = Some md ->
    credential_keys md = [] ->
    GRPCFails NoCredential
| grpc_decode_failed md err :
    FromIncomingContext ctx = Some md ->
    credential_keys md <> [] ->
    fst (GrpcV2.ExtractPaymentFromMetadata lib md) = Err err ->
    GRPCFails DecodeFailed
| grpc_verifier_rejected md payload requirements others verifier
    verifyResult :
    FromIncomingContext ctx = Some md ->
    fst (GrpcV2.ExtractPaymentFromMetadata lib md) = Ok payload ->
    GrpcV2.BuildPaymentRequirements rule fullMethod (ValidityDuration cfg)
    = Done (requirements :: others) ->
    Verifier cfg = Some verifier ->
    ChainVerifier.Verify verifier ctx payload (Some requirements)
    = Ok verifyResult ->
    VerificationResult.Valid verifyResult = false ->
    GRPCFails VerifierRejected
| grpc_verifier_errored md payload requirements others verifier err :
    FromIncomingContext ctx = Some md ->
    fst (GrpcV2.ExtractPaymentFromMetadata lib md) = Ok payload ->
    GrpcV2.BuildPaymentRequirements rule fullMethod (ValidityDuration cfg)
    = Done (requirements :: others) ->
    Verifier cfg = Some verifier ->
    ChainVerifier.Verify verifier ctx payload (Some requirements)
    = Err err ->
    GRPCFails VerifierErrored
| grpc_settlement_errored md payload requirements others verifier
    verifyResult err :
    FromIncomingContext ctx = Some md ->
    fst (GrpcV2.ExtractPaymentFromMetadata lib md) = Ok payload ->
    GrpcV2.BuildPaymentRequirements rule fullMethod (ValidityDuration cfg)
    = Done (requirements :: others) ->
    Verifier cfg = Some verifier ->
    ChainVerifier.Verify verifier ctx payload (Some requirements)
    = Ok verifyResult ->
    VerificationResult.Valid verifyResult = true ->
    ChainVerifier.Settle verifier ctx payload (Some requirements)
    = Err err ->
    GRPCFails SettlementErrored.

(** The call carries a credential that is decoded, verified and settled;
    [isV2] tells under which key it came. *)
Definition GRPCSettles (isV2 : bool) (requirements : PaymentRequirements.t)
  (verifyResult : VerificationResult.t)
  (settlementResult : SettlementResult.t) : Prop :=
  exists md payload others verifier,
    FromIncomingContext ctx = Some md
    /\ GrpcV2.ExtractPaymentFromMetadata lib md = (Ok payload, isV2)
    /\ GrpcV2.BuildPaymentRequirements rule fullMethod (ValidityDuration cfg)
       = Done (requirements :: others)
    /\ Verifier cfg = Some verifier
    /\ ChainVerifier.Verify verifier ctx payload (Some requirements)
       = Ok verifyResult
    /\ VerificationResult.Valid verifyResult = true
    /\ ChainVerifier.Settle verifier ctx payload (Some requirements)
       = Ok settlementResult.

(** The status returned for a failure at each stage: the
    payment-required status of [sendPaymentRequired], or an error of
    the stage's code. *)
Definition grpc_response (s : Stage) (e : error) : Prop :=
  match s with
  | VerifierErrored | SettlementErrored =>
      exists msg, e = statusError (grpc_code s) msg
  | _ => GrpcV2.sendPaymentRequired lib rule fullMethod cfg = Done e
  end.

(** The context that the interceptors build for the wrapped handler. *)
Definition withPayment (requirements : PaymentRequirements.t)
  (verifyResult : VerificationResult.t)
  (settlementResult : SettlementResult.t) : Context :=
  WithValue ctx PaymentContextKey
    (PaymentContextPtr
       (Some (GrpcV2.paymentContext verifyResult requirements
                settlementResult))).

End GRPC.

(** A context that the core has made for the wrapped handler: the inbound
    context with a verified [PaymentContext] under [PaymentContextKey]. *)
Definition injected (inbound ctx' : Context) : Prop :=
  exists payment,
    ctx' = WithValue inbound PaymentContextKey
             (PaymentContextPtr (Some payment))
    /\ PaymentContext.Verified payment = true.

(** The contexts on which the wrapped handler is called during one
    request: none; the inbound context when no payment is required; a
    context injected by the core when payment is required. *)
Definition handler_calls_ok (requiresPayment : bool) (inbound : Context)
  (calls : list Context) : Prop :=
  calls = []
  \/ (requiresPayment = false /\ calls = [inbound])
  \/ (requiresPayment = true
      /\ exists ctx', calls = [ctx'] /\ injected inbound ctx').

(** A configuration is ready when it has a verifier and every rule that
    the resolver can return accepts at least one token. *)
Definition ready (cfg : Config) : Prop :=
  Verifier cfg <> None
  /\ (forall pattern rule, EndpointPricing cfg !! pattern = Some rule ->
        PricingRule.AcceptedTokens rule <> [])
  /\ (forall pattern rule, MethodPricing cfg !! pattern = Some rule ->
        PricingRule.AcceptedTokens rule <> [])
  /\ (forall rule, DefaultPricing cfg = Some rule ->
        PricingRule.AcceptedTokens rule <> []).

(** The response keys of the two protocol versions. *)
Definition http_response_key (isV2 : bool) : string :=
  if isV2 then HeaderPaymentResponse else HeaderLegacyPaymentResponse.

Definition grpc_response_key (isV2 : bool) : string :=
  if isV2 then GrpcV2.MetadataKeyPaymentResponse
  else GrpcV2.MetadataKeyLegacyPaymentResponse.

(** The writer as the middleware hands it to the wrapped handler after
    settlement: the receipt is set under the key of the version of the
    credential. *)
Definition withReceipt (lib : Lib) (isV2 : bool)
  (settlementResult : SettlementResult.t) (w : World) : World :=
  match httpReceipt lib settlementResult with
  | Ok encoded => on_writer (SetHeader (http_response_key isV2) encoded) w
  | Err _ => w
  end.

(** The trailers that [setPaymentTrailer] adds: the receipt under the
    key of the version, when it can be encoded. *)
Definition receiptTrailers (lib : Lib) (isV2 : bool)
  (settlementResult : SettlementResult.t) : list MD :=
  match GrpcV2.EncodePaymentResponse lib
          (GrpcV2.paymentResponse settlementResult) with
  | Ok encoded => [Pairs (grpc_response_key isV2) encoded]
  | Err _ => []
  end.

End Protocol.

(** ** The helpers for clients

    [EncodePaymentPayload], [DecodePaymentResponse] and
    [ReadPaymentRequirements] of [middleware.go], and the codecs of
    [metadata.go], in both protocol versions.  [json.Unmarshal] into a
    [PaymentRequiredResponse] is a further parameter. *)

Module Client.

(** What a client holds of an [*http.Response]: the status, the header,
    and what [io.ReadAll(resp.Body)] returns. *)
Record Response : Type := {
  StatusCode : Z;
  Header : Net.Header;
  Body : Result string
}.

(** The response that the client of a fresh writer receives: the status
    and the header as sent by the first [WriteHeader], and the body
    written. *)
Definition received (w : ResponseWriter) : Response :=
  match Sent w with
  | Some (code, header) =>
      {| StatusCode := code; Header := header; Body := Ok (Net.Body w) |}
  | None =>
      {| StatusCode := StatusOK; Header := RespHeader w;
         Body := Ok (Net.Body w) |}
  end.

Module V2.
Section Package.
Import V2.
Variable lib : Lib.
Variable json_Unmarshal_PaymentRequiredResponse :
  string -> Result PaymentRequiredResponse.t.

(** [ReadPaymentRequirements] of [v2/middleware.go]. *)
Definition ReadPaymentRequirements (resp : Response)
  : Result PaymentRequiredResponse.t :=
  if negb (StatusCode resp =? StatusPaymentRequired) then
    Err (Errorf lib "expected status 402, got %d" [ArgInt (StatusCode resp)])
  else
    let fromBody :=
      match Body resp with
      | Err err =>
          Err (Errorf lib "failed to read response body: %w" [ArgError err])
      | Ok body =>
          match json_Unmarshal_PaymentRequiredResponse body with
          | Err err =>
              Err (Errorf lib "failed to parse payment requirements: %w"
                     [ArgError err])
          | Ok paymentReq => Ok paymentReq
          end
      end in
    let header := Header_Get (Header resp) HeaderPaymentRequired in
    if negb (String.eqb header "") then
      match base64_DecodeString lib header with
      | Ok decoded =>
          match json_Unmarshal_PaymentRequiredResponse decoded with
          | Ok paymentReq => Ok paymentReq
          | Err _ => fromBody
          end
      | Err _ => fromBody
      end
    else fromBody.

(** [DecodePaymentRequirements], [EncodePaymentPayload] and
    [DecodePaymentResponse] of [v2/grpc/metadata.go]. *)
Definition DecodePaymentRequirements (encoded : string)
  : Result PaymentRequiredResponse.t :=
  match base64_DecodeString lib encoded with
  | Err err => Err (Errorf lib "failed to decode base64: %w" [ArgError err])
  | Ok jsonBytes =>
      match json_Unmarshal_PaymentRequiredResponse jsonBytes with
      | Err err =>
          Err (Errorf lib "failed to unmarshal payment requirements: %w"
                 [ArgError err])
      | Ok response => Ok response
      end
  end.

Definition grpc_EncodePaymentPayload (payload : PaymentPayload.t)
  : Result string :=
  match json_Marshal lib (MarshalPaymentPayload payload) with
  | Err err =>
      Err (Errorf lib "failed to marshal payment payload: %w"
             [ArgError err])
  | Ok jsonBytes => Ok (base64_EncodeToString lib jsonBytes)
  end.

Definition grpc_DecodePaymentResponse (encoded : string)
  : Result PaymentResponse.t :=
  match base64_DecodeString lib encoded with
  | Err err => Err (Errorf lib "failed to decode base64: %w" [ArgError err])
  | Ok jsonBytes =>
      match json_Unmarshal_PaymentResponse lib jsonBytes with
      | Err err =>
          Err (Errorf lib "failed to unmarshal payment response: %w"
                 [ArgError err])
      | Ok response => Ok response
      end
  end.

End Package.
End V2.

Module V1.
Section Package.
Import V1.
Variable lib : Lib.
Variable json_Unmarshal_PaymentRequiredResponse :
  string -> Result PaymentRequiredResponse.t.

(** [EncodePayment], [DecodePaymentResponse] and
    [ReadPaymentRequirements] of [middleware.go]. *)
Definition EncodePayment (payment : Payment.t) : Result string :=
  match json_Marshal lib (MarshalPayment payment) with
  | Err err => Err (Errorf lib "failed to marshal payment: %w" [ArgError err])
  | Ok paymentJSON => Ok (base64_EncodeToString lib paymentJSON)
  end.

Definition DecodePaymentResponse (xPaymentResponse : string)
  : Result PaymentResponse.t :=
  match base64_DecodeString lib xPaymentResponse with
  | Err err => Err (Errorf lib "failed to decode base64: %w" [ArgError err])
  | Ok responseBytes =>
      match json_Unmarshal_PaymentResponse lib responseBytes with
      | Err err => Err (Errorf lib "failed to parse JSON: %w" [ArgError err])
      | Ok response => Ok response
      end
  end.

Definition ReadPaymentRequirements (resp : Response)
  : Result PaymentRequiredResponse.t :=
  if negb (StatusCode resp =? StatusPaymentRequired) then
    Err (Errorf lib "expected status 402, got %d" [ArgInt (StatusCode resp)])
  else
    match Body resp with
    | Err err =>
        Err (Errorf lib "failed to read response body: %w" [ArgError err])
    | Ok body =>
        match json_Unmarshal_PaymentRequiredResponse body with
        | Err err =>
            Err (Errorf lib "failed to parse payment requirements: %w"
                   [ArgError err])
        | Ok paymentReq => Ok paymentReq
        end
    end.

(** The codecs of [grpc/metadata.go]. *)
Definition DecodePaymentRequirements (encoded : string)
  : Result PaymentRequiredResponse.t :=
  match base64_DecodeString lib encoded with
  | Err err => Err (Errorf lib "failed to decode base64: %w" [ArgError err])
  | Ok jsonBytes =>
      match json_Unmarshal_PaymentRequiredResponse jsonBytes with
      | Err err =>
          Err (Errorf lib "failed to unmarshal payment requirements: %w"
                 [ArgError err])
      | Ok response => Ok response
      end
  end.

Definition grpc_EncodePayment (payment : Payment.t) : Result string :=
  match json_Marshal lib (MarshalPayment payment) with
  | Err err => Err (Errorf lib "failed to marshal payment: %w" [ArgError err])
  | Ok jsonBytes => Ok (base64_EncodeToString lib jsonBytes)
  end.

Definition grpc_DecodePaymentResponse (encoded : string)
  : Result PaymentResponse.t :=
  match base64_DecodeString lib encoded with
  | Err err => Err (Errorf lib "failed to decode base64: %w" [ArgError err])
  | Ok jsonBytes =>
      match json_Unmarshal_PaymentResponse lib jsonBytes with
      | Err err =>
          Err (Errorf lib "failed to unmarshal payment response: %w"
                 [ArgError err])
      | Ok response => Ok response
      end
  end.

Definition ExtractPaymentFromMetadata (md : MD) : Result Payment.t :=
  match MD_Get md GrpcV1.MetadataKeyPayment with
  | [] => Err (Errorf lib "no payment found in metadata" [])
  | value :: _ => GrpcV1.DecodePayment lib value
  end.

Definition ExtractPaymentRequirementsFromMetadata (md : MD)
  : Result PaymentRequiredResponse.t :=
  match MD_Get md GrpcV1.MetadataKeyPaymentRequirements with
  | [] => Err (Errorf lib "no payment requirements found in metadata" [])
  | value :: _ => DecodePaymentRequirements value
  end.

End Package.
End V1.

End Client.

(** ** Package [v2/evm]: the verifier that delegates to a facilitator

    [facilitator.go], [verifier.go] and [types.go].  The round trip of
    [http.Client.Do] is a parameter that acts on the state of the network;
    every request given to it is logged. *)

Module Evm.

Import V2.

Module Authorization.
Record t : Type := {
From : string;
To : string;
Value : string;
ValidAfter : Z;
ValidBefore : Z;
Nonce : string
}.
End Authorization.

(** A nil [Authorization] pointer is [None]. *)
Module EVMPayload.
Record t : Type := {
  Signature : string;
  Authorization : option Authorization.t
}.
End EVMPayload.

(** [FacilitatorVerifyRequest] and [FacilitatorSettleRequest] hold the
    same two fields. *)
Module FacilitatorRequest.
Record t : Type := {
  Payload : PaymentPayload.t;
  Requirements : option PaymentRequirements.t
}.
End FacilitatorRequest.

Module FacilitatorVerifyResponse.
Record t : Type := {
  IsValid : bool;
  InvalidReason : string;
  Payer : string
}.
End FacilitatorVerifyResponse.

Module FacilitatorSettleResponse.
Record t : Type := {
  Success : bool;
  ErrorReason : string;
  Payer : string;
  Transaction : string;
  Network : string
}.
End FacilitatorSettleResponse.

Module FacilitatorSupportedResponse.
Record t : Type := {
  Kinds : list SupportedKind.t;
  Extensions : list string;
  Signers : list (string * string)
}.
End FacilitatorSupportedResponse.

(** An [*http.Request] as the client builds it, with its context. *)
Module HTTPRequest.
Record t : Type := {
  Ctx : Context;
  Method : string;
  URL : string;
  Header : Net.Header;
  Body : option string
}.
End HTTPRequest.

(** An [*http.Response]: the status, the bytes that reading the body
    yields, and the error that ends the reading, if any. *)
Module HTTPResponse.
Record t : Type := {
  StatusCode : Z;
  BodyBytes : string;
  BodyError : option error
}.
End HTTPResponse.

(** The functions of the Go standard library that the package calls. *)
Record Lib : Type := {
  json_Marshal_any : Any -> Result string;
  json_Unmarshal_EVMPayload : string -> Result EVMPayload.t;
  json_Marshal_request : FacilitatorRequest.t -> Result string;
  json_Decode_VerifyResponse :
    HTTPResponse.t -> Result FacilitatorVerifyResponse.t;
  json_Decode_SettleResponse :
    HTTPResponse.t -> Result FacilitatorSettleResponse.t;
  json_Decode_SupportedResponse :
    HTTPResponse.t -> Result FacilitatorSupportedResponse.t;
  (** the error of [http.NewRequestWithContext] on a URL, if any *)
  url_error : string -> option error;
  Sprintf : string -> list fmtArg -> string
}.

Section Package.
Variable lib : Lib.

(** The state of the network, and [httpClient.Do]. *)
Variable Network : Type.
Variable Do : HTTPRequest.t -> Network -> Result HTTPResponse.t * Network.

Record World : Type := {
  network : Network;
  sent : list HTTPRequest.t
}.

(** Code that acts on the network and may panic. *)
Definition M (A : Type) : Type := World -> Outcome A * World.

Definition ret {A : Type} (a : A) : M A := fun w => (Done a, w).

Definition mbind {A B : Type} (m : M A) (k : A -> M B) : M B :=
  fun w =>
    match m w with
    | (Done a, w') => k a w'
    | (Panic msg, w') => (Panic msg, w')
    end.

Definition httpClient_Do (req : HTTPRequest.t) : M (Result HTTPResponse.t) :=
  fun w =>
    let '(resp, network') := Do req (network w) in
    (Done resp, {| network := network'; sent := sent w ++ [req] |}).

Definition Errorf (format : string) (args : list fmtArg) : error :=
  errorString (Sprintf lib format args).

Definition NewRequestWithContext (ctx : Context) (method url : string)
  (body : option string) : Result HTTPRequest.t :=
  match url_error lib url with
  | Some err => Err err
  | None =>
      Ok {| HTTPRequest.Ctx := ctx;
            HTTPRequest.Method := method; HTTPRequest.URL := url;
            HTTPRequest.Header := ∅; HTTPRequest.Body := body |}
  end.

Definition Header_Set (req : HTTPRequest.t) (key value : string)
  : HTTPRequest.t :=
  {| HTTPRequest.Ctx := HTTPRequest.Ctx req;
     HTTPRequest.Method := HTTPRequest.Method req;
     HTTPRequest.URL := HTTPRequest.URL req;
     HTTPRequest.Header := Net.Header_Set (HTTPRequest.Header req) key value;
     HTTPRequest.Body := HTTPRequest.Body req |}.

(** *** [facilitator.go] *)

Record FacilitatorClient : Type := { baseURL : string }.

Definition NewFacilitatorClient (baseURL : string) : FacilitatorClient :=
  {| baseURL := baseURL |}.

Definition FacilitatorClient_Verify (c : FacilitatorClient)
  (ctx : Context) (req : FacilitatorRequest.t)
  : M (Result FacilitatorVerifyResponse.t) :=
  match json_Marshal_request lib req with
  | Err err =>
      ret (Err (Errorf "failed to marshal verify request: %w"
                  [ArgError err]))
  | Ok body =>
      match NewRequestWithContext ctx "POST"
              (baseURL c ++ "/v2/x402/verify") (Some body) with
      | Err err =>
          ret (Err (Errorf "failed to create verify request: %w"
                      [ArgError err]))
      | Ok httpReq =>
          let httpReq :=
            Header_Set httpReq "Content-Type" "application/json" in
          mbind (httpClient_Do httpReq) (fun result =>
            match result with
            | Err err =>
                ret (Err (Errorf
                            "failed to call facilitator verify endpoint: %w"
                            [ArgError err]))
            | Ok resp =>
                if negb (HTTPResponse.StatusCode resp =? StatusOK) then
                  ret (Err (Errorf
                              "facilitator verify returned status %d: %s"
                              [ArgInt (HTTPResponse.StatusCode resp);
                               ArgString (HTTPResponse.BodyBytes resp)]))
                else
                  match json_Decode_VerifyResponse lib resp with
                  | Err err =>
                      ret (Err (Errorf
                                  "failed to decode verify response: %w"
                                  [ArgError err]))
                  | Ok verifyResp => ret (Ok verifyResp)
                  end
            end)
      end
  end.

Definition FacilitatorClient_Settle (c : FacilitatorClient)
  (ctx : Context) (req : FacilitatorRequest.t)
  : M (Result FacilitatorSettleResponse.t) :=
  match json_Marshal_request lib req with
  | Err err =>
      ret (Err (Errorf "failed to marshal settle request: %w"
                  [ArgError err]))
  | Ok body =>
      match NewRequestWithContext ctx "POST"
              (baseURL c ++ "/v2/x402/settle") (Some body) with
      | Err err =>
          ret (Err (Errorf "failed to create settle request: %w"
                      [ArgError err]))
      | Ok httpReq =>
          let httpReq :=
            Header_Set httpReq "Content-Type" "application/json" in
          mbind (httpClient_Do httpReq) (fun result =>
            match result with
            | Err err =>
                ret (Err (Errorf
                            "failed to call facilitator settle endpoint: %w"
                            [ArgError err]))
            | Ok resp =>
                if negb (HTTPResponse.StatusCode resp =? StatusOK) then
                  ret (Err (Errorf
                              "facilitator settle returned status %d: %s"
                              [ArgInt (HTTPResponse.StatusCode resp);
                               ArgString (HTTPResponse.BodyBytes resp)]))
                else
                  match json_Decode_SettleResponse lib resp with
                  | Err err =>
                      ret (Err (Errorf
                                  "failed to decode settle response: %w"
                                  [ArgError err]))
                  | Ok settleResp => ret (Ok settleResp)
                  end
            end)
      end
  end.

Definition FacilitatorClient_GetSupported (c : FacilitatorClient)
  (ctx : Context) : M (Result FacilitatorSupportedResponse.t) :=
  match NewRequestWithContext ctx "GET" (baseURL c ++ "/v2/x402/supported")
          None
  with
  | Err err =>
      ret (Err (Errorf "failed to create supported request: %w"
                  [ArgError err]))
  | Ok httpReq =>
      mbind (httpClient_Do httpReq) (fun result =>
        match result with
        | Err err =>
            ret (Err (Errorf
                        "failed to call facilitator supported endpoint: %w"
                        [ArgError err]))
        | Ok resp =>
            if negb (HTTPResponse.StatusCode resp =? StatusOK) then
              ret (Err (Errorf "facilitator supported returned status %d: %s"
                          [ArgInt (HTTPResponse.StatusCode resp);
                           ArgString (HTTPResponse.BodyBytes resp)]))
            else
              match json_Decode_SupportedResponse lib resp with
              | Err err =>
                  ret (Err (Errorf "failed to decode supported response: %w"
                              [ArgError err]))
              | Ok supportedResp => ret (Ok supportedResp)
              end
        end)
  end.

(** *** [verifier.go] *)

Record EVMVerifier : Type := {
  facilitator : FacilitatorClient;
  kinds : list SupportedKind.t
}.

(** [timeout] is the context that
    [context.WithTimeout(context.Background(), 10*time.Second)]
    returns. *)
Definition NewEVMVerifier (timeout : Context) (facilitatorURL : string)
  : M (Result EVMVerifier) :=
  let client := NewFacilitatorClient facilitatorURL in
  let ctx := timeout in
  mbind (FacilitatorClient_GetSupported client ctx) (fun result =>
    match result with
    | Err err =>
        ret (Err (Errorf "failed to fetch supported kinds: %w"
                    [ArgError err]))
    | Ok supported =>
        let kinds :=
          map (fun k => {| SupportedKind.Scheme := SupportedKind.Scheme k;
                           SupportedKind.Network := SupportedKind.Network k |})
            (FacilitatorSupportedResponse.Kinds supported) in
        ret (Ok {| facilitator := client; kinds := kinds |})
    end).

Definition parseEVMPayload (payload : Any) : Result EVMPayload.t :=
  match json_Marshal_any lib payload with
  | Err err => Err (Errorf "failed to marshal payload: %w" [ArgError err])
  | Ok payloadBytes =>
      match json_Unmarshal_EVMPayload lib payloadBytes with
      | Err err =>
          Err (Errorf "failed to unmarshal EVM payload: %w" [ArgError err])
      | Ok evmPayload =>
          if String.eqb (EVMPayload.Signature evmPayload) "" then
            Err (Errorf "signature is required" [])
          else
            match EVMPayload.Authorization evmPayload with
            | None => Err (Errorf "authorization is required" [])
            | Some auth =>
                if String.eqb (Authorization.From auth) ""
                   || String.eqb (Authorization.To auth) ""
                   || String.eqb (Authorization.Value auth) ""
                   || String.eqb (Authorization.Nonce auth) ""
                then Err (Errorf "authorization missing required fields" [])
                else Ok evmPayload
            end
      end
  end.

(** [evmPayload.Authorization], dereferenced. *)
Definition authorization (evmPayload : EVMPayload.t) : M Authorization.t :=
  fun w =>
    match EVMPayload.Authorization evmPayload with
    | Some auth => (Done auth, w)
    | None => (Panic "invalid memory address or nil pointer dereference", w)
    end.

Definition EVMVerifier_Verify (v : EVMVerifier) (ctx : Context)
  (payload : PaymentPayload.t)
  (requirements : option PaymentRequirements.t)
  : M (Result VerificationResult.t) :=
  match parseEVMPayload (PaymentPayload.Payload payload) with
  | Err err =>
      ret (Ok {| VerificationResult.Valid := false;
                 VerificationResult.Reason :=
                   Sprintf lib "invalid payload: %v" [ArgError err];
                 VerificationResult.PayerAddress := "";
                 VerificationResult.Amount := "";
                 VerificationResult.TokenSymbol := "" |})
  | Ok evmPayload =>
      let verifyReq := {|
        FacilitatorRequest.Payload := payload;
        FacilitatorRequest.Requirements := requirements |} in
      mbind (FacilitatorClient_Verify (facilitator v) ctx verifyReq)
        (fun result =>
           match result with
           | Err err =>
               ret (Err (Errorf "facilitator verification failed: %w"
                           [ArgError err]))
           | Ok verifyResp =>
               mbind (authorization evmPayload) (fun auth =>
                 ret (Ok {|
                   VerificationResult.Valid :=
                     FacilitatorVerifyResponse.IsValid verifyResp;
                   VerificationResult.Reason :=
                     FacilitatorVerifyResponse.InvalidReason verifyResp;
                   VerificationResult.PayerAddress :=
                     Authorization.From auth;
                   VerificationResult.Amount := Authorization.Value auth;
                   VerificationResult.TokenSymbol := "" |}))
           end)
  end.

(** [now] is what [time.Now()] returns. *)
Definition EVMVerifier_Settle (now : Time) (v : EVMVerifier)
  (ctx : Context) (payload : PaymentPayload.t)
  (requirements : option PaymentRequirements.t)
  : M (Result SettlementResult.t) :=
  match parseEVMPayload (PaymentPayload.Payload payload) with
  | Err err => ret (Err (Errorf "invalid payload: %w" [ArgError err]))
  | Ok evmPayload =>
      let settleReq := {|
        FacilitatorRequest.Payload := payload;
        FacilitatorRequest.Requirements := requirements |} in
      mbind (FacilitatorClient_Settle (facilitator v) ctx settleReq)
        (fun result =>
           match result with
           | Err err =>
               ret (Err (Errorf "facilitator settlement failed: %w"
                           [ArgError err]))
           | Ok settleResp =>
               if negb (FacilitatorSettleResponse.Success settleResp) then
                 ret (Err (Errorf "settlement failed: %s"
                             [ArgString
                                (FacilitatorSettleResponse.ErrorReason
                                   settleResp)]))
               else
                 mbind (authorization evmPayload) (fun auth =>
                   ret (Ok {|
                     SettlementResult.TransactionHash :=
                       FacilitatorSettleResponse.Transaction settleResp;
                     SettlementResult.Status := "success";
                     SettlementResult.SettledAt := now;
                     SettlementResult.Amount := Authorization.Value auth;
                     SettlementResult.PayerAddress :=
                       Authorization.From auth;
                     SettlementResult.RecipientAddress :=
                       Authorization.To auth;
                     SettlementResult.Network :=
                       FacilitatorSettleResponse.Network settleResp |}))
           end)
  end.

Definition EVMVerifier_SupportedKinds (v : EVMVerifier)
  : list SupportedKind.t := kinds v.

End Package.

End Evm.

(** ** Package [evm] of the root module (protocol V1)

    [verifier.go] and [types.go].  The methods of [FacilitatorClient] are
    parameters that act on the state of the facilitator; every call is
    logged. *)

Module EvmV1.

Import V1.

Module Authorization.
Record t : Type := {
From : string;
To : string;
Value : string;
ValidAfter : Z;
ValidBefore : Z;
Nonce : string
}.
End Authorization.

Module EVMPayload.
Record t : Type := {
  Signature : string;
  Authorization : option Authorization.t
}.
End EVMPayload.

(** [FacilitatorVerifyRequest] and [FacilitatorSettleRequest] hold the
    same four fields. *)
Module FacilitatorRequest.
Record t : Type := {
  X402Version : Z;
  Scheme : string;
  Network : string;
  Payload : Any
}.
End FacilitatorRequest.

Module FacilitatorVerifyResponse.
Record t : Type := { Valid : bool; Reason : string }.
End FacilitatorVerifyResponse.

Module FacilitatorSettleResponse.
Record t : Type := { TransactionHash : string; Status : string }.
End FacilitatorSettleResponse.

Module SchemeInfo.
Record t : Type := { Scheme : string; Description : string }.
End SchemeInfo.

Module FacilitatorSupportedResponse.
Record t : Type := {
  Schemes : list SchemeInfo.t;
  Networks : list NetworkInfo.t
}.
End FacilitatorSupportedResponse.

(** The calls made to the facilitator. *)
Inductive Call : Type :=
| CallVerify (ctx : Context) (req : FacilitatorRequest.t)
| CallSettle (ctx : Context) (req : FacilitatorRequest.t)
| CallGetSupported (ctx : Context).

Record Lib : Type := {
  json_Marshal_any : Any -> Result string;
  json_Unmarshal_EVMPayload : string -> Result EVMPayload.t;
  Sprintf : string -> list fmtArg -> string
}.

Section Package.
Variable lib : Lib.

(** The state of the facilitator, and the methods of
    [FacilitatorClient]. *)
Variable Facilitator : Type.
Variable facilitator_Verify :
Context -> FacilitatorRequest.t -> Facilitator ->
Result FacilitatorVerifyResponse.t * Facilitator.
Variable facilitator_Settle :
Context -> FacilitatorRequest.t -> Facilitator ->
Result FacilitatorSettleResponse.t * Facilitator.
Variable facilitator_GetSupported :
Context -> Facilitator ->
Result FacilitatorSupportedResponse.t * Facilitator.

Record World : Type := {
  state : Facilitator;
  calls : list Call
}.

Definition M (A : Type) : Type := World -> Outcome A * World.

Definition ret {A : Type} (a : A) : M A := fun w => (Done a, w).

Definition mbind {A B : Type} (m : M A) (k : A -> M B) : M B :=
  fun w =>
    match m w with
    | (Done a, w') => k a w'
    | (Panic msg, w') => (Panic msg, w')
    end.

Definition call_Verify (ctx : Context) (req : FacilitatorRequest.t)
  : M (Result FacilitatorVerifyResponse.t) :=
  fun w =>
    let '(resp, state') := facilitator_Verify ctx req (state w) in
    (Done resp, {| state := state'; calls := calls w ++ [CallVerify ctx req] |}).

Definition call_Settle (ctx : Context) (req : FacilitatorRequest.t)
  : M (Result FacilitatorSettleResponse.t) :=
  fun w =>
    let '(resp, state') := facilitator_Settle ctx req (state w) in
    (Done resp, {| state := state'; calls := calls w ++ [CallSettle ctx req] |}).

Definition call_GetSupported (ctx : Context)
  : M (Result FacilitatorSupportedResponse.t) :=
  fun w =>
    let '(resp, state') := facilitator_GetSupported ctx (state w) in
    (Done resp,
     {| state := state'; calls := calls w ++ [CallGetSupported ctx] |}).

Definition Errorf (format : string) (args : list fmtArg) : error :=
  errorString (Sprintf lib format args).

Record EVMVerifier : Type := { networks : list NetworkInfo.t }.

(** [timeout] is the context that
    [context.WithTimeout(context.Background(), 10*time.Second)]
    returns. *)
Definition NewEVMVerifier (timeout : Context) : M (Result EVMVerifier) :=
  let ctx := timeout in
  mbind (call_GetSupported ctx) (fun result =>
    match result with
    | Err err =>
        ret (Err (Errorf "failed to fetch supported networks: %w"
                    [ArgError err]))
    | Ok supported =>
        let networks :=
          map (fun n => {|
                 NetworkInfo.Network := NetworkInfo.Network n;
                 NetworkInfo.ChainID := NetworkInfo.ChainID n;
                 NetworkInfo.ChainType := NetworkInfo.ChainType n;
                 NetworkInfo.NativeCurrency := NetworkInfo.NativeCurrency n |})
            (FacilitatorSupportedResponse.Networks supported) in
        ret (Ok {| networks := networks |})
    end).

Definition parseEVMPayload (payload : Any) : Result EVMPayload.t :=
  match json_Marshal_any lib payload with
  | Err err => Err (Errorf "failed to marshal payload: %w" [ArgError err])
  | Ok payloadBytes =>
      match json_Unmarshal_EVMPayload lib payloadBytes with
      | Err err =>
          Err (Errorf "failed to unmarshal EVM payload: %w" [ArgError err])
      | Ok evmPayload =>
          if String.eqb (EVMPayload.Signature evmPayload) "" then
            Err (Errorf "signature is required" [])
          else
            match EVMPayload.Authorization evmPayload with
            | None => Err (Errorf "authorization is required" [])
            | Some auth =>
                if String.eqb (Authorization.From auth) ""
                   || String.eqb (Authorization.To auth) ""
                   || String.eqb (Authorization.Value auth) ""
                   || String.eqb (Authorization.Nonce auth) ""
                then Err (Errorf "authorization missing required fields" [])
                else Ok evmPayload
            end
      end
  end.

(** [evmPayload.Authorization], dereferenced. *)
Definition authorization (evmPayload : EVMPayload.t) : M Authorization.t :=
  fun w =>
    match EVMPayload.Authorization evmPayload with
    | Some auth => (Done auth, w)
    | None => (Panic "invalid memory address or nil pointer dereference", w)
    end.

Definition invalid (reason : string) : VerificationResult.t := {|
  VerificationResult.Valid := false;
  VerificationResult.Reason := reason;
  VerificationResult.PayerAddress := "";
  VerificationResult.Amount := "";
  VerificationResult.TokenSymbol := "" |}.

Definition EVMVerifier_Verify (v : EVMVerifier) (ctx : Context)
  (payment : Payment.t) : M (Result VerificationResult.t) :=
  if negb (Payment.X402Version payment =? 1) then
    ret (Ok (invalid (Sprintf lib "unsupported x402 version: %d"
                        [ArgInt (Payment.X402Version payment)])))
  else if negb (String.eqb (Payment.Scheme payment) "exact") then
    ret (Ok (invalid (Sprintf lib "unsupported scheme: %s"
                        [ArgString (Payment.Scheme payment)])))
  else
    match parseEVMPayload (Payment.Payload payment) with
    | Err err =>
        ret (Ok (invalid (Sprintf lib "invalid payload: %v"
                            [ArgError err])))
    | Ok evmPayload =>
        let verifyReq := {|
          FacilitatorRequest.X402Version := Payment.X402Version payment;
          FacilitatorRequest.Scheme := Payment.Scheme payment;
          FacilitatorRequest.Network := Payment.Network payment;
          FacilitatorRequest.Payload := Payment.Payload payment |} in
        mbind (call_Verify ctx verifyReq) (fun result =>
          match result with
          | Err err =>
              ret (Err (Errorf "facilitator verification failed: %w"
                          [ArgError err]))
          | Ok verifyResp =>
              mbind (authorization evmPayload) (fun auth =>
                ret (Ok {|
                  VerificationResult.Valid :=
                    FacilitatorVerifyResponse.Valid verifyResp;
                  VerificationResult.Reason :=
                    FacilitatorVerifyResponse.Reason verifyResp;
                  VerificationResult.PayerAddress := Authorization.From auth;
                  VerificationResult.Amount := Authorization.Value auth;
                  VerificationResult.TokenSymbol := "" |}))
          end)
    end.

(** [now] is what [time.Now()] returns. *)
Definition EVMVerifier_Settle (now : Time) (v : EVMVerifier)
  (ctx : Context) (payment : Payment.t) : M (Result SettlementResult.t) :=
  mbind (EVMVerifier_Verify v ctx payment) (fun verified =>
    match verified with
    | Err err => ret (Err (Errorf "verification failed: %w" [ArgError err]))
    | Ok verifyResult =>
        if negb (VerificationResult.Valid verifyResult) then
          ret (Err (Errorf "payment is not valid: %s"
                      [ArgString (VerificationResult.Reason verifyResult)]))
        else
          match parseEVMPayload (Payment.Payload payment) with
          | Err err =>
              ret (Err (Errorf "invalid payload: %w" [ArgError err]))
          | Ok evmPayload =>
              let settleReq := {|
                FacilitatorRequest.X402Version :=
                  Payment.X402Version payment;
                FacilitatorRequest.Scheme := Payment.Scheme payment;
                FacilitatorRequest.Network := Payment.Network payment;
                FacilitatorRequest.Payload := Payment.Payload payment |} in
              mbind (call_Settle ctx settleReq) (fun result =>
                match result with
                | Err err =>
                    ret (Err (Errorf "facilitator settlement failed: %w"
                                [ArgError err]))
                | Ok settleResp =>
                    mbind (authorization evmPayload) (fun auth =>
                      ret (Ok {|
                        SettlementResult.TransactionHash :=
                          FacilitatorSettleResponse.TransactionHash
                            settleResp;
                        SettlementResult.Status :=
                          FacilitatorSettleResponse.Status settleResp;
                        SettlementResult.SettledAt := now;
                        SettlementResult.Amount := Authorization.Value auth;
                        SettlementResult.PayerAddress :=
                          Authorization.From auth;
                        SettlementResult.RecipientAddress :=
                          Authorization.To auth |}))
                end)
          end
    end).

Definition EVMVerifier_SupportedNetworks (v : EVMVerifier)
  : list NetworkInfo.t := networks v.

End Package.

End EvmV1.

(** ** Predicates for stating properties of the packages *)

Module Props.

(** [c] with its validity duration replaced. *)
Definition set_ValidityDuration {PricingRule ChainVerifier : Type}
  (c : Resolver.Config PricingRule ChainVerifier) (d : Duration)
  : Resolver.Config PricingRule ChainVerifier := {|
  Verifier := Verifier c;
  EndpointPricing := EndpointPricing c;
  MethodPricing := MethodPricing c;
  DefaultPricing := DefaultPricing c;
  ValidityDuration := d;
  SkipPaths := SkipPaths c;
  SkipMethods := SkipMethods c;
  CustomPaywallHTML := CustomPaywallHTML c |}.

(** [c] as [Validate] leaves it: a zero validity duration becomes five
    minutes. *)
Definition defaulted {PricingRule ChainVerifier : Type}
  (c : Resolver.Config PricingRule ChainVerifier)
  : Resolver.Config PricingRule ChainVerifier :=
  set_ValidityDuration c
    (if ValidityDuration c =? 0 then 5 * Minute else ValidityDuration c).

(** Every rule that the configuration holds satisfies [P]. *)
Definition all_rules {PricingRule ChainVerifier : Type}
  (P : PricingRule -> Prop) (c : Resolver.Config PricingRule ChainVerifier)
  : Prop :=
  (forall pattern rule, EndpointPricing c !! pattern = Some rule -> P rule)
  /\ (forall pattern rule, MethodPricing c !! pattern = Some rule -> P rule)
  /\ (forall rule, DefaultPricing c = Some rule -> P rule).

(** The request after [r.Header.Del(key)]. *)
Definition without_header (key : string) (r : Request) : Request := {|
  URL_Path := URL_Path r;
  ReqHeader := delete (CanonicalMIMEHeaderKey key) (ReqHeader r);
  ReqContext := ReqContext r |}.

(** The context whose incoming metadata has lost the key [key]. *)
Definition without_metadata (key : string) (ctx : Context) : Context := {|
  values := values ctx;
  incomingMD := delete (ToLower key) <$> incomingMD ctx |}.

Module V2.
Import V2.

Definition valid_token (t : TokenRequirement.t) : Prop :=
  TokenRequirement.Network t <> ""
  /\ TokenRequirement.Symbol t <> ""
  /\ TokenRequirement.Recipient t <> ""
  /\ TokenRequirement.AssetContract t <> ""
  /\ TokenRequirement.Amount t <> "".

Definition valid_rule (p : PricingRule.t) : Prop :=
  PricingRule.AcceptedTokens p <> []
  /\ Forall valid_token (PricingRule.AcceptedTokens p).

(** The requirement that a 402 response offers for one token. *)
Definition offer_for (rule : PricingRule.t) (cfg : Config)
  (token : TokenRequirement.t) : PaymentRequirements.t := {|
  PaymentRequirements.Scheme := "exact";
  PaymentRequirements.Network := TokenRequirement.Network token;
  PaymentRequirements.Amount := PricingRule.Amount rule;
  PaymentRequirements.Asset := TokenRequirement.AssetContract token;
  PaymentRequirements.PayTo := TokenRequirement.Recipient token;
  PaymentRequirements.MaxTimeoutSeconds := Seconds (ValidityDuration cfg);
  PaymentRequirements.Extra :=
    Some [("name", AnyString (TokenRequirement.TokenName token));
          ("version", AnyString "2")] |}.

(** The document of a 402 response: one requirement per accepted
    token, in the order of the rule. *)
Definition offer (rule : PricingRule.t) (cfg : Config)
  : PaymentRequiredResponse.t := {|
  PaymentRequiredResponse.X402Version := 2;
  PaymentRequiredResponse.Error := "Payment required";
  PaymentRequiredResponse.Accepts :=
    map (offer_for rule cfg) (PricingRule.AcceptedTokens rule) |}.


(** The document in the status of a refused gRPC call. *)
Definition grpc_offer (accepts : list PaymentRequirements.t)
  : PaymentRequiredResponse.t := {|
  PaymentRequiredResponse.X402Version := 2;
  PaymentRequiredResponse.Error := "payment required";
  PaymentRequiredResponse.Accepts := accepts |}.

(** The library decodes what it encoded of [v]: base64 and JSON. *)
Definition decodes {A : Type} (lib : Lib) (unmarshal : string -> Result A)
  (v : Marshalable) (a : A) : Prop :=
  forall json,
    json_Marshal lib v = Ok json ->
    base64_DecodeString lib (base64_EncodeToString lib json) = Ok json
    /\ unmarshal json = Ok a.
End V2.

Module V1.
Import V1.

Definition valid_token (t : TokenRequirement.t) : Prop :=
  TokenRequirement.Network t <> ""
  /\ TokenRequirement.Symbol t <> ""
  /\ TokenRequirement.Recipient t <> ""
  /\ TokenRequirement.AssetContract t <> "".

Definition valid_rule (p : PricingRule.t) : Prop :=
  PricingRule.Amount p <> ""
  /\ PricingRule.AcceptedTokens p <> []
  /\ Forall valid_token (PricingRule.AcceptedTokens p).

(** The verifier of the configuration finds the payment valid and
    settles it. *)
Definition settles (cfg : Config) (ctx : Context) (payment : Payment.t)
  (verifyResult : VerificationResult.t)
  (settlementResult : SettlementResult.t) : Prop :=
  exists verifier,
    Verifier cfg = Some verifier
    /\ ChainVerifier.Verify verifier ctx payment = Ok verifyResult
    /\ VerificationResult.Valid verifyResult = true
    /\ ChainVerifier.Settle verifier ctx payment = Ok settlementResult.

(** The context given to the wrapped handler of a settled request. *)
Definition paid_context (ctx : Context)
  (verifyResult : VerificationResult.t) (payment : Payment.t)
  (settlementResult : SettlementResult.t) : Context :=
  WithValue ctx PaymentContextKey
    (PaymentContextPtr
       (Some (paymentContext verifyResult payment settlementResult))).

(** The document of a 402 response, built at [now]. *)
Definition offer (now : Time) (rule : PricingRule.t) (cfg : Config)
  (resource : string) : PaymentRequiredResponse.t := {|
  PaymentRequiredResponse.Error := "Payment required";
  PaymentRequiredResponse.PaymentRequirements :=
    map (requirementFor rule resource (Unix (now + ValidityDuration cfg)))
      (PricingRule.AcceptedTokens rule) |}.

(** The document in the status of a refused gRPC call: the same
    requirements under another error text. *)
Definition grpc_offer (now : Time) (rule : PricingRule.t) (cfg : Config)
  (fullMethod : string) : PaymentRequiredResponse.t := {|
  PaymentRequiredResponse.Error := "payment required";
  PaymentRequiredResponse.PaymentRequirements :=
    PaymentRequiredResponse.PaymentRequirements
      (offer now rule cfg fullMethod) |}.

(** The library decodes what it encoded of [v]: base64 and JSON. *)
Definition decodes {A : Type} (lib : Lib) (unmarshal : string -> Result A)
  (v : Marshalable) (a : A) : Prop :=
  forall json,
    json_Marshal lib v = Ok json ->
    base64_DecodeString lib (base64_EncodeToString lib json) = Ok json
    /\ unmarshal json = Ok a.

(** The library decodes the line that [json.Encoder] writes of [v]. *)
Definition decodes_line {A : Type} (lib : Lib)
  (unmarshal : string -> Result A) (v : Marshalable) (a : A) : Prop :=
  forall json,
    json_Marshal lib v = Ok json ->
    unmarshal (json ++ String "010" EmptyString) = Ok a.

(** The codes of the errors with which the interceptors refuse a
    call. *)
Definition refusal (e : error) : Prop :=
  exists code msg,
    e = statusError code msg
    /\ (code = ResourceExhausted \/ code = InvalidArgument
        \/ code = Internal \/ code = Unavailable).
End V1.

(** The request that [FacilitatorClient] of [v2/evm] posts to a path of
    the facilitator. *)
Definition posted (ctx : Context) (url body : string) : Evm.HTTPRequest.t := {|
  Evm.HTTPRequest.Ctx := ctx;
  Evm.HTTPRequest.Method := "POST";
  Evm.HTTPRequest.URL := url;
  Evm.HTTPRequest.Header :=
    Header_Set ∅ "Content-Type" "application/json";
  Evm.HTTPRequest.Body := Some body |}.

(** The payload names a signature and an authorization with a payer, a
    recipient, a value and a nonce. *)
Definition complete (signature : string)
  (from to value nonce : string) : Prop :=
  signature <> "" /\ from <> "" /\ to <> "" /\ value <> "" /\ nonce <> "".

End Props.

(** ** Further test data: the root package, the clients, the verifiers *)

Module Fixtures.

Import Testdata.

(** Two patterns of the same length that match [/a/x]: the first by the
    prefix rule, the second by the glob. *)
Definition tieConfig : V2.Config :=
  config_with MockVerifier [("/a/*", paidRule); ("/a/?", premiumRule)]
    [] [] [].

(** The configuration of [TestPaymentMiddleware_VerificationFailed]. *)
Definition rejectingConfig : V2.Config :=
  config_with RejectingVerifier [("/v1/paid", paidRule)]
    [("/test.v1.TestService/GetData", paidRule)] [] [].

(** *** Package [v2]: what a client decodes *)

(** The receipt of [MockVerifier]'s settlement. *)
Definition receipt : V2.PaymentResponse.t :=
  GrpcV2.paymentResponse mockSettlement.

Definition json_of (v : V2.Marshalable) : string :=
  match Marshal_V2 v with
  | Ok json => json
  | Err _ => EmptyString
  end.

(** [Testdata.lib] with a decoder for the receipt. *)
Definition clientLib : V2.Lib := {|
  V2.path_Match := V2.path_Match lib;
  V2.base64_DecodeString := V2.base64_DecodeString lib;
  V2.base64_EncodeToString := V2.base64_EncodeToString lib;
  V2.json_Unmarshal_PaymentPayload := V2.json_Unmarshal_PaymentPayload lib;
  V2.json_Unmarshal_LegacyPayment := V2.json_Unmarshal_LegacyPayment lib;
  V2.json_Unmarshal_PaymentResponse := fun data =>
    lookup_doc data [(json_of (V2.MarshalPaymentResponse receipt), receipt)];
  V2.json_Marshal := V2.json_Marshal lib;
  V2.Sprintf := V2.Sprintf lib |}.

(** A decoder for the 402 documents of [testConfig]. *)
Definition Unmarshal_Required (data : string)
  : Result V2.PaymentRequiredResponse.t :=
  lookup_doc data
    [(json_of (V2.MarshalPaymentRequiredResponse
                 (Props.V2.offer paidRule testConfig)),
      Props.V2.offer paidRule testConfig);
     (json_of (V2.MarshalPaymentRequiredResponse
                 (Props.V2.grpc_offer [paidRequirements])),
      Props.V2.grpc_offer [paidRequirements])].

(** *** The root package: documents of [middleware_test.go] *)

Module Root.

Import V1.

(** The payment of [TestPaymentMiddleware_ValidPayment]. *)
Definition paymentPayload : Any :=
  AnyMap [("authorization",
           AnyMap [("from", AnyString "0xpayer"); ("nonce", AnyString "0xnonce");
                   ("to", AnyString "0xrecipient");
                   ("validAfter", AnyNumber "0");
                   ("validBefore", AnyNumber "9999999999");
                   ("value", AnyString "1000000")]);
          ("signature", AnyString "0xsig")].

Definition payment : Payment.t := {|
  Payment.X402Version := 1;
  Payment.Scheme := "exact";
  Payment.Network := "base-sepolia";
  Payment.Payload := paymentPayload |}.

(** A payment that declares no scheme. *)
Definition schemelessPayment : Payment.t := {|
  Payment.X402Version := 1;
  Payment.Scheme := "";
  Payment.Network := "base-sepolia";
  Payment.Payload := paymentPayload |}.

Definition payment_doc (p : Payment.t) : Any :=
  AnyMap [("x402Version", AnyNumber (decimal (Payment.X402Version p)));
          ("scheme", AnyString (Payment.Scheme p));
          ("network", AnyString (Payment.Network p));
          ("payload", Payment.Payload p)].

Definition response_doc (r : PaymentResponse.t) : Any :=
  AnyMap (omitempty "transactionHash" (PaymentResponse.TransactionHash r)
          ++ [("status", AnyString (PaymentResponse.Status r))]
          ++ omitempty "message" (PaymentResponse.Message r)).

Definition metadata_doc (m : Metadata.t) : Any :=
  AnyMap (omitempty "tokenSymbol" (Metadata.TokenSymbol m)
          ++ omitempty "tokenName" (Metadata.TokenName m)
          ++ (if Metadata.TokenDecimals m =? 0 then []
              else [("tokenDecimals",
                     AnyNumber (decimal (Metadata.TokenDecimals m)))])).

Definition requirements_doc (q : PaymentRequirements.t) : Any :=
  AnyMap ([("x402Version",
            AnyNumber (decimal (PaymentRequirements.X402Version q)));
           ("scheme", AnyString (PaymentRequirements.Scheme q));
           ("network", AnyString (PaymentRequirements.Network q));
           ("maxAmountRequired",
            AnyString (PaymentRequirements.MaxAmountRequired q));
           ("resource", AnyString (PaymentRequirements.Resource q))]
          ++ omitempty "description" (PaymentRequirements.Description q)
          ++ omitempty "mimeType" (PaymentRequirements.MimeType q)
          ++ [("recipient", AnyString (PaymentRequirements.Recipient q));
              ("validBefore",
               AnyNumber (decimal (PaymentRequirements.ValidBefore q)));
              ("assetContract",
               AnyString (PaymentRequirements.AssetContract q));
              ("metadata", metadata_doc (PaymentRequirements.Metadata q))]
          ++ match PaymentRequirements.OutputSchema q with
             | Some ((_ :: _) as schema) => [("outputSchema", AnyMap schema)]
             | _ => []
             end).

Definition required_doc (r : PaymentRequiredResponse.t) : Any :=
  AnyMap [("error", AnyString (PaymentRequiredResponse.Error r));
          ("paymentRequirements",
           AnyList (map requirements_doc
                      (PaymentRequiredResponse.PaymentRequirements r)))].

Definition Marshal (v : Marshalable) : Result string :=
  match v with
  | MarshalPaymentResponse r => Ok (print (response_doc r))
  | MarshalPaymentRequiredResponse r => Ok (print (required_doc r))
  | MarshalPayment p => Ok (print (payment_doc p))
  | MarshalErrorBody message =>
      Ok (print (AnyMap [("error", AnyString message)]))
  end.

(** The settlement of the verifier of
    [TestPaymentMiddleware_ValidPayment], and its receipt. *)
Definition settlement : SettlementResult.t := {|
  SettlementResult.TransactionHash := "0xtxhash123";
  SettlementResult.Status := "success";
  SettlementResult.SettledAt := Time_zero;
  SettlementResult.Amount := "1.00";
  SettlementResult.PayerAddress := "0xpayer";
  SettlementResult.RecipientAddress := "0xrecipient" |}.

Definition verification : VerificationResult.t := {|
  VerificationResult.Valid := true;
  VerificationResult.Reason := "";
  VerificationResult.PayerAddress := "0xpayer";
  VerificationResult.Amount := "1.00";
  VerificationResult.TokenSymbol := "USDC" |}.

Definition receipt : PaymentResponse.t := {|
  PaymentResponse.TransactionHash := "0xtxhash123";
  PaymentResponse.Status := "success";
  PaymentResponse.Message := "" |}.

Definition lib : Lib := {|
  path_Match := GoPath.Match;
  base64_DecodeString := DecodeString;
  base64_EncodeToString := EncodeToString;
  json_Unmarshal_Payment := fun data =>
    lookup_doc data
      [(print (payment_doc payment), payment);
       (print (payment_doc schemelessPayment), schemelessPayment)];
  json_Unmarshal_PaymentResponse := fun data =>
    lookup_doc data [(print (response_doc receipt), receipt)];
  json_Marshal := Marshal;
  Sprintf := Testdata.Sprintf |}.

Definition verifier : ChainVerifier.t := {|
  ChainVerifier.Verify := fun _ _ => Ok verification;
  ChainVerifier.Settle := fun _ _ => Ok settlement;
  ChainVerifier.SupportedNetworks :=
    [{| NetworkInfo.Network := "base-sepolia";
        NetworkInfo.ChainID := "84532";
        NetworkInfo.ChainType := "evm";
        NetworkInfo.NativeCurrency := "" |}] |}.

(** A verifier that rejects every payment. *)
Definition rejecting : ChainVerifier.t := {|
  ChainVerifier.Verify := fun _ _ =>
    Ok {| VerificationResult.Valid := false;
          VerificationResult.Reason := "insufficient balance";
          VerificationResult.PayerAddress := "";
          VerificationResult.Amount := "";
          VerificationResult.TokenSymbol := "" |};
  ChainVerifier.Settle := fun _ _ => Ok settlement;
  ChainVerifier.SupportedNetworks := [] |}.

Definition usdc : TokenRequirement.t := {|
  TokenRequirement.Network := "base-sepolia";
  TokenRequirement.AssetContract := "0x123";
  TokenRequirement.Symbol := "USDC";
  TokenRequirement.Recipient := "0xrecipient";
  TokenRequirement.TokenName := "";
  TokenRequirement.TokenDecimals := 0 |}.

Definition rule (amount : string) : PricingRule.t := {|
  PricingRule.Amount := amount;
  PricingRule.AcceptedTokens := [usdc];
  PricingRule.Description := "";
  PricingRule.MimeType := "";
  PricingRule.OutputSchema := None |}.

Definition config_of (v : ChainVerifier.t) (amount : string) : Config := {|
  Verifier := Some v;
  EndpointPricing := {[ "/v1/paid" := rule amount ]};
  MethodPricing := {[ "/test.v1.TestService/GetData" := rule amount ]};
  DefaultPricing := None;
  ValidityDuration := 0;
  SkipPaths := [];
  SkipMethods := [];
  CustomPaywallHTML := "" |}.

(** The configuration of [TestPaymentMiddleware_ValidPayment], with a
    priced method added. *)
Definition config : Config := config_of verifier "1.00".

Definition rejectingConfig : Config := config_of rejecting "1.00".

Definition xPayment : string := EncodeToString (print (payment_doc payment)).

Definition paidRequest : Request := request "/v1/paid" [("X-PAYMENT", xPayment)].

Definition paidCall : Context := incoming [("x402-payment", xPayment)].

(** 2024-01-01T00:00:00Z. *)
Definition now : Time := (1704067200 + 62135596800) * 1000000000.

(** 1970-01-01T00:00:10Z. *)
Definition early : Time := (10 + 62135596800) * 1000000000.

(** A decoder for the offers of [config] made at [early]. *)
Definition Unmarshal_Required (data : string)
  : Result PaymentRequiredResponse.t :=
  lookup_doc data
    [(print (required_doc
               (Props.V1.offer early (rule "1.00") config "/v1/paid"))
      ++ String "010" EmptyString,
      Props.V1.offer early (rule "1.00") config "/v1/paid");
     (print (required_doc
               (Props.V1.grpc_offer early (rule "1.00") config
                  "/test.v1.TestService/GetData")),
      Props.V1.grpc_offer early (rule "1.00") config
        "/test.v1.TestService/GetData")].

End Root.

(** *** Package [v2/evm]: a facilitator that accepts *)

Module Facilitator.

Import V2 Evm.

Definition auth : Authorization.t := {|
  Authorization.From := "0xPayer";
  Authorization.To := "0xRecipient";
  Authorization.Value := "1000000";
  Authorization.ValidAfter := 0;
  Authorization.ValidBefore := 9999999999;
  Authorization.Nonce := "0xnonce123" |}.

(** [Testdata.evmPayload], decoded. *)
Definition parsed : EVMPayload.t := {|
  EVMPayload.Signature := "0xsig123";
  EVMPayload.Authorization := Some auth |}.

(** A payload whose authorization names no payer. *)
Definition anonymousPayload : Any :=
  AnyMap [("authorization",
           AnyMap [("from", AnyString ""); ("to", AnyString "0xRecipient");
                   ("value", AnyString "1000000"); ("validAfter", AnyNumber "0");
                   ("validBefore", AnyNumber "9999999999");
                   ("nonce", AnyString "0xnonce123")]);
          ("signature", AnyString "0xsig123")].

Definition anonymous : EVMPayload.t := {|
  EVMPayload.Signature := "0xsig123";
  EVMPayload.Authorization := Some {|
    Authorization.From := "";
    Authorization.To := "0xRecipient";
    Authorization.Value := "1000000";
    Authorization.ValidAfter := 0;
    Authorization.ValidBefore := 9999999999;
    Authorization.Nonce := "0xnonce123" |} |}.

Definition anonymousCredential : PaymentPayload.t := {|
  PaymentPayload.X402Version := 2;
  PaymentPayload.Accepted := v2Accepted;
  PaymentPayload.Payload := anonymousPayload;
  PaymentPayload.Extensions := None |}.

Definition request_doc (req : FacilitatorRequest.t) : Any :=
  AnyMap [("payload", payload_doc (FacilitatorRequest.Payload req));
          ("requirements",
           match FacilitatorRequest.Requirements req with
           | Some q => requirements_doc q
           | None => AnyNil
           end)].

Definition verified : FacilitatorVerifyResponse.t := {|
  FacilitatorVerifyResponse.IsValid := true;
  FacilitatorVerifyResponse.InvalidReason := "";
  FacilitatorVerifyResponse.Payer := "0xPayer" |}.

Definition settled : FacilitatorSettleResponse.t := {|
  FacilitatorSettleResponse.Success := true;
  FacilitatorSettleResponse.ErrorReason := "";
  FacilitatorSettleResponse.Payer := "0xPayer";
  FacilitatorSettleResponse.Transaction := "0xabc123";
  FacilitatorSettleResponse.Network := "eip155:84532" |}.

Definition supported : FacilitatorSupportedResponse.t := {|
  FacilitatorSupportedResponse.Kinds :=
    [{| SupportedKind.Scheme := "exact";
        SupportedKind.Network := "eip155:8453" |};
     {| SupportedKind.Scheme := "exact";
        SupportedKind.Network := "eip155:84532" |}];
  FacilitatorSupportedResponse.Extensions := [];
  FacilitatorSupportedResponse.Signers := [] |}.

Definition verified_doc : string :=
  print (AnyMap [("isValid", AnyBool true); ("payer", AnyString "0xPayer")]).

Definition settled_doc : string :=
  print (AnyMap [("success", AnyBool true); ("payer", AnyString "0xPayer");
                 ("transaction", AnyString "0xabc123");
                 ("network", AnyString "eip155:84532")]).

Definition supported_doc : string :=
  print (AnyMap
           [("kinds",
             AnyList [AnyMap [("scheme", AnyString "exact");
                              ("network", AnyString "eip155:8453")];
                      AnyMap [("scheme", AnyString "exact");
                              ("network", AnyString "eip155:84532")]]);
            ("extensions", AnyList []); ("signers", AnyMap [])]).

Definition lib : Evm.Lib := {|
  json_Marshal_any := fun payload => Ok (print payload);
  json_Unmarshal_EVMPayload := fun data =>
    lookup_doc data
      [(print evmPayload, parsed); (print anonymousPayload, anonymous)];
  json_Marshal_request := fun req => Ok (print (request_doc req));
  json_Decode_VerifyResponse := fun resp =>
    lookup_doc (HTTPResponse.BodyBytes resp) [(verified_doc, verified)];
  json_Decode_SettleResponse := fun resp =>
    lookup_doc (HTTPResponse.BodyBytes resp) [(settled_doc, settled)];
  json_Decode_SupportedResponse := fun resp =>
    lookup_doc (HTTPResponse.BodyBytes resp) [(supported_doc, supported)];
  url_error := fun _ => None;
  Evm.Sprintf := Testdata.Sprintf |}.

Definition baseURL : string := "https://facilitator.test".

(** A facilitator that answers every request with status 200 and accepts
    every payment; the state of the network counts the requests. *)
Definition Do (req : HTTPRequest.t) (served : nat)
  : Result HTTPResponse.t * nat :=
  (Ok {| HTTPResponse.StatusCode := StatusOK;
         HTTPResponse.BodyBytes :=
           if String.eqb (HTTPRequest.URL req) (baseURL ++ "/v2/x402/verify")
           then verified_doc
           else if String.eqb (HTTPRequest.URL req)
                     (baseURL ++ "/v2/x402/settle")
           then settled_doc
           else supported_doc;
         HTTPResponse.BodyError := None |},
   S served).

Definition verifier : EVMVerifier := {|
  facilitator := NewFacilitatorClient baseURL;
  kinds := [] |}.

Definition start : Evm.World nat := {| network := O; sent := [] |}.

End Facilitator.

(** *** Package [evm] of the root module: a facilitator that accepts *)

Module RootFacilitator.

Import V1 EvmV1.

(** [Root.paymentPayload], decoded. *)
Definition parsed : EVMPayload.t := {|
  EVMPayload.Signature := "0xsig";
  EVMPayload.Authorization := Some {|
    Authorization.From := "0xpayer";
    Authorization.To := "0xrecipient";
    Authorization.Value := "1000000";
    Authorization.ValidAfter := 0;
    Authorization.ValidBefore := 9999999999;
    Authorization.Nonce := "0xnonce" |} |}.

Definition lib : EvmV1.Lib := {|
  json_Marshal_any := fun payload => Ok (print payload);
  json_Unmarshal_EVMPayload := fun data =>
    lookup_doc data [(print Root.paymentPayload, parsed)];
  EvmV1.Sprintf := Testdata.Sprintf |}.

(** A facilitator that accepts every payment and reports every settlement
    as pending; its state counts the calls. *)
Definition Verify (ctx : Context) (req : FacilitatorRequest.t) (served : nat)
  : Result FacilitatorVerifyResponse.t * nat :=
  (Ok {| FacilitatorVerifyResponse.Valid := true;
         FacilitatorVerifyResponse.Reason := "" |},
   S served).

Definition Settle (ctx : Context) (req : FacilitatorRequest.t) (served : nat)
  : Result FacilitatorSettleResponse.t * nat :=
  (Ok {| FacilitatorSettleResponse.TransactionHash := "0xabc123";
         FacilitatorSettleResponse.Status := "pending" |},
   S served).

Definition verifier : EVMVerifier := {| networks := [] |}.

Definition start : EvmV1.World nat := {| state := O; calls := [] |}.

End RootFacilitator.

End Fixtures.

(** * Properties of the pricing rule resolver *)

Section ResolverFacts.
Context {PricingRule ChainVerifier : Type}.
Variable path_Match : string -> string -> option bool.

Local Abbreviation matchPath := (Resolver.matchPath path_Match).
Local Abbreviation Config := (Resolver.Config PricingRule ChainVerifier).

Lemma matchPath_code_matches (identifier pattern : string) :
  matchPath identifier pattern = true
  <-> code_matches path_Match identifier pattern.
Proof.
  unfold Resolver.matchPath, code_matches.
  destruct (String.eqb_spec identifier pattern) as [Heq | Hne].
  { split; auto. }
  destruct (HasSuffix pattern "/*") eqn:Hsuf.
  - rewrite orb_true_iff. split.
    + intros [Hpre | Heq].
      * right; left; auto.
      * apply String.eqb_eq in Heq. right; left; auto.
    + intros [Heq | [[_ [Heq | Hpre]] | [Hc _]]]; try congruence.
      * right. now apply String.eqb_eq.
      * now left.
  - split.
    + intros Hm. right; right. split; [reflexivity|].
      destruct (path_Match pattern identifier) as [[|]|]; congruence.
    + intros [Heq | [[Hc _] | [_ Hm]]]; try congruence.
      now rewrite Hm.
Qed.

Lemma skip_existsb (identifier : string) (skip : list string) :
  existsb (fun p => matchPath identifier p) skip = true
  <-> exists p, In p skip /\ matchPath identifier p = true.
Proof. apply existsb_exists. Qed.

(** The wildcard loop from an arbitrary start: the final pattern is at
    least as long as the start and as every matching entry, and it is
    either the start or a matching entry of the list. *)
Lemma bestMatch_fold (identifier : string)
  (order : list (string * PricingRule)) :
  forall best : string * option PricingRule,
    let final := fold_left (bestStep path_Match identifier) order best in
    (len (fst best) <= len (fst final))%nat
    /\ (forall q r, In (q, r) order -> matchPath identifier q = true ->
          (len q <= len (fst final))%nat)
    /\ (final = best
        \/ exists r, snd final = Some r /\ In (fst final, r) order
                     /\ matchPath identifier (fst final) = true).
Proof.
  induction order as [| [pattern rule] order IH]; intros best;
    cbn [fold_left].
  - repeat split; auto. intros q r [].
  - set (next := bestStep path_Match identifier best (pattern, rule)).
    pose proof (IH next) as IHn. cbn zeta in IHn.
    destruct IHn as (Hlen & Hall & Hfin).
    assert (Hstep : (len (fst best) <= len (fst next))%nat
                    /\ (matchPath identifier pattern = true ->
                        (len pattern <= len (fst next))%nat)
                    /\ (next = best
                        \/ (next = (pattern, Some rule)
                            /\ matchPath identifier pattern = true))).
    { subst next. unfold bestStep.
      destruct (matchPath identifier pattern) eqn:Hm.
      - destruct (Nat.ltb_spec (len (fst best)) (len pattern)); simpl.
        + repeat split; try lia. right; auto.
        + repeat split; try lia. left; auto.
      - repeat split; try lia; try congruence. left; auto. }
    destruct Hstep as (Hs1 & Hs2 & Hs3).
    split; [lia|]. split.
    + intros q r [Heq | Hin] Hm.
      * inversion Heq; subst. specialize (Hs2 Hm). lia.
      * eauto.
    + destruct Hfin as [Hfin | (r & Hr & Hin & Hm)].
      * destruct Hs3 as [Hs3 | [Hs3 Hm]].
        -- left. congruence.
        -- right. exists rule. rewrite Hfin, Hs3. simpl.
           repeat split; auto.
      * right. exists r. repeat split; auto. now right.
Qed.

(** A pattern that matches an identifier other than itself is not
    empty, as soon as the empty glob matches the empty name only. *)
Lemma matching_pattern_nonempty (identifier pattern : string) :
  (forall name, path_Match EmptyString name = Some true ->
                name = EmptyString) ->
  matchPath identifier pattern = true -> identifier <> pattern ->
  (0 < len pattern)%nat.
Proof.
  intros Hglob Hm Hne. destruct pattern as [| c pattern]; simpl; [|lia].
  exfalso. apply matchPath_code_matches in Hm.
  destruct Hm as [Heq | [[Hsuf _] | [_ Hm]]].
  - contradiction.
  - discriminate Hsuf.
  - apply Hne. now apply Hglob.
Qed.

Lemma bestMatch_longest (table : gmap string PricingRule)
  (default : option PricingRule)
  (order : list (string * PricingRule)) (identifier : string) :
  (forall name, path_Match EmptyString name = Some true ->
                name = EmptyString) ->
  range_order table order ->
  table !! identifier = None ->
  longest_match_or_default path_Match table default identifier
    match snd (bestMatch path_Match identifier order) with
    | Some bestRule => (Some bestRule, true)
    | None =>
        match default with
        | Some rule => (Some rule, true)
        | None => (None, false)
        end
    end.
Proof.
  intros Hglob Hord Hexact.
  assert (Hin : forall q r, In (q, r) order <-> table !! q = Some r).
  { intros q r. rewrite <- list_elem_of_In. unfold range_order in Hord.
    rewrite Hord. apply elem_of_map_to_list. }
  unfold bestMatch.
  pose proof (bestMatch_fold identifier order (EmptyString, None)) as Hf.
  cbn zeta in Hf. destruct Hf as (_ & Hall & Hfin).
  set (final := fold_left (bestStep path_Match identifier) order
                  (EmptyString, None)) in *.
  split.
  - intros (p & r & Hp & Hm).
    assert (Hpos : (0 < len p)%nat).
    { apply (matching_pattern_nonempty identifier p Hglob Hm).
      intros ->. congruence. }
    destruct Hfin as [Hfin | (r' & Hr' & Hin' & Hm')].
    + apply Hin in Hp. specialize (Hall p r Hp Hm).
      rewrite Hfin in Hall. simpl in Hall. lia.
    + exists (fst final), r'. rewrite Hr'. repeat split; auto.
      * now apply Hin.
      * intros q rq Hq Hmq. apply (Hall q rq); auto. now apply Hin.
  - intros Hnone.
    destruct Hfin as [Hfin | (r' & Hr' & Hin' & Hm')].
    + now rewrite Hfin.
    + apply Hin in Hin'. rewrite (Hnone _ _ Hin') in Hm'. discriminate.
Qed.

End ResolverFacts.

(** ** The claims about the resolver *)

Lemma GoPath_Match_empty (name : string) :
  GoPath.Match EmptyString name = Some true -> name = EmptyString.
Proof.
  unfold GoPath.Match. simpl. destruct name; simpl; [reflexivity|].
  discriminate.
Qed.

Section ResolverClaims.
Context {PricingRule ChainVerifier : Type}.
Variable path_Match : string -> string -> option bool.

Local Abbreviation matchPath := (Resolver.matchPath path_Match).
Local Abbreviation Config := (Resolver.Config PricingRule ChainVerifier).

Lemma skipped_MatchEndpoint (c : Config) order identifier pattern :
  In pattern (SkipPaths c) -> matchPath identifier pattern = true ->
  MatchEndpoint path_Match c order identifier = (None, false).
Proof.
  intros Hin Hm. unfold MatchEndpoint.
  replace (existsb _ (SkipPaths c)) with true; [reflexivity|].
  symmetry. apply existsb_exists. eauto.
Qed.

Lemma skipped_MatchMethod (c : Config) order identifier pattern :
  In pattern (SkipMethods c) -> matchPath identifier pattern = true ->
  MatchMethod path_Match c order identifier = (None, false).
Proof.
  intros Hin Hm. unfold MatchMethod.
  replace (existsb _ (SkipMethods c)) with true; [reflexivity|].
  symmetry. apply existsb_exists. eauto.
Qed.

Lemma not_skipped (identifier : string) (skip : list string) :
  (forall p, In p skip -> matchPath identifier p = false) ->
  existsb (fun p => matchPath identifier p) skip = false.
Proof.
  intros H. destruct (existsb _ skip) eqn:E; [|reflexivity].
  apply existsb_exists in E. destruct E as (p & Hin & Hm).
  rewrite (H p Hin) in Hm. discriminate.
Qed.

(** C2, as amended.  An identifier that [matchPath] matches against a
    skip pattern - by equality, by the prefix rule of a pattern ending in
    [/*], or by a shell-glob match of a pattern that does not end in
    [/*] - resolves to "no payment required" (nil rule, false) in
    [MatchEndpoint] and in [MatchMethod], before any rule is looked up
    and whatever the pricing tables hold. *)
Theorem C2_skip_takes_precedence (c : Config)
  (order : list (string * PricingRule)) (identifier pattern : string) :
  code_matches path_Match identifier pattern ->
  (In pattern (SkipPaths c) ->
   MatchEndpoint path_Match c order identifier = (None, false))
  /\ (In pattern (SkipMethods c) ->
      MatchMethod path_Match c order identifier = (None, false)).
Proof.
  intros Hm. apply matchPath_code_matches in Hm. split; intros Hin.
  - eapply skipped_MatchEndpoint; eauto.
  - eapply skipped_MatchMethod; eauto.
Qed.

(** C5.  For an identifier that no skip pattern matches and that is not
    a key of the rule table, in every order in which the table may be
    visited: when some pattern of the table matches, the resolver returns
    the rule of a matching pattern at least as long as every matching
    pattern; when none does, it returns the default rule if there is one
    and "no payment required" otherwise.  The glob of the standard
    library is only asked to match the empty pattern against the empty
    name alone. *)
Theorem C5_longest_pattern_or_default (c : Config)
  (order : list (string * PricingRule)) (identifier : string) :
  (forall name, path_Match EmptyString name = Some true ->
                name = EmptyString) ->
  (range_order (EndpointPricing c) order ->
   (forall p, In p (SkipPaths c) -> matchPath identifier p = false) ->
   EndpointPricing c !! identifier = None ->
   longest_match_or_default path_Match (EndpointPricing c)
     (DefaultPricing c) identifier
     (MatchEndpoint path_Match c order identifier))
  /\ (range_order (MethodPricing c) order ->
      (forall p, In p (SkipMethods c) -> matchPath identifier p = false) ->
      MethodPricing c !! identifier = None ->
      longest_match_or_default path_Match (MethodPricing c)
        (DefaultPricing c) identifier
        (MatchMethod path_Match c order identifier)).
Proof.
  intros Hglob. split; intros Hord Hskip Hexact.
  - unfold MatchEndpoint. rewrite (not_skipped _ _ Hskip), Hexact.
    now apply bestMatch_longest.
  - unfold MatchMethod. rewrite (not_skipped _ _ Hskip), Hexact.
    now apply bestMatch_longest.
Qed.

(** A rule returned with [true] is never nil. *)
Lemma MatchEndpoint_rule (c : Config) order identifier rule :
  MatchEndpoint path_Match c order identifier = (rule, true) ->
  exists r, rule = Some r.
Proof.
  unfold MatchEndpoint. intros H.
  repeat match type of H with
         | (if ?b then _ else _) = _ => destruct b
         | match ?x with _ => _ end = _ => destruct x
         end; inversion H; eauto.
Qed.

Lemma MatchMethod_rule (c : Config) order identifier rule :
  MatchMethod path_Match c order identifier = (rule, true) ->
  exists r, rule = Some r.
Proof.
  unfold MatchMethod. intros H.
  repeat match type of H with
         | (if ?b then _ else _) = _ => destruct b
         | match ?x with _ => _ end = _ => destruct x
         end; inversion H; eauto.
Qed.

End ResolverClaims.

(** C2 as stated fails: the identifier glob-matches a configured skip
    pattern, and is resolved to its priced rule all the same, because
    [matchPath] never consults the glob for a pattern ending in [/*]. *)
Lemma C2_counterexample :
  In "/api/*/public/*" (SkipPaths Testdata.publicSkipConfig)
  /\ spec_matches GoPath.Match "/api/v1/public/x" "/api/*/public/*"
  /\ MatchEndpoint GoPath.Match Testdata.publicSkipConfig
       (map_to_list (EndpointPricing Testdata.publicSkipConfig)) "/api/v1/public/x"
     = (Some Testdata.paidRule, true).
Proof.
  split; [left; reflexivity|]. split.
  - right; right. vm_compute. reflexivity.
  - vm_compute. reflexivity.
Qed.

Lemma C2_witness :
  MatchEndpoint GoPath.Match Testdata.healthSkipConfig
    (map_to_list (EndpointPricing Testdata.healthSkipConfig)) "/health"
  = (None, false)
  /\ MatchEndpoint GoPath.Match Testdata.healthSkipConfig
       (map_to_list (EndpointPricing Testdata.healthSkipConfig)) "/static/site.css"
     = (None, false).
Proof.
  split.
  - apply (C2_skip_takes_precedence GoPath.Match Testdata.healthSkipConfig _
             "/health" "/health").
    + left. reflexivity.
    + left. reflexivity.
  - apply (C2_skip_takes_precedence GoPath.Match Testdata.healthSkipConfig _
             "/static/site.css" "/static/*.css").
    + right; right. split; vm_compute; reflexivity.
    + right; right; left. reflexivity.
Defined.

Lemma C5_witness :
  longest_match_or_default GoPath.Match (EndpointPricing Testdata.wildcardConfig)
    (DefaultPricing Testdata.wildcardConfig) "/v1/premium/content"
    (MatchEndpoint GoPath.Match Testdata.wildcardConfig
       (map_to_list (EndpointPricing Testdata.wildcardConfig)) "/v1/premium/content").
Proof.
  apply (C5_longest_pattern_or_default GoPath.Match Testdata.wildcardConfig
           (map_to_list (EndpointPricing Testdata.wildcardConfig))
           "/v1/premium/content" GoPath_Match_empty).
  - unfold range_order. reflexivity.
  - intros p [<- | []]. vm_compute. reflexivity.
  - vm_compute. reflexivity.
Defined.

(** * The HTTP middleware of [v2] *)

Section HTTPFacts.
Import V2 Protocol.
Variable lib : Lib.

Lemma StatusCode_WriteHeader (code : Z) (w : ResponseWriter) :
  Sent w = None -> StatusCode (WriteHeader code w) = Some code.
Proof. intros H. unfold StatusCode, WriteHeader. now rewrite H. Qed.

Lemma StatusCode_Write (bytes : string) (w : ResponseWriter) (code : Z) :
  StatusCode w = Some code -> StatusCode (Write bytes w) = Some code.
Proof.
  intros H. unfold StatusCode in *.
  destruct (Sent w) as [[c h]|] eqn:E; [|discriminate].
  unfold Write, WriteHeader. rewrite E. cbn [Sent]. now rewrite E.
Qed.

Lemma StatusCode_Encode (v : Marshalable) (w : ResponseWriter) (code : Z) :
  StatusCode w = Some code -> StatusCode (Encode lib v w) = Some code.
Proof.
  intros H. unfold Encode. destruct (json_Marshal lib v); auto.
  now apply StatusCode_Write.
Qed.

Lemma sendError_spec (w : World) (code : Z) (message : string) :
  served (sendError lib w code message) = served w
  /\ (Sent (writer w) = None ->
      StatusCode (writer (sendError lib w code message)) = Some code).
Proof.
  split; [reflexivity|]. intros Hfresh. unfold sendError, on_writer.
  cbn [writer]. apply StatusCode_Encode, StatusCode_WriteHeader.
  exact Hfresh.
Qed.

Lemma sendPaymentRequired_spec (w : World) (r : Request)
  (rule : PricingRule.t) (cfg : Config) :
  exists w',
    sendPaymentRequired lib w r (Some rule) cfg = Done w'
    /\ served w' = served w
    /\ (Sent (writer w) = None ->
        StatusCode (writer w') = Some StatusPaymentRequired).
Proof.
  unfold sendPaymentRequired.
  destruct (negb (String.eqb (CustomPaywallHTML cfg) "")
            && isBrowserRequest r).
  - eexists. split; [reflexivity|]. split; [reflexivity|].
    intros Hfresh. unfold on_writer. cbn [writer].
    apply StatusCode_Write, StatusCode_WriteHeader. exact Hfresh.
  - cbn [deref bind]. eexists. split; [reflexivity|].
    split; [reflexivity|]. intros Hfresh. unfold on_writer. cbn [writer].
    apply StatusCode_Encode, StatusCode_WriteHeader.
    destruct (json_Marshal lib _); exact Hfresh.
Qed.

Ltac enter Hmatch hdr isV2 Hd :=
  unfold ServePayment; rewrite Hmatch; cbn [negb];
  destruct (detectPaymentHeader _) as [hdr isV2] eqn:Hd.

(** A failure at any stage before settlement has succeeded: the wrapped
    handler is not called, and the response has the status of that
    stage. *)
Lemma http_failure (cfg : Config) order (next : Handler) (w : World)
  (r : Request) (rule : option PricingRule.t) (s : Stage) :
  MatchEndpoint (path_Match lib) cfg order (URL_Path r) = (rule, true) ->
  Sent (writer w) = None ->
  HTTPFails lib cfg rule r s ->
  exists w',
    ServePayment lib cfg order next w r = Done w'
    /\ served w' = served w
    /\ StatusCode (writer w') = Some (http_status s).
Proof.
  intros Hmatch Hfresh Hfail.
  destruct (MatchEndpoint_rule _ _ _ _ _ Hmatch) as [rl ->].
  enter Hmatch hdr isV2 Hd.
  destruct Hfail as
    [ Hnone
    | requirements err Hsome Hbuild Hparse
    | requirements payload verifier verifyResult Hsome Hbuild Hparse Hver
        Hverify Hvalid
    | requirements payload verifier err Hsome Hbuild Hparse Hver Hverify
    | requirements payload verifier verifyResult err Hsome Hbuild Hparse
        Hver Hverify Hvalid Hsettle ];
    try unfold parseHeader in Hparse;
    repeat match goal with
           | H : context [detectPaymentHeader r] |- _ =>
               lazymatch H with Hd => fail | _ => rewrite Hd in H end
           end;
    cbn [fst] in *.
  - subst hdr. rewrite String.eqb_refl.
    destruct (sendPaymentRequired_spec w r rl cfg) as (w' & -> & Hs & Hc).
    exists w'. auto.
  - apply String.eqb_neq in Hsome. rewrite Hsome, Hbuild. cbn [bind].
    rewrite Hparse. eexists. split; [reflexivity|].
    split; [reflexivity|]. now apply sendError_spec.
  - apply String.eqb_neq in Hsome. rewrite Hsome, Hbuild. cbn [bind].
    rewrite Hparse, Hver. cbn [deref bind]. rewrite Hverify, Hvalid.
    cbn [negb].
    destruct (sendPaymentRequired_spec w r rl cfg) as (w' & -> & Hs & Hc).
    exists w'. auto.
  - apply String.eqb_neq in Hsome. rewrite Hsome, Hbuild. cbn [bind].
    rewrite Hparse, Hver. cbn [deref bind]. rewrite Hverify.
    eexists. split; [reflexivity|]. split; [reflexivity|]. now apply sendError_spec.
  - apply String.eqb_neq in Hsome. rewrite Hsome, Hbuild. cbn [bind].
    rewrite Hparse, Hver. cbn [deref bind]. rewrite Hverify, Hvalid.
    cbn [negb]. rewrite Hsettle.
    eexists. split; [reflexivity|]. split; [reflexivity|]. now apply sendError_spec.
Qed.

(** A settled request: the wrapped handler is called once, on the writer
    with the receipt and on the request with the payment context. *)
Lemma http_settled (cfg : Config) order (next : Handler) (w : World)
  (r : Request) (rule : option PricingRule.t) requirements verifyResult
  settlementResult :
  MatchEndpoint (path_Match lib) cfg order (URL_Path r) = (rule, true) ->
  HTTPSettles lib cfg rule r requirements verifyResult settlementResult ->
  ServePayment lib cfg order next w r
  = Done (ServeHTTP next
            (withReceipt lib (snd (detectPaymentHeader r)) settlementResult w)
            (WithContext r
               (WithValue (ReqContext r) PaymentContextKey
                  (PaymentContextPtr
                     (Some (httpPaymentContext requirements verifyResult
                              settlementResult)))))).
Proof.
  intros Hmatch (Hsome & Hbuild & payload & verifier & Hparse & Hver
                 & Hverify & Hvalid & Hsettle).
  enter Hmatch hdr isV2 Hd.
  unfold parseHeader in Hparse. rewrite ?Hd in Hparse.
  cbn [fst snd] in *.
  apply String.eqb_neq in Hsome. rewrite Hsome, Hbuild. cbn [bind].
  rewrite Hparse, Hver. cbn [deref bind]. rewrite Hverify, Hvalid.
  cbn [negb]. rewrite Hsettle. cbn [deref bind].
  unfold withReceipt, httpReceipt, httpPaymentContext, http_response_key.
  destruct (json_Marshal lib _); destruct isV2; reflexivity.
Qed.

End HTTPFacts.

(** * The gRPC interceptors of [v2/grpc] *)

Section GRPCFacts.
Import V2 GrpcV2 Protocol.
Variable lib : Lib.

(** The payment-required status: [RESOURCE_EXHAUSTED] carrying the
    encoded requirements, and [INTERNAL] only when the requirements
    cannot be encoded. *)
Lemma sendPaymentRequired_status (rule : PricingRule.t)
  (fullMethod : string) (cfg : Config) :
  exists accepts,
    BuildPaymentRequirements (Some rule) fullMethod (ValidityDuration cfg)
    = Done accepts
    /\ match EncodePaymentRequirements lib accepts with
       | Ok encoded =>
           sendPaymentRequired lib (Some rule) fullMethod cfg
           = Done (statusError ResourceExhausted encoded)
       | Err _ =>
           exists msg,
             sendPaymentRequired lib (Some rule) fullMethod cfg
             = Done (statusError Internal msg)
       end.
Proof.
  unfold sendPaymentRequired, BuildPaymentRequirements. cbn [deref bind].
  eexists. split; [reflexivity|].
  destruct (EncodePaymentRequirements lib _); eauto.
Qed.

Lemma sendPaymentRequired_done (rule : PricingRule.t)
  (fullMethod : string) (cfg : Config) :
  exists code msg,
    sendPaymentRequired lib (Some rule) fullMethod cfg
    = Done (statusError code msg)
    /\ (code = ResourceExhausted \/ code = Internal).
Proof.
  destruct (sendPaymentRequired_status rule fullMethod cfg)
    as (accepts & _ & H).
  destruct (EncodePaymentRequirements lib accepts).
  - eauto.
  - destruct H as [msg H]. eauto.
Qed.

Lemma Extract_no_credential (md : MD) :
  credential_keys md = [] ->
  exists err, ExtractPaymentFromMetadata lib md = (Err err, false).
Proof.
  unfold credential_keys. intros H. apply app_eq_nil in H as [H2 H1].
  unfold ExtractPaymentFromMetadata. rewrite H2, H1. eauto.
Qed.

Ltac extract md decoded isV2 He :=
  destruct (ExtractPaymentFromMetadata lib md) as [decoded isV2] eqn:He;
  cbn [fst snd] in *; subst.

Ltac payment_required rl fullMethod cfg :=
  let code := fresh "code" in
  let msg := fresh "msg" in
  let H := fresh "H" in
  destruct (sendPaymentRequired_done rl fullMethod cfg)
    as (code & msg & H & _);
  unfold grpc_response; cbn [grpc_code]; rewrite H; cbn [bind]; eauto.

(** A failure of a unary call at any stage before settlement has
    succeeded: the handler is not called, no trailer is set, and the
    status of that stage is returned. *)
Lemma unary_failure (cfg : Config) order (ctx : Context) (req : Any)
  (fullMethod : string) (handler : UnaryHandler) (t : Trace)
  (rule : option PricingRule.t) (s : Stage) :
  MatchMethod (path_Match lib) cfg order fullMethod = (rule, true) ->
  GRPCFails lib cfg rule ctx fullMethod s ->
  exists e,
    UnaryIntercept lib cfg order ctx req fullMethod handler t
    = Done (Err e, t)
    /\ grpc_response lib cfg rule fullMethod s e.
Proof.
  intros Hmatch Hfail.
  destruct (MatchMethod_rule _ _ _ _ _ Hmatch) as [rl ->].
  unfold UnaryIntercept. rewrite Hmatch. cbn [negb].
  destruct Hfail as
    [ Hmd
    | md Hmd Hkeys
    | md err Hmd Hkeys Hdec
    | md payload requirements others verifier verifyResult Hmd Hdec Hbuild
        Hver Hverify Hvalid
    | md payload requirements others verifier err Hmd Hdec Hbuild Hver
        Hverify
    | md payload requirements others verifier verifyResult err Hmd Hdec
        Hbuild Hver Hverify Hvalid Hsettle ];
    rewrite Hmd.
  - payment_required rl fullMethod cfg.
  - destruct (Extract_no_credential md Hkeys) as [err ->].
    payment_required rl fullMethod cfg.
  - extract md decoded isV2 He. payment_required rl fullMethod cfg.
  - extract md decoded isV2 He. rewrite Hbuild. cbn [bind].
    rewrite Hver. cbn [deref bind]. rewrite Hverify, Hvalid. cbn [negb].
    payment_required rl fullMethod cfg.
  - extract md decoded isV2 He. rewrite Hbuild. cbn [bind].
    rewrite Hver. cbn [deref bind]. rewrite Hverify.
    eexists. split; [reflexivity|]. cbn. eauto.
  - extract md decoded isV2 He. rewrite Hbuild. cbn [bind].
    rewrite Hver. cbn [deref bind]. rewrite Hverify, Hvalid. cbn [negb].
    rewrite Hsettle. eexists. split; [reflexivity|]. cbn. eauto.
Qed.

Lemma stream_failure (cfg : Config) order (srv : Any) (ctx : Context)
  (fullMethod : string) (handler : StreamHandler) (t : Trace)
  (rule : option PricingRule.t) (s : Stage) :
  MatchMethod (path_Match lib) cfg order fullMethod = (rule, true) ->
  GRPCFails lib cfg rule ctx fullMethod s ->
  exists e,
    StreamIntercept lib cfg order srv ctx fullMethod handler t
    = Done (Some e, t)
    /\ grpc_response lib cfg rule fullMethod s e.
Proof.
  intros Hmatch Hfail.
  destruct (MatchMethod_rule _ _ _ _ _ Hmatch) as [rl ->].
  unfold StreamIntercept. rewrite Hmatch. cbn [negb].
  destruct Hfail as
    [ Hmd
    | md Hmd Hkeys
    | md err Hmd Hkeys Hdec
    | md payload requirements others verifier verifyResult Hmd Hdec Hbuild
        Hver Hverify Hvalid
    | md payload requirements others verifier err Hmd Hdec Hbuild Hver
        Hverify
    | md payload requirements others verifier verifyResult err Hmd Hdec
        Hbuild Hver Hverify Hvalid Hsettle ];
    rewrite Hmd.
  - payment_required rl fullMethod cfg.
  - destruct (Extract_no_credential md Hkeys) as [err ->].
    payment_required rl fullMethod cfg.
  - extract md decoded isV2 He. payment_required rl fullMethod cfg.
  - extract md decoded isV2 He. rewrite Hbuild. cbn [bind].
    rewrite Hver. cbn [deref bind]. rewrite Hverify, Hvalid. cbn [negb].
    payment_required rl fullMethod cfg.
  - extract md decoded isV2 He. rewrite Hbuild. cbn [bind].
    rewrite Hver. cbn [deref bind]. rewrite Hverify.
    eexists. split; [reflexivity|]. cbn. eauto.
  - extract md decoded isV2 He. rewrite Hbuild. cbn [bind].
    rewrite Hver. cbn [deref bind]. rewrite Hverify, Hvalid. cbn [negb].
    rewrite Hsettle. eexists. split; [reflexivity|]. cbn. eauto.
Qed.

(** A settled unary call: the handler is called once, on the context
    with the payment; the trailer is set after the handler has returned
    without error. *)
Lemma unary_settled (cfg : Config) order (ctx : Context) (req : Any)
  (fullMethod : string) (handler : UnaryHandler) (t : Trace)
  (rule : option PricingRule.t) isV2 requirements verifyResult
  settlementResult :
  MatchMethod (path_Match lib) cfg order fullMethod = (rule, true) ->
  GRPCSettles lib cfg rule ctx fullMethod isV2 requirements verifyResult
    settlementResult ->
  let ctx' := withPayment ctx requirements verifyResult settlementResult in
  UnaryIntercept lib cfg order ctx req fullMethod handler t
  = Done match handler ctx' req with
         | Err err => (Err err, log_handled ctx' t)
         | Ok resp =>
             (Ok resp,
              setPaymentTrailer lib isV2 settlementResult
                (log_handled ctx' t))
         end.
Proof.
  intros Hmatch (md & payload & others & verifier & Hmd & Hdec & Hbuild
                 & Hver & Hverify & Hvalid & Hsettle) ctx'.
  unfold UnaryIntercept. rewrite Hmatch. cbn [negb].
  rewrite Hmd, Hdec, Hbuild. cbn [bind]. rewrite Hver. cbn [deref bind].
  rewrite Hverify, Hvalid. cbn [negb]. rewrite Hsettle.
  subst ctx'. unfold withPayment.
  destruct (handler _ req); reflexivity.
Qed.


End GRPCFacts.

(** * Validated configurations *)

Section ValidatedConfig.
Import V2 Protocol.
Variable lib : Lib.

Lemma validate_tokens_nonempty (p : PricingRule.t) :
  PricingRule_Validate lib p = None -> PricingRule.AcceptedTokens p <> [].
Proof.
  unfold PricingRule_Validate. destruct (PricingRule.AcceptedTokens p).
  - discriminate.
  - discriminate.
Qed.

Lemma validate_rules_all (format : string)
  (order : list (string * PricingRule.t)) :
  validate_rules lib format order = None ->
  forall pattern rule, In (pattern, rule) order ->
    PricingRule_Validate lib rule = None.
Proof.
  induction order as [| [p r] order IH]; simpl; [intros _ ? ? []|].
  destruct (PricingRule_Validate lib r) eqn:Hr; [discriminate|].
  intros Hrest pattern rule [[= <- <-] | Hin]; eauto.
Qed.

Lemma Validate_ready (cfg cfg' : Config) endpointOrder methodOrder :
  range_order (EndpointPricing cfg) endpointOrder ->
  range_order (MethodPricing cfg) methodOrder ->
  Validate lib cfg endpointOrder methodOrder = Ok cfg' ->
  ready cfg'.
Proof.
  unfold Validate, ready, range_order. intros He Hm Hv.
  destruct (Verifier cfg) as [verifier|] eqn:Hver; [|discriminate].
  destruct (validate_rules lib _ endpointOrder) eqn:Hre; [discriminate|].
  destruct (validate_rules lib _ methodOrder) eqn:Hrm; [discriminate|].
  assert (Hfields :
            Verifier cfg' = Verifier cfg
            /\ EndpointPricing cfg' = EndpointPricing cfg
            /\ MethodPricing cfg' = MethodPricing cfg
            /\ DefaultPricing cfg' = DefaultPricing cfg
            /\ forall rule, DefaultPricing cfg = Some rule ->
                 PricingRule_Validate lib rule = None).
  { destruct (ValidityDuration cfg =? 0);
      cbn [DefaultPricing] in Hv;
      destruct (DefaultPricing cfg) as [rule|] eqn:Hd;
      try destruct (PricingRule_Validate lib rule) eqn:Hr;
      try discriminate; injection Hv as <-; cbn;
      repeat split; auto; intros ? [= <-]; auto. }
  destruct Hfields as (-> & -> & -> & -> & Hdef).
  split; [congruence|]. split; [|split].
  - intros pattern rule Hl. apply validate_tokens_nonempty.
    apply (validate_rules_all _ _ Hre pattern).
    rewrite <- list_elem_of_In, He. now apply elem_of_map_to_list.
  - intros pattern rule Hl. apply validate_tokens_nonempty.
    apply (validate_rules_all _ _ Hrm pattern).
    rewrite <- list_elem_of_In, Hm. now apply elem_of_map_to_list.
  - intros rule Hd. apply validate_tokens_nonempty. auto.
Qed.

(** The rule that the resolver returns is one of the table or the
    default. *)
Lemma resolved_rule (table : gmap string PricingRule.t)
  (default : option PricingRule.t) order identifier rule :
  range_order table order ->
  match table !! identifier with
  | Some r => (Some r, true)
  | None =>
      match snd (bestMatch (path_Match lib) identifier order) with
      | Some r => (Some r, true)
      | None =>
          match default with
          | Some r => (Some r, true)
          | None => (None, false)
          end
      end
  end = (Some rule, true) ->
  (exists pattern, table !! pattern = Some rule) \/ default = Some rule.
Proof.
  intros Hord H. destruct (table !! identifier) as [r|] eqn:Hexact.
  - injection H as <-. eauto.
  - pose proof (bestMatch_fold (path_Match lib) identifier order
                  (EmptyString, None)) as Hf.
    cbn zeta in Hf. destruct Hf as (_ & _ & Hfin). unfold bestMatch in H.
    destruct (snd (fold_left _ order (EmptyString, None))) as [r|] eqn:Hb.
    + injection H as <-.
      destruct Hfin as [Hfin | (r' & Hr' & Hin & _)].
      * rewrite Hfin in Hb. discriminate.
      * injection Hr' as <-. left.
        eexists. apply elem_of_map_to_list. unfold range_order in Hord.
        rewrite <- Hord, list_elem_of_In. exact Hin.
    + destruct default; [injection H as <-; auto | discriminate].
Qed.

Lemma ready_endpoint_rule (cfg : Config) order identifier rule :
  ready cfg -> range_order (EndpointPricing cfg) order ->
  MatchEndpoint (path_Match lib) cfg order identifier = (rule, true) ->
  exists r, rule = Some r /\ PricingRule.AcceptedTokens r <> [].
Proof.
  intros (_ & He & _ & Hd) Hord Hmatch.
  destruct (MatchEndpoint_rule _ _ _ _ _ Hmatch) as [r ->].
  exists r. split; [reflexivity|]. unfold MatchEndpoint in Hmatch.
  destruct (existsb _ (SkipPaths cfg)); [discriminate|].
  destruct (resolved_rule _ _ _ _ _ Hord Hmatch) as [[p Hp] | Hdef]; eauto.
Qed.


Ltac decide_all :=
  repeat match goal with
         | |- context [match ?x with _ => _ end] =>
             lazymatch x with
             | context [match _ with _ => _ end] => fail
             | _ => destruct x eqn:?
             end
         end.

(** No request makes the handler of a validated configuration panic. *)
Theorem ServePayment_returns (cfg : Config) order (next : Handler)
  (w : World) (r : Request) :
  ready cfg -> range_order (EndpointPricing cfg) order ->
  exists w', ServePayment lib cfg order next w r = Done w'.
Proof.
  intros Hready Hord. unfold ServePayment.
  destruct (MatchEndpoint (path_Match lib) cfg order (URL_Path r))
    as [rule [|]] eqn:Hmatch; cbn [negb]; [|eauto].
  destruct (ready_endpoint_rule cfg order _ rule Hready Hord Hmatch)
    as (rl & -> & Htokens).
  destruct Hready as (Hver & _).
  destruct (Verifier cfg) as [verifier|]; [|contradiction].
  destruct (detectPaymentHeader r) as [hdr isV2].
  pose proof (sendPaymentRequired_spec lib w r rl cfg) as (w0 & Hs & _).
  unfold buildRequirementsFromRule. cbn [deref bind].
  destruct (PricingRule.AcceptedTokens rl) as [|token tokens];
    [contradiction|].
  cbn [deref bind]. rewrite Hs.
  decide_all; cbn [deref bind]; eauto.
Qed.



(** [PaymentMiddleware] panics on an invalid configuration, and
    otherwise returns the handler of the validated configuration, which
    does not panic. *)
Theorem PaymentMiddleware_returns (cfg : Config) endpointOrder methodOrder
  serve :
  range_order (EndpointPricing cfg) endpointOrder ->
  range_order (MethodPricing cfg) methodOrder ->
  PaymentMiddleware lib cfg endpointOrder methodOrder = Done serve ->
  exists cfg',
    Validate lib cfg endpointOrder methodOrder = Ok cfg'
    /\ serve = ServePayment lib cfg'
    /\ forall order next w r,
         range_order (EndpointPricing cfg') order ->
         exists w', serve order next w r = Done w'.
Proof.
  intros He Hm. unfold PaymentMiddleware.
  destruct (Validate lib cfg endpointOrder methodOrder) as [cfg'|] eqn:Hv;
    [|discriminate].
  intros [= <-]. exists cfg'. split; [reflexivity|]. split; [reflexivity|].
  intros order next w r Hord. apply ServePayment_returns; auto.
  exact (Validate_ready cfg cfg' endpointOrder methodOrder He Hm Hv).
Qed.

End ValidatedConfig.

(** * The claims about the protocol state machine *)

Section StateMachineClaims.
Import V2 GrpcV2 Protocol.
Variable lib : Lib.

(** C1.  In the HTTP middleware, in the unary interceptor and in the
    stream interceptor, a priced request whose processing fails at a
    stage before settlement has succeeded - no credential, a credential
    that does not decode, a verifier that reports valid=false, a
    verifier error, a settlement error - never reaches the wrapped
    handler: the log of handler calls (and, on gRPC, of trailers) is
    unchanged, and the response is the error of the stage: HTTP 402, 400,
    402, 500, 500; a gRPC status with the code of the stage
    (RESOURCE_EXHAUSTED, INTERNAL, UNAVAILABLE), or INTERNAL. *)
Theorem C1_handler_not_invoked_before_settlement (cfg : Config)
  (order : list (string * PricingRule.t)) (s : Stage) :
  (forall (next : Handler) (w : World) (r : Request) rule,
     MatchEndpoint (path_Match lib) cfg order (URL_Path r) = (rule, true) ->
     Sent (writer w) = None ->
     HTTPFails lib cfg rule r s ->
     exists w',
       ServePayment lib cfg order next w r = Done w'
       /\ served w' = served w
       /\ StatusCode (writer w') = Some (http_status s))
  /\ (forall (ctx : Context) (req : Any) fullMethod (handler : UnaryHandler)
        (t : Trace) rule,
        MatchMethod (path_Match lib) cfg order fullMethod = (rule, true) ->
        GRPCFails lib cfg rule ctx fullMethod s ->
        exists code msg,
          UnaryIntercept lib cfg order ctx req fullMethod handler t
          = Done (Err (statusError code msg), t)
          /\ (code = grpc_code s \/ code = Internal))
  /\ (forall (srv : Any) (ctx : Context) fullMethod
        (handler : StreamHandler) (t : Trace) rule,
        MatchMethod (path_Match lib) cfg order fullMethod = (rule, true) ->
        GRPCFails lib cfg rule ctx fullMethod s ->
        exists code msg,
          StreamIntercept lib cfg order srv ctx fullMethod handler t
          = Done (Some (statusError code msg), t)
          /\ (code = grpc_code s \/ code = Internal)).
Proof.
  assert (Hcode : forall rule fullMethod e,
            (exists r : PricingRule.t, rule = Some r) ->
            grpc_response lib cfg rule fullMethod s e ->
            exists code msg,
              e = statusError code msg
              /\ (code = grpc_code s \/ code = Internal)).
  { intros rule fullMethod e [rl ->] He.
    destruct (sendPaymentRequired_done lib rl fullMethod cfg)
      as (code & msg & Hs & Hc).
    destruct s; unfold grpc_response in He; cbn [grpc_code] in *.
    1-3: rewrite Hs in He; inversion He; subst;
      exists code, msg; split; [reflexivity | exact Hc].
    all: destruct He as [m ->]; eexists _, m; split; [reflexivity | auto]. }
  split; [|split].
  - intros. now apply http_failure with (rule := rule).
  - intros ctx req fullMethod handler t rule Hmatch Hfail.
    destruct (unary_failure lib cfg order ctx req fullMethod handler t
                rule s Hmatch Hfail) as (e & Hrun & He).
    destruct (Hcode rule fullMethod e) as (code & msg & -> & Hc); eauto.
    eapply MatchMethod_rule; eauto.
  - intros srv ctx fullMethod handler t rule Hmatch Hfail.
    destruct (stream_failure lib cfg order srv ctx fullMethod handler t
                rule s Hmatch Hfail) as (e & Hrun & He).
    destruct (Hcode rule fullMethod e) as (code & msg & -> & Hc); eauto.
    eapply MatchMethod_rule; eauto.
Qed.

(** C7.  A priced request whose credential is present and does not
    decode: the HTTP middleware answers 400 and does not call the
    handler; the unary and the stream interceptor answer exactly as they
    do when no credential is present, with the payment-required status
    of [sendPaymentRequired] - RESOURCE_EXHAUSTED carrying the encoded
    requirements, never INVALID_ARGUMENT. *)
Theorem C7_malformed_credential (cfg : Config)
  (order : list (string * PricingRule.t)) :
  (forall (next : Handler) (w : World) (r : Request) rule,
     MatchEndpoint (path_Match lib) cfg order (URL_Path r) = (rule, true) ->
     Sent (writer w) = None ->
     HTTPFails lib cfg rule r DecodeFailed ->
     exists w',
       ServePayment lib cfg order next w r = Done w'
       /\ served w' = served w
       /\ StatusCode (writer w') = Some StatusBadRequest)
  /\ (forall (ctx : Context) fullMethod rule,
        MatchMethod (path_Match lib) cfg order fullMethod = (rule, true) ->
        GRPCFails lib cfg rule ctx fullMethod DecodeFailed ->
        exists e,
          (forall req handler t,
             UnaryIntercept lib cfg order ctx req fullMethod handler t
             = Done (Err e, t))
          /\ (forall srv handler t,
                StreamIntercept lib cfg order srv ctx fullMethod handler t
                = Done (Some e, t))
          /\ (forall ctx0 req handler t,
                GRPCFails lib cfg rule ctx0 fullMethod NoCredential ->
                UnaryIntercept lib cfg order ctx0 req fullMethod handler t
                = Done (Err e, t))
          /\ (forall ctx0 srv handler t,
                GRPCFails lib cfg rule ctx0 fullMethod NoCredential ->
                StreamIntercept lib cfg order srv ctx0 fullMethod handler t
                = Done (Some e, t))
          /\ (forall msg, e <> statusError InvalidArgument msg)
          /\ exists r accepts,
               rule = Some r
               /\ BuildPaymentRequirements (Some r) fullMethod
                    (ValidityDuration cfg) = Done accepts
               /\ forall encoded,
                    EncodePaymentRequirements lib accepts = Ok encoded ->
                    e = statusError ResourceExhausted encoded).
Proof.
  split.
  - intros. now apply (http_failure lib cfg order next w r rule DecodeFailed).
  - intros ctx fullMethod rule Hmatch Hfail.
    destruct (MatchMethod_rule _ _ _ _ _ Hmatch) as [rl Hrl].
    destruct (sendPaymentRequired_done lib rl fullMethod cfg)
      as (code & msg & Hs & Hc).
    exists (statusError code msg).
    assert (Hsame : forall c st e',
              GRPCFails lib cfg rule c fullMethod st ->
              grpc_response lib cfg rule fullMethod st e' ->
              st = NoCredential \/ st = DecodeFailed ->
              e' = statusError code msg).
    { intros c st e' _ He' [-> | ->]; unfold grpc_response in He';
        subst rule;
        rewrite Hs in He'; now inversion He'. }
    repeat split.
    + intros req handler t.
      destruct (unary_failure lib cfg order ctx req fullMethod handler t
                  rule _ Hmatch Hfail) as (e' & -> & He').
      rewrite (Hsame _ _ _ Hfail He'); auto.
    + intros srv handler t.
      destruct (stream_failure lib cfg order srv ctx fullMethod handler t
                  rule _ Hmatch Hfail) as (e' & -> & He').
      rewrite (Hsame _ _ _ Hfail He'); auto.
    + intros ctx0 req handler t Hnone.
      destruct (unary_failure lib cfg order ctx0 req fullMethod handler t
                  rule _ Hmatch Hnone) as (e' & -> & He').
      rewrite (Hsame _ _ _ Hnone He'); auto.
    + intros ctx0 srv handler t Hnone.
      destruct (stream_failure lib cfg order srv ctx0 fullMethod handler t
                  rule _ Hmatch Hnone) as (e' & -> & He').
      rewrite (Hsame _ _ _ Hnone He'); auto.
    + intros m Hm. inversion Hm; subst. destruct Hc; discriminate.
    + destruct (sendPaymentRequired_status lib rl fullMethod cfg)
        as (accepts & Hb & Henc).
      exists rl, accepts. repeat split; auto.
      intros encoded Hok. rewrite Hok in Henc. rewrite Hs in Henc.
      now inversion Henc.
Qed.

End StateMachineClaims.

(** * Version detection and the settlement receipt *)

Section ReceiptClaims.
Import V2 GrpcV2 Protocol.
Variable lib : Lib.

Lemma response_keys_differ (isV2 : bool) :
  CanonicalMIMEHeaderKey (http_response_key isV2)
  <> CanonicalMIMEHeaderKey (http_response_key (negb isV2)).
Proof. destruct isV2; vm_compute; discriminate. Qed.

Lemma withReceipt_headers (isV2 : bool)
  (settlementResult : SettlementResult.t) (w : World) :
  (forall encoded,
     httpReceipt lib settlementResult = Ok encoded ->
     Header_Get (RespHeader (writer (withReceipt lib isV2 settlementResult w)))
       (http_response_key isV2) = encoded)
  /\ RespHeader (writer (withReceipt lib isV2 settlementResult w))
       !! CanonicalMIMEHeaderKey (http_response_key (negb isV2))
     = RespHeader (writer w)
         !! CanonicalMIMEHeaderKey (http_response_key (negb isV2)).
Proof.
  unfold withReceipt.
  destruct (httpReceipt lib settlementResult) as [encoded | err]; split.
  - intros e [= <-]. unfold on_writer, SetHeader, Header_Get, Header_Set.
    cbn [writer RespHeader]. now rewrite lookup_insert_eq.
  - unfold on_writer, SetHeader, Header_Set. cbn [writer RespHeader].
    apply lookup_insert_ne, response_keys_differ.
  - discriminate.
  - reflexivity.
Qed.


Lemma setPaymentTrailer_trailers (isV2 : bool)
  (settlementResult : SettlementResult.t) (t : Trace) :
  trailers (setPaymentTrailer lib isV2 settlementResult t)
  = (trailers t ++ receiptTrailers lib isV2 settlementResult)%list.
Proof.
  unfold setPaymentTrailer, receiptTrailers, grpc_response_key.
  destruct (EncodePaymentResponse lib _); destruct isV2; cbn;
    now rewrite ?app_nil_r.
Qed.

Lemma setPaymentTrailer_handled (isV2 : bool)
  (settlementResult : SettlementResult.t) (t : Trace) :
  handled (setPaymentTrailer lib isV2 settlementResult t) = handled t.
Proof.
  unfold setPaymentTrailer.
  destruct (EncodePaymentResponse lib _); destruct isV2; reflexivity.
Qed.





(** The V2 decoder of the HTTP middleware accepts only a version of at
    least 2 and a payload that is present. *)
Lemma parsePaymentPayload_accepts (header : string)
  (payload : PaymentPayload.t) :
  parsePaymentPayload lib header = Ok payload ->
  2 <= PaymentPayload.X402Version payload
  /\ PaymentPayload.Payload payload <> AnyNil.
Proof.
  unfold parsePaymentPayload.
  destruct (base64_DecodeString lib header) as [bytes |]; [|discriminate].
  destruct (json_Unmarshal_PaymentPayload lib bytes) as [p |];
    [|discriminate].
  destruct (Z.ltb_spec (PaymentPayload.X402Version p) 2); [discriminate|].
  destruct (PaymentPayload.Payload p) eqn:Hp; cbn [isNil];
    try discriminate; intros [= <-]; (split; [lia | congruence]).
Qed.

(** The V2 decoder of the interceptors requires the payload, and looks
    at nothing else: a payload of any version is accepted. *)
Lemma DecodePaymentPayload_accepts (encoded jsonBytes : string)
  (payload : PaymentPayload.t) :
  base64_DecodeString lib encoded = Ok jsonBytes ->
  json_Unmarshal_PaymentPayload lib jsonBytes = Ok payload ->
  DecodePaymentPayload lib encoded
  = if isNil (PaymentPayload.Payload payload)
    then Err (Errorf lib "payload is required" [])
    else Ok payload.
Proof.
  intros Hb Hj. unfold DecodePaymentPayload. now rewrite Hb, Hj.
Qed.

End ReceiptClaims.

(** * The claims on the requests of the packages' tests *)

Section Runs.
Import V2 GrpcV2 Protocol Testdata.

Lemma paid_endpoint (r : Request) :
  URL_Path r = "/v1/paid" ->
  MatchEndpoint (path_Match lib) testConfig endpointOrder (URL_Path r)
  = (Some paidRule, true).
Proof. intros ->. vm_compute. reflexivity. Qed.

Lemma paid_method :
  MatchMethod (path_Match lib) testConfig methodOrder paidMethod
  = (Some paidRule, true).
Proof. vm_compute. reflexivity. Qed.

Lemma malformed_fails :
  HTTPFails lib testConfig (Some paidRule) malformedRequest DecodeFailed.
Proof.
  eapply http_decode_failed.
  - vm_compute. discriminate.
  - vm_compute. reflexivity.
  - vm_compute. reflexivity.
Qed.


Lemma v2_settles :
  HTTPSettles lib testConfig (Some paidRule) v2Request paidRequirements
    mockVerification mockSettlement.
Proof.
  split; [vm_compute; discriminate|]. split; [vm_compute; reflexivity|].
  eexists _, MockVerifier. repeat split; vm_compute; reflexivity.
Qed.

Lemma grpc_malformed_fails :
  GRPCFails lib testConfig (Some paidRule)
    (incoming [("payment-signature", "not-valid-base64!!!")]) paidMethod
    DecodeFailed.
Proof.
  eapply grpc_decode_failed.
  - reflexivity.
  - vm_compute. discriminate.
  - vm_compute. reflexivity.
Qed.


Lemma C1_witness :
  exists w',
    ServePayment lib testConfig endpointOrder okHandler recorder
      malformedRequest = Done w'
    /\ served w' = []
    /\ StatusCode (writer w') = Some StatusBadRequest.
Proof.
  destruct (C1_handler_not_invoked_before_settlement lib testConfig
              endpointOrder DecodeFailed) as [Hhttp _].
  apply (Hhttp okHandler recorder malformedRequest (Some paidRule)).
  - now apply paid_endpoint.
  - reflexivity.
  - exact malformed_fails.
Defined.




(** A credential that does not decode is answered on gRPC as a missing
    one is: with the payment-required status. *)
Lemma C7_witness :
  exists encoded,
    UnaryIntercept lib testConfig methodOrder
      (incoming [("payment-signature", "not-valid-base64!!!")])
      (AnyString "request") paidMethod okUnary no_trace
    = Done (Err (statusError ResourceExhausted encoded), no_trace)
    /\ UnaryIntercept lib testConfig methodOrder
         (incoming []) (AnyString "request") paidMethod okUnary no_trace
       = Done (Err (statusError ResourceExhausted encoded), no_trace).
Proof.
  destruct (C7_malformed_credential lib testConfig methodOrder)
    as [_ Hgrpc].
  destruct (Hgrpc (incoming [("payment-signature", "not-valid-base64!!!")])
              paidMethod (Some paidRule) paid_method grpc_malformed_fails)
    as (e & Hunary & _ & Hnone & _ & _ & r & accepts & Hr & Hb & Henc).
  injection Hr as <-.
  assert (Ha : accepts
               = map (fun token => {|
                   PaymentRequirements.Scheme := "exact";
                   PaymentRequirements.Network :=
                     TokenRequirement.Network token;
                   PaymentRequirements.Amount := PricingRule.Amount paidRule;
                   PaymentRequirements.Asset :=
                     TokenRequirement.AssetContract token;
                   PaymentRequirements.PayTo :=
                     TokenRequirement.Recipient token;
                   PaymentRequirements.MaxTimeoutSeconds := 0;
                   PaymentRequirements.Extra := None |})
                   (PricingRule.AcceptedTokens paidRule)).
  { unfold BuildPaymentRequirements in Hb. cbn [deref bind] in Hb.
    now injection Hb. }
  eexists. rewrite Hunary, Hnone.
  - rewrite (Henc _ ltac:(rewrite Ha; vm_compute; reflexivity)).
    split; reflexivity.
  - eapply grpc_no_credential; [reflexivity | vm_compute; reflexivity].
Defined.



(** C6: the decoder of the interceptors accepts, under the V2 key, the
    credential of [TestPaymentMiddleware_V2Header_VersionTooLow], whose
    declared version is 1; the decoder of the HTTP middleware rejects
    the same credential.  The interceptor then verifies, settles and
    calls the handler. *)
Theorem C6_grpc_decoder_accepts_version_1 :
  PaymentPayload.X402Version lowVersionPayload = 1
  /\ DecodePaymentPayload lib lowVersionHeader = Ok lowVersionPayload
  /\ (exists err, parsePaymentPayload lib lowVersionHeader = Err err)
  /\ exists t',
       UnaryIntercept lib testConfig methodOrder
         (incoming [("payment-signature", lowVersionHeader)])
         (AnyString "request") paidMethod okUnary no_trace
       = Done (Ok (AnyString "request"), t')
       /\ List.length (handled t') = 1%nat.
Proof.
  split; [reflexivity|]. split.
  - rewrite (DecodePaymentPayload_accepts lib lowVersionHeader
               lowVersionJSON lowVersionPayload);
      vm_compute; reflexivity.
  - split.
    + eexists. vm_compute. reflexivity.
    + eexists. split; vm_compute; reflexivity.
Qed.

End Runs.

(** * The payment context *)

Section ContextClaims.
Import Protocol.

Ltac scrutinee x :=
  lazymatch x with
  | context [match ?y with _ => _ end] => scrutinee y
  | _ => x
  end.

Ltac crunch H :=
  unfold bind, deref in H;
  repeat (cbn [negb] in H;
          match type of H with
          | context [match ?x with _ => _ end] =>
              let y := scrutinee x in
              destruct y eqn:?; try discriminate H
          end);
  cbn [negb] in H.

Lemma v2_sendPaymentRequired_served lib w r rule cfg w' :
  V2.sendPaymentRequired lib w r rule cfg = Done w' ->
  served w' = served w.
Proof.
  unfold V2.sendPaymentRequired. intros H. crunch H;
    injection H as <-; reflexivity.
Qed.

Lemma v1_sendPaymentRequired_served lib now w r rule cfg w' :
  V1.sendPaymentRequired lib now w r rule cfg = Done w' ->
  served w' = served w.
Proof.
  unfold V1.sendPaymentRequired. intros H. crunch H;
    injection H as <-; reflexivity.
Qed.

Ltac no_call :=
  exists []; split; [now rewrite app_nil_r | left; reflexivity].

Ltac passed_through :=
  eexists [_]; split;
  [reflexivity | right; left; split; reflexivity].

Ltac with_payment :=
  eexists [_]; split;
  [ reflexivity
  | right; right; split;
    [ reflexivity
    | eexists; split; [reflexivity | eexists; split; reflexivity] ] ].

Lemma v2_http_calls lib (cfg : V2.Config) order (next : Handler)
  (w : World) (r : Request) w' :
  V2.ServePayment lib cfg order next w r = Done w' ->
  exists calls,
    served w' = (served w ++ calls)%list
    /\ handler_calls_ok
         (snd (MatchEndpoint (V2.path_Match lib) cfg order (URL_Path r)))
         (ReqContext r) (map (fun call => ReqContext (snd call)) calls).
Proof.
  unfold V2.ServePayment. intros H.
  destruct (MatchEndpoint _ cfg order (URL_Path r)) as [rule [|]];
    cbn [negb snd] in *.
  2: { injection H as <-. passed_through. }
  crunch H;
    try (apply v2_sendPaymentRequired_served in H; rewrite H; no_call);
    try (injection H as <-; first [no_call | with_payment]).
Qed.

Lemma v1_http_calls lib (cfg : V1.Config) order now (next : Handler)
  (w : World) (r : Request) w' :
  V1.ServePayment lib cfg order now next w r = Done w' ->
  exists calls,
    served w' = (served w ++ calls)%list
    /\ handler_calls_ok
         (snd (MatchEndpoint (V1.path_Match lib) cfg order (URL_Path r)))
         (ReqContext r) (map (fun call => ReqContext (snd call)) calls).
Proof.
  unfold V1.ServePayment. intros H.
  destruct (MatchEndpoint _ cfg order (URL_Path r)) as [rule [|]];
    cbn [negb snd] in *.
  2: { injection H as <-. passed_through. }
  crunch H;
    try (apply v1_sendPaymentRequired_served in H; rewrite H; no_call);
    try (injection H as <-; first [no_call | with_payment]).
Qed.

Lemma v1_setPaymentTrailer_handled lib settlementResult (t : Trace) :
  handled (GrpcV1.setPaymentTrailer lib settlementResult t) = handled t.
Proof.
  unfold GrpcV1.setPaymentTrailer.
  destruct (GrpcV1.EncodePaymentResponse lib _); reflexivity.
Qed.

Ltac grpc_call H :=
  injection H as <- <-;
  rewrite ?setPaymentTrailer_handled, ?v1_setPaymentTrailer_handled;
  cbn [handled log_handled];
  first [no_call | passed_through | with_payment].

Lemma v2_unary_calls lib (cfg : V2.Config) order (ctx : Context)
  (req : Any) fullMethod (handler : UnaryHandler) (t : Trace) result t' :
  GrpcV2.UnaryIntercept lib cfg order ctx req fullMethod handler t
  = Done (result, t') ->
  exists calls,
    handled t' = (handled t ++ calls)%list
    /\ handler_calls_ok
         (snd (MatchMethod (V2.path_Match lib) cfg order fullMethod))
         ctx calls.
Proof.
  unfold GrpcV2.UnaryIntercept. intros H.
  destruct (MatchMethod _ cfg order fullMethod) as [rule [|]];
    cbn [negb snd] in *.
  2: { grpc_call H. }
  crunch H; grpc_call H.
Qed.

Lemma v2_stream_calls lib (cfg : V2.Config) order (srv : Any)
  (ctx : Context) fullMethod (handler : StreamHandler) (t : Trace)
  result t' :
  GrpcV2.StreamIntercept lib cfg order srv ctx fullMethod handler t
  = Done (result, t') ->
  exists calls,
    handled t' = (handled t ++ calls)%list
    /\ handler_calls_ok
         (snd (MatchMethod (V2.path_Match lib) cfg order fullMethod))
         ctx calls.
Proof.
  unfold GrpcV2.StreamIntercept. intros H.
  destruct (MatchMethod _ cfg order fullMethod) as [rule [|]];
    cbn [negb snd] in *.
  2: { grpc_call H. }
  crunch H; grpc_call H.
Qed.

Lemma v1_unary_calls lib (cfg : V1.Config) order now (ctx : Context)
  (req : Any) fullMethod (handler : UnaryHandler) (t : Trace) result t' :
  GrpcV1.UnaryIntercept lib cfg order now ctx req fullMethod handler t
  = Done (result, t') ->
  exists calls,
    handled t' = (handled t ++ calls)%list
    /\ handler_calls_ok
         (snd (MatchMethod (V1.path_Match lib) cfg order fullMethod))
         ctx calls.
Proof.
  unfold GrpcV1.UnaryIntercept. intros H.
  destruct (MatchMethod _ cfg order fullMethod) as [rule [|]];
    cbn [negb snd] in *.
  2: { grpc_call H. }
  crunch H; grpc_call H.
Qed.

Lemma v1_stream_calls lib (cfg : V1.Config) order now (srv : Any)
  (ctx : Context) fullMethod (handler : StreamHandler) (t : Trace)
  result t' :
  GrpcV1.StreamIntercept lib cfg order now srv ctx fullMethod handler t
  = Done (result, t') ->
  exists calls,
    handled t' = (handled t ++ calls)%list
    /\ handler_calls_ok
         (snd (MatchMethod (V1.path_Match lib) cfg order fullMethod))
         ctx calls.
Proof.
  unfold GrpcV1.StreamIntercept. intros H.
  destruct (MatchMethod _ cfg order fullMethod) as [rule [|]];
    cbn [negb snd] in *.
  2: { grpc_call H. }
  crunch H; grpc_call H.
Qed.

(** What a handler finds in a context injected by the core. *)
Lemma injected_payment (inbound ctx' : Context) :
  injected inbound ctx' ->
  exists payment,
    GetPaymentFromContext ctx' = (Some payment, true)
    /\ PaymentContext.Verified payment = true
    /\ RequirePayment ctx' = Done (Ok payment)
    /\ RequirePayment_grpc ctx' = Done (Ok payment).
Proof.
  intros (payment & -> & Hv). exists payment.
  assert (Hget : GetPaymentFromContext
                   (WithValue inbound PaymentContextKey
                      (PaymentContextPtr (Some payment)))
                 = (Some payment, true)).
  { unfold GetPaymentFromContext, Value, WithValue. cbn [values lookup_value].
    destruct (decide (PaymentContextKey = PaymentContextKey)); congruence. }
  repeat split; auto.
  - unfold RequirePayment. rewrite Hget. cbn. now rewrite Hv.
  - unfold RequirePayment_grpc. rewrite Hget. cbn. now rewrite Hv.
Qed.

(** C10.  In the HTTP middleware and in the unary and stream
    interceptors of both protocol versions, the wrapped handler is
    called at most once per request, and when payment is required the
    context it is called on is the inbound context with a
    [PaymentContext] whose [Verified] is true; no other context is made.
    On such a context [GetPaymentFromContext] returns that payment with
    ok, and [RequirePayment] returns it rather than "payment not
    verified". *)
Theorem C10_injected_context_is_verified :
  (forall lib (cfg : V2.Config) order (next : Handler) (w w' : World)
      (r : Request),
     V2.ServePayment lib cfg order next w r = Done w' ->
     exists calls,
       served w' = (served w ++ calls)%list
       /\ handler_calls_ok
            (snd (MatchEndpoint (V2.path_Match lib) cfg order (URL_Path r)))
            (ReqContext r) (map (fun call => ReqContext (snd call)) calls))
  /\ (forall lib (cfg : V2.Config) order (ctx : Context) (req : Any)
        fullMethod (handler : UnaryHandler) (t t' : Trace) result,
        GrpcV2.UnaryIntercept lib cfg order ctx req fullMethod handler t
        = Done (result, t') ->
        exists calls,
          handled t' = (handled t ++ calls)%list
          /\ handler_calls_ok
               (snd (MatchMethod (V2.path_Match lib) cfg order fullMethod))
               ctx calls)
  /\ (forall lib (cfg : V2.Config) order (srv : Any) (ctx : Context)
        fullMethod (handler : StreamHandler) (t t' : Trace) result,
        GrpcV2.StreamIntercept lib cfg order srv ctx fullMethod handler t
        = Done (result, t') ->
        exists calls,
          handled t' = (handled t ++ calls)%list
          /\ handler_calls_ok
               (snd (MatchMethod (V2.path_Match lib) cfg order fullMethod))
               ctx calls)
  /\ (forall lib (cfg : V1.Config) order now (next : Handler)
        (w w' : World) (r : Request),
        V1.ServePayment lib cfg order now next w r = Done w' ->
        exists calls,
          served w' = (served w ++ calls)%list
          /\ handler_calls_ok
               (snd (MatchEndpoint (V1.path_Match lib) cfg order
                       (URL_Path r)))
               (ReqContext r)
               (map (fun call => ReqContext (snd call)) calls))
  /\ (forall lib (cfg : V1.Config) order now (ctx : Context) (req : Any)
        fullMethod (handler : UnaryHandler) (t t' : Trace) result,
        GrpcV1.UnaryIntercept lib cfg order now ctx req fullMethod handler t
        = Done (result, t') ->
        exists calls,
          handled t' = (handled t ++ calls)%list
          /\ handler_calls_ok
               (snd (MatchMethod (V1.path_Match lib) cfg order fullMethod))
               ctx calls)
  /\ (forall lib (cfg : V1.Config) order now (srv : Any) (ctx : Context)
        fullMethod (handler : StreamHandler) (t t' : Trace) result,
        GrpcV1.StreamIntercept lib cfg order now srv ctx fullMethod
          handler t = Done (result, t') ->
        exists calls,
          handled t' = (handled t ++ calls)%list
          /\ handler_calls_ok
               (snd (MatchMethod (V1.path_Match lib) cfg order fullMethod))
               ctx calls)
  /\ (forall inbound ctx' : Context,
        injected inbound ctx' ->
        exists payment,
          GetPaymentFromContext ctx' = (Some payment, true)
          /\ PaymentContext.Verified payment = true
          /\ RequirePayment ctx' = Done (Ok payment)
          /\ RequirePayment_grpc ctx' = Done (Ok payment)).
Proof.
  repeat split; intros.
  - eapply v2_http_calls; eauto.
  - eapply v2_unary_calls; eauto.
  - eapply v2_stream_calls; eauto.
  - eapply v1_http_calls; eauto.
  - eapply v1_unary_calls; eauto.
  - eapply v1_stream_calls; eauto.
  - eapply injected_payment; eauto.
Qed.

End ContextClaims.

(** * The payment facts across the gateway *)

Section GatewayClaims.
Import Gateway.

Lemma gateway_keys :
  ToLower "x-payment-verified" = "x-payment-verified"
  /\ ToLower "x-payment-payer" = "x-payment-payer"
  /\ ToLower "x-payment-amount" = "x-payment-amount"
  /\ ToLower "x-payment-network" = "x-payment-network"
  /\ ToLower "x-payment-token" = "x-payment-token"
  /\ ToLower "x-payment-tx-hash" = "x-payment-tx-hash".
Proof. repeat split; reflexivity. Qed.

(** The metadata of a verified payment, read back. *)
Lemma gateway_round_trip (ctx : Context) (r : Request)
  (payment : PaymentContext.t) :
  GetPaymentFromContext ctx = (Some payment, true) ->
  PaymentContext.Verified payment = true ->
  GetPaymentFromGRPCContext (forward ctx r) = (Some (carried payment), true).
Proof.
  intros Hget Hv. destruct gateway_keys as (K1 & K2 & K3 & K4 & K5 & K6).
  unfold GetPaymentFromGRPCContext, forward, FromIncomingContext.
  cbn [incomingMD]. unfold WithPaymentMetadata. rewrite Hget, Hv.
  unfold carried. rewrite Hv.
  destruct payment as [verified payer amount token network txHash settledAt].
  cbn [PaymentContext.PayerAddress PaymentContext.Amount
       PaymentContext.TokenSymbol PaymentContext.Network
       PaymentContext.TransactionHash] in *.
  destruct (String.eqb_spec token ""), (String.eqb_spec txHash "");
    subst; cbn [negb]; unfold MD_Get, MD_Set;
    rewrite ?K1, ?K2, ?K3, ?K4, ?K5, ?K6;
    repeat (rewrite ?lookup_insert_eq, ?lookup_empty;
            try rewrite lookup_insert_ne by discriminate);
    reflexivity.
Qed.

(** Without a verified payment no pair is emitted. *)
Lemma gateway_nothing (ctx : Context) (r : Request) :
  (forall payment,
     GetPaymentFromContext ctx = (Some payment, true) ->
     PaymentContext.Verified payment = false) ->
  WithPaymentMetadata ctx r = ∅
  /\ GetPaymentFromGRPCContext (forward ctx r) = (None, false).
Proof.
  intros Hnone.
  assert (Hmd : WithPaymentMetadata ctx r = ∅).
  { unfold WithPaymentMetadata.
    destruct (GetPaymentFromContext ctx) as [[payment|] [|]]; try reflexivity.
    now rewrite (Hnone payment eq_refl). }
  split; [exact Hmd|].
  unfold GetPaymentFromGRPCContext, forward, FromIncomingContext.
  cbn [incomingMD]. rewrite Hmd. unfold MD_Get.
  now rewrite lookup_empty.
Qed.

(** C9, as amended.  For a context that holds a [PaymentContext] with
    [Verified] true, the metadata emitted by [WithPaymentMetadata], read
    back by [GetPaymentFromGRPCContext], yields a [PaymentContext] with
    the same verified flag, payer address, amount, token symbol, network
    and transaction hash; the settlement time is not carried and reads
    back as the zero time.  For a context that holds no [PaymentContext],
    a nil one or an unverified one, no pair is emitted and
    [GetPaymentFromGRPCContext] reports not-found. *)
Theorem C9_gateway_round_trip (ctx : Context) (r : Request) :
  (forall payment,
     GetPaymentFromContext ctx = (Some payment, true) ->
     PaymentContext.Verified payment = true ->
     GetPaymentFromGRPCContext (forward ctx r)
     = (Some (carried payment), true))
  /\ ((forall payment,
         GetPaymentFromContext ctx = (Some payment, true) ->
         PaymentContext.Verified payment = false) ->
      WithPaymentMetadata ctx r = ∅
      /\ GetPaymentFromGRPCContext (forward ctx r) = (None, false)).
Proof.
  split.
  - intros payment. apply gateway_round_trip.
  - apply gateway_nothing.
Qed.

End GatewayClaims.

Section GatewayRuns.
Import Gateway Testdata.

(** C9 as stated fails: the settlement time of a verified payment does
    not come back. *)
Lemma C9_counterexample :
  GetPaymentFromContext settledContext = (Some settledPayment, true)
  /\ PaymentContext.Verified settledPayment = true
  /\ GetPaymentFromGRPCContext (forward settledContext v2Request)
     <> (Some settledPayment, true).
Proof.
  split; [reflexivity|]. split; [reflexivity|].
  vm_compute. intros H. discriminate H.
Qed.

Lemma C9_witness :
  GetPaymentFromGRPCContext (forward settledContext v2Request)
  = (Some (carried settledPayment), true)
  /\ WithPaymentMetadata unverifiedContext v2Request = ∅.
Proof.
  split.
  - apply (C9_gateway_round_trip settledContext v2Request); reflexivity.
  - apply (C9_gateway_round_trip unverifiedContext v2Request).
    intros payment [= <-]. reflexivity.
Defined.

Lemma C10_witness :
  exists payment,
    GetPaymentFromContext settledContext = (Some payment, true)
    /\ PaymentContext.Verified payment = true
    /\ RequirePayment settledContext = Done (Ok payment)
    /\ RequirePayment_grpc settledContext = Done (Ok payment).
Proof.
  destruct C10_injected_context_is_verified
    as (_ & _ & _ & _ & _ & _ & Hinjected).
  apply (Hinjected background settledContext).
  exists settledPayment. split; reflexivity.
Defined.

End GatewayRuns.

(** * The tests of the packages, replayed on the model *)

Section Tests.
Import V2 GrpcV2 Protocol Testdata.

(** [TestPaymentMiddleware_NoPaymentRequired] *)
Example test_NoPaymentRequired :
  exists w',
    ServePayment lib testConfig endpointOrder okHandler recorder
      (request "/v1/free" []) = Done w'
    /\ List.length (served w') = 1%nat
    /\ StatusCode (writer w') = Some StatusOK.
Proof. eexists. repeat split; vm_compute; reflexivity. Qed.

(** [TestPaymentMiddleware_MissingPayment] and
    [TestPaymentMiddleware_402_IncludesPaymentRequiredHeader] *)
Example test_MissingPayment :
  exists w',
    ServePayment lib testConfig endpointOrder okHandler recorder
      (request "/v1/paid" []) = Done w'
    /\ served w' = []
    /\ StatusCode (writer w') = Some StatusPaymentRequired
    /\ Header_Get (RespHeader (writer w')) HeaderPaymentRequired
       <> EmptyString.
Proof.
  eexists. split; [vm_compute; reflexivity|].
  repeat split; vm_compute; congruence.
Qed.

(** [TestPaymentMiddleware_V2Header_ValidPayment] *)
Example test_V2Header_ValidPayment :
  exists w',
    ServePayment lib testConfig endpointOrder okHandler recorder v2Request
    = Done w'
    /\ StatusCode (writer w') = Some StatusOK
    /\ Header_Get (RespHeader (writer w')) HeaderPaymentResponse
       <> EmptyString
    /\ Header_Get (RespHeader (writer w')) HeaderLegacyPaymentResponse
       = EmptyString
    /\ exists wr r',
         served w' = [(wr, r')]
         /\ option_map PaymentContext.Verified
              (fst (GetPaymentFromContext (ReqContext r'))) = Some true.
Proof.
  eexists. split; [vm_compute; reflexivity|].
  split; [vm_compute; reflexivity|].
  split; [vm_compute; congruence|].
  split; [vm_compute; reflexivity|].
  eexists _, _. split; vm_compute; reflexivity.
Qed.

(** [TestPaymentMiddleware_V1Header_Fallback] *)
Example test_V1Header_Fallback :
  exists w',
    ServePayment lib testConfig endpointOrder okHandler recorder v1Request
    = Done w'
    /\ StatusCode (writer w') = Some StatusOK
    /\ Header_Get (RespHeader (writer w')) HeaderLegacyPaymentResponse
       <> EmptyString
    /\ Header_Get (RespHeader (writer w')) HeaderPaymentResponse
       = EmptyString.
Proof.
  eexists. split; [vm_compute; reflexivity|].
  split; [vm_compute; reflexivity|].
  split; [vm_compute; congruence|].
  vm_compute; reflexivity.
Qed.

(** [TestPaymentMiddleware_InvalidV2Header] *)
Example test_InvalidV2Header :
  exists w',
    ServePayment lib testConfig endpointOrder okHandler recorder
      malformedRequest = Done w'
    /\ StatusCode (writer w') = Some StatusBadRequest.
Proof. eexists. split; vm_compute; reflexivity. Qed.

(** [TestPaymentMiddleware_V2Header_VersionTooLow] *)
Example test_V2Header_VersionTooLow :
  exists w',
    ServePayment lib testConfig endpointOrder okHandler recorder
      (request "/v1/paid" [("PAYMENT-SIGNATURE", lowVersionHeader)])
    = Done w'
    /\ StatusCode (writer w') = Some StatusBadRequest.
Proof. eexists. split; vm_compute; reflexivity. Qed.

(** [TestPaymentMiddleware_VerificationFailed] *)
Example test_VerificationFailed :
  exists w',
    ServePayment lib
      (config_with RejectingVerifier [("/v1/paid", paidRule)] [] [] [])
      endpointOrder okHandler recorder v2Request = Done w'
    /\ served w' = []
    /\ StatusCode (writer w') = Some StatusPaymentRequired.
Proof. eexists. repeat split; vm_compute; reflexivity. Qed.

(** [TestExtractPaymentFromMetadata_V2TakesPrecedence] *)
Example test_V2TakesPrecedence :
  ExtractPaymentFromMetadata lib
    (list_to_map [(MetadataKeyPaymentSignature, [v2PaymentHeader]);
                  (MetadataKeyLegacyPayment, [v1PaymentHeader])])
  = (Ok v2Payload, true).
Proof. vm_compute. reflexivity. Qed.

(** [TestExtractPaymentFromMetadata_NotFound] *)
Example test_ExtractPayment_NotFound :
  exists err, ExtractPaymentFromMetadata lib ∅ = (Err err, false).
Proof. eexists. vm_compute. reflexivity. Qed.

(** [TestRequirePayment_NotVerified] *)
Example test_RequirePayment_NotVerified :
  RequirePayment unverifiedContext
  = Done (Err (errorString "payment not verified")).
Proof. reflexivity. Qed.

(** [TestMatchEndpoint], wildcard match and skip path *)
Example test_MatchEndpoint_wildcard :
  MatchEndpoint (path_Match lib) wildcardConfig
    (map_to_list (EndpointPricing wildcardConfig)) "/v1/premium/content"
  = (Some premiumRule, true).
Proof. vm_compute. reflexivity. Qed.

Example test_MatchEndpoint_skip :
  MatchEndpoint (path_Match lib) healthSkipConfig
    (map_to_list (EndpointPricing healthSkipConfig)) "/health"
  = (None, false).
Proof. vm_compute. reflexivity. Qed.

End Tests.

(** * Go string helpers *)

Section GoStrings.

Lemma len_append (s1 s2 : string) : len (s1 ++ s2) = (len s1 + len s2)%nat.
Proof.
  unfold len. induction s1 as [| c s1 IH]; simpl; [reflexivity|].
  now rewrite IH.
Qed.

Lemma substring_zero_append (s1 s2 : string) :
  String.substring 0 (len s1) (s1 ++ s2) = s1.
Proof.
  unfold len. induction s1 as [| c s1 IH]; simpl.
  - destruct s2; reflexivity.
  - now rewrite IH.
Qed.

Lemma substring_whole (s : string) : String.substring 0 (len s) s = s.
Proof.
  unfold len. induction s as [| c s IH]; simpl; [reflexivity|].
  now rewrite IH.
Qed.

Lemma substring_skip_append (s1 s2 : string) (n : nat) :
  String.substring (len s1) n (s1 ++ s2) = String.substring 0 n s2.
Proof.
  unfold len. induction s1 as [| c s1 IH]; simpl; [reflexivity|].
  exact IH.
Qed.

Lemma substring_zero_split (n : nat) (s : string) :
  (n <= len s)%nat ->
  s = (String.substring 0 n s ++ String.substring n (len s - n) s)%string.
Proof.
  unfold len. revert n. induction s as [| c s IH]; intros n Hn.
  - simpl in Hn. assert (n = 0%nat) as -> by lia. reflexivity.
  - destruct n as [| n].
    + simpl. now rewrite substring_whole.
    + simpl in *.
      change (String c s
              = String c (String.substring 0 n s
                          ++ String.substring n (String.length s - n) s)).
      f_equal. apply IH. lia.
Qed.

(** [strings.HasPrefix]: the string starts with the prefix. *)
Lemma HasPrefix_iff (s pre : string) :
  HasPrefix s pre = true <-> exists rest, s = (pre ++ rest)%string.
Proof.
  unfold HasPrefix, slice_to. rewrite andb_true_iff, Nat.leb_le, String.eqb_eq.
  split.
  - intros [Hlen Hsub]. exists (String.substring (len pre) (len s - len pre) s).
    rewrite <- Hsub at 1. now apply substring_zero_split.
  - intros [rest ->]. rewrite len_append. split; [lia|].
    apply substring_zero_append.
Qed.

Lemma HasSuffix_append (s suffix : string) :
  HasSuffix (s ++ suffix) suffix = true.
Proof.
  unfold HasSuffix, slice_from. rewrite len_append.
  apply andb_true_iff. split; [apply Nat.leb_le; lia|].
  apply String.eqb_eq.
  replace (len s + len suffix - len suffix)%nat with (len s) by lia.
  replace (len s + len suffix - len s)%nat with (len suffix) by lia.
  rewrite substring_skip_append. apply substring_whole.
Qed.

Lemma TrimSuffix_append (s suffix : string) :
  TrimSuffix (s ++ suffix) suffix = s.
Proof.
  unfold TrimSuffix, slice_to. rewrite HasSuffix_append, len_append.
  replace (len s + len suffix - len suffix)%nat with (len s) by lia.
  apply substring_zero_append.
Qed.

Lemma append_assoc (s1 s2 s3 : string) :
  ((s1 ++ s2) ++ s3 = s1 ++ (s2 ++ s3))%string.
Proof.
  induction s1 as [| c s1 IH]; [reflexivity|].
  change (String c ((s1 ++ s2) ++ s3) = String c (s1 ++ (s2 ++ s3))).
  now f_equal.
Qed.

End GoStrings.

(** * More on the pricing rule resolver *)

Section ResolverOrder.
Context {PricingRule ChainVerifier : Type}.
Variable path_Match : string -> string -> option bool.

Local Abbreviation matchPath := (Resolver.matchPath path_Match).
Local Abbreviation Config := (Resolver.Config PricingRule ChainVerifier).

(** The wildcard loop replaces its candidate by a strictly longer
    pattern only. *)
Lemma bestMatch_fold_strict (identifier : string)
  (order : list (string * PricingRule)) :
  forall best : string * option PricingRule,
    let final := fold_left (bestStep path_Match identifier) order best in
    final = best \/ (len (fst best) < len (fst final))%nat.
Proof.
  induction order as [| [pattern rule] order IH]; intros best;
    cbn [fold_left]; [now left|].
  set (next := bestStep path_Match identifier best (pattern, rule)).
  pose proof (IH next) as IHn. cbn zeta in IHn.
  assert (Hstep : next = best \/ (len (fst best) < len (fst next))%nat).
  { subst next. unfold bestStep.
    destruct (matchPath identifier pattern); [|now left].
    destruct (Nat.ltb_spec (len (fst best)) (len pattern));
      [right; simpl; lia | now left]. }
  destruct IHn as [-> | IHn], Hstep as [Hs | Hs]; auto.
  - rewrite <- Hs. now right.
  - right. lia.
Qed.

(** Two orders of the same table give the same rule when no two matching
    patterns of the table have the same length. *)
Lemma bestMatch_order (table : gmap string PricingRule)
  (order1 order2 : list (string * PricingRule)) (identifier : string) :
  range_order table order1 -> range_order table order2 ->
  (forall p q r r',
     table !! p = Some r -> table !! q = Some r' ->
     matchPath identifier p = true -> matchPath identifier q = true ->
     len p = len q -> p = q) ->
  snd (bestMatch path_Match identifier order1)
  = snd (bestMatch path_Match identifier order2).
Proof.
  intros Hord1 Hord2 Hdistinct.
  assert (Hin : forall order, range_order table order ->
                forall q r, In (q, r) order <-> table !! q = Some r).
  { intros order Hord q r. rewrite <- list_elem_of_In.
    unfold range_order in Hord. rewrite Hord. apply elem_of_map_to_list. }
  unfold bestMatch.
  pose proof (bestMatch_fold path_Match identifier order1
                (EmptyString, None)) as H1.
  pose proof (bestMatch_fold path_Match identifier order2
                (EmptyString, None)) as H2.
  pose proof (bestMatch_fold_strict identifier order1
                (EmptyString, None)) as S1.
  pose proof (bestMatch_fold_strict identifier order2
                (EmptyString, None)) as S2.
  cbn zeta in H1, H2, S1, S2.
  set (final1 := fold_left (bestStep path_Match identifier) order1
                   (EmptyString, None)) in *.
  set (final2 := fold_left (bestStep path_Match identifier) order2
                   (EmptyString, None)) in *.
  destruct H1 as (_ & Hall1 & Hfin1), H2 as (_ & Hall2 & Hfin2).
  destruct Hfin1 as [E1 | (r1 & Hr1 & Hin1 & Hm1)];
    destruct Hfin2 as [E2 | (r2 & Hr2 & Hin2 & Hm2)].
  - now rewrite E1, E2.
  - exfalso. destruct S2 as [S2 | S2].
    + rewrite S2 in Hr2. discriminate.
    + apply (Hin order2 Hord2) in Hin2. apply (Hin order1 Hord1) in Hin2.
      specialize (Hall1 _ _ Hin2 Hm2). rewrite E1 in Hall1.
      simpl in *. lia.
  - exfalso. destruct S1 as [S1 | S1].
    + rewrite S1 in Hr1. discriminate.
    + apply (Hin order1 Hord1) in Hin1. apply (Hin order2 Hord2) in Hin1.
      specialize (Hall2 _ _ Hin1 Hm1). rewrite E2 in Hall2.
      simpl in *. lia.
  - apply (Hin order1 Hord1) in Hin1. apply (Hin order2 Hord2) in Hin2.
    assert (Hle1 : (len (fst final2) <= len (fst final1))%nat).
    { apply (Hall1 (fst final2) r2); auto. now apply (Hin order1 Hord1). }
    assert (Hle2 : (len (fst final1) <= len (fst final2))%nat).
    { apply (Hall2 (fst final1) r1); auto. now apply (Hin order2 Hord2). }
    assert (Hsame : fst final1 = fst final2).
    { apply (Hdistinct _ _ r1 r2); auto. lia. }
    rewrite Hsame in Hin1. congruence.
Qed.

(** X1.  The rule that [MatchEndpoint] and [MatchMethod] return does not
    depend on the order in which Go visits the pricing map, provided
    that no two patterns of the map that match the identifier have the
    same length. *)
Theorem X1_resolution_independent_of_map_order (c : Config)
  (order1 order2 : list (string * PricingRule)) (identifier : string) :
  (range_order (EndpointPricing c) order1 ->
   range_order (EndpointPricing c) order2 ->
   (forall p q r r',
      EndpointPricing c !! p = Some r -> EndpointPricing c !! q = Some r' ->
      matchPath identifier p = true -> matchPath identifier q = true ->
      len p = len q -> p = q) ->
   MatchEndpoint path_Match c order1 identifier
   = MatchEndpoint path_Match c order2 identifier)
  /\ (range_order (MethodPricing c) order1 ->
      range_order (MethodPricing c) order2 ->
      (forall p q r r',
         MethodPricing c !! p = Some r -> MethodPricing c !! q = Some r' ->
         matchPath identifier p = true -> matchPath identifier q = true ->
         len p = len q -> p = q) ->
      MatchMethod path_Match c order1 identifier
      = MatchMethod path_Match c order2 identifier).
Proof.
  split; intros Hord1 Hord2 Hdistinct.
  - unfold MatchEndpoint.
    now rewrite (bestMatch_order _ order1 order2 identifier Hord1 Hord2).
  - unfold MatchMethod.
    now rewrite (bestMatch_order _ order1 order2 identifier Hord1 Hord2).
Qed.

(** X2.  A pattern that ends in [/*] matches exactly its prefix and the
    identifiers that extend the prefix with a slash; the prefix is taken
    literally and the glob of the standard library is not consulted. *)
Theorem X2_wildcard_pattern_matches_prefix (pre identifier : string) :
  matchPath identifier (pre ++ "/*") = true
  <-> identifier = pre
      \/ exists rest, identifier = (pre ++ "/" ++ rest)%string.
Proof.
  unfold Resolver.matchPath.
  rewrite HasSuffix_append, TrimSuffix_append.
  destruct (String.eqb_spec identifier (pre ++ "/*")) as [-> | Hne].
  - split; [|reflexivity]. intros _. right. now exists "*".
  - rewrite orb_true_iff, HasPrefix_iff, String.eqb_eq. split.
    + intros [[rest ->] | ->]; [right | now left].
      exists rest. apply append_assoc.
    + intros [-> | [rest ->]]; [now right | left].
      exists rest. symmetry. apply append_assoc.
Qed.

(** The rule found for an identifier that is not skipped. *)
Lemma resolved_from (table : gmap string PricingRule)
  (default : option PricingRule) order identifier rule requires :
  range_order table order ->
  match table !! identifier with
  | Some r => (Some r, true)
  | None =>
      match snd (bestMatch path_Match identifier order) with
      | Some r => (Some r, true)
      | None =>
          match default with
          | Some r => (Some r, true)
          | None => (None, false)
          end
      end
  end = (rule, requires) ->
  (requires = false /\ rule = None)
  \/ (requires = true
      /\ exists r, rule = Some r
           /\ ((exists p, table !! p = Some r
                          /\ matchPath identifier p = true)
               \/ default = Some r)).
Proof.
  intros Hord H. destruct (table !! identifier) as [r|] eqn:Hexact.
  - injection H as <- <-. right. split; [reflexivity|]. exists r.
    split; [reflexivity|]. left. exists identifier. split; [exact Hexact|].
    unfold Resolver.matchPath. now rewrite String.eqb_refl.
  - pose proof (bestMatch_fold path_Match identifier order
                  (EmptyString, None)) as Hf.
    cbn zeta in Hf. destruct Hf as (_ & _ & Hfin). unfold bestMatch in H.
    destruct (snd (fold_left _ order (EmptyString, None))) as [r|] eqn:Hb.
    + injection H as <- <-. right. split; [reflexivity|]. exists r.
      split; [reflexivity|]. left.
      destruct Hfin as [Hfin | (r' & Hr' & Hin & Hm)].
      * rewrite Hfin in Hb. discriminate.
      * injection Hr' as <-. eexists. split; [|exact Hm].
        apply elem_of_map_to_list. unfold range_order in Hord.
        rewrite <- Hord, list_elem_of_In. exact Hin.
    + destruct default as [r|]; injection H as <- <-.
      * right. split; [reflexivity|]. exists r. auto.
      * now left.
Qed.

(** X3.  [MatchEndpoint] and [MatchMethod] return either "no payment
    required" with a nil rule, or [true] with a rule of the
    configuration: the rule of a key of the pricing map that matches the
    identifier, or the default rule; and they return a rule only for an
    identifier that no skip pattern matches. *)
Theorem X3_resolved_rule_is_configured (c : Config)
  (order : list (string * PricingRule)) (identifier : string)
  (rule : option PricingRule) (requires : bool) :
  (range_order (EndpointPricing c) order ->
   MatchEndpoint path_Match c order identifier = (rule, requires) ->
   (requires = false /\ rule = None)
   \/ (requires = true
       /\ (forall skip, In skip (SkipPaths c) ->
             matchPath identifier skip = false)
       /\ exists r, rule = Some r
            /\ ((exists p, EndpointPricing c !! p = Some r
                           /\ matchPath identifier p = true)
                \/ DefaultPricing c = Some r)))
  /\ (range_order (MethodPricing c) order ->
      MatchMethod path_Match c order identifier = (rule, requires) ->
      (requires = false /\ rule = None)
      \/ (requires = true
          /\ (forall skip, In skip (SkipMethods c) ->
                matchPath identifier skip = false)
          /\ exists r, rule = Some r
               /\ ((exists p, MethodPricing c !! p = Some r
                              /\ matchPath identifier p = true)
                   \/ DefaultPricing c = Some r))).
Proof.
  split; intros Hord H.
  - unfold MatchEndpoint in H.
    destruct (existsb _ (SkipPaths c)) eqn:Hskip.
    { injection H as <- <-. now left. }
    destruct (resolved_from _ _ _ _ _ _ Hord H) as [? | (-> & Hr)];
      [now left | right].
    split; [reflexivity|]. split; [|exact Hr].
    intros skip Hin. destruct (matchPath identifier skip) eqn:Hm; auto.
    assert (existsb (fun p => matchPath identifier p) (SkipPaths c) = true)
      by (apply existsb_exists; eauto).
    congruence.
  - unfold MatchMethod in H.
    destruct (existsb _ (SkipMethods c)) eqn:Hskip.
    { injection H as <- <-. now left. }
    destruct (resolved_from _ _ _ _ _ _ Hord H) as [? | (-> & Hr)];
      [now left | right].
    split; [reflexivity|]. split; [|exact Hr].
    intros skip Hin. destruct (matchPath identifier skip) eqn:Hm; auto.
    assert (existsb (fun p => matchPath identifier p) (SkipMethods c) = true)
      by (apply existsb_exists; eauto).
    congruence.
Qed.

End ResolverOrder.

Section ResolverRuns.
Import Testdata Fixtures.

Lemma wildcardConfig_entries :
  map_to_list (EndpointPricing wildcardConfig)
  = [("/v1/*", paidRule); ("/v1/premium/*", premiumRule)].
Proof. vm_compute. reflexivity. Qed.

Lemma X1_witness :
  MatchEndpoint GoPath.Match wildcardConfig
    (map_to_list (EndpointPricing wildcardConfig)) "/v1/premium/content"
  = MatchEndpoint GoPath.Match wildcardConfig
      (rev (map_to_list (EndpointPricing wildcardConfig)))
      "/v1/premium/content".
Proof.
  destruct (X1_resolution_independent_of_map_order GoPath.Match
              wildcardConfig (map_to_list (EndpointPricing wildcardConfig))
              (rev (map_to_list (EndpointPricing wildcardConfig)))
              "/v1/premium/content") as [Hhttp _].
  apply Hhttp.
  - unfold range_order. reflexivity.
  - unfold range_order. symmetry. apply Permutation_rev.
  - intros p q r r' Hp Hq _ _.
    apply elem_of_map_to_list in Hp, Hq.
    rewrite wildcardConfig_entries in Hp, Hq.
    apply list_elem_of_In in Hp, Hq. simpl in Hp, Hq.
    destruct Hp as [[= <- <-] | [[= <- <-] | []]];
      destruct Hq as [[= <- <-] | [[= <- <-] | []]];
      intros Hlen; solve [reflexivity | discriminate Hlen].
Defined.

(** With two matching patterns of the same length, the pattern that Go
    visits first wins. *)
Example tie_first_visited_wins :
  range_order (EndpointPricing tieConfig)
    [("/a/*", paidRule); ("/a/?", premiumRule)]
  /\ range_order (EndpointPricing tieConfig)
       [("/a/?", premiumRule); ("/a/*", paidRule)]
  /\ MatchEndpoint GoPath.Match tieConfig
       [("/a/*", paidRule); ("/a/?", premiumRule)] "/a/x"
     = (Some paidRule, true)
  /\ MatchEndpoint GoPath.Match tieConfig
       [("/a/?", premiumRule); ("/a/*", paidRule)] "/a/x"
     = (Some premiumRule, true).
Proof.
  assert (He : map_to_list (EndpointPricing tieConfig)
               = [("/a/?", premiumRule); ("/a/*", paidRule)])
    by (vm_compute; reflexivity).
  unfold range_order. rewrite He.
  split; [apply Permutation_swap|]. split; [reflexivity|].
  split; vm_compute; reflexivity.
Qed.

Lemma X3_witness :
  (exists p, EndpointPricing wildcardConfig !! p = Some premiumRule
             /\ Resolver.matchPath GoPath.Match "/v1/premium/content" p
                = true)
  \/ DefaultPricing wildcardConfig = Some premiumRule.
Proof.
  destruct (X3_resolved_rule_is_configured GoPath.Match wildcardConfig
              (map_to_list (EndpointPricing wildcardConfig))
              "/v1/premium/content" (Some premiumRule) true) as [Hhttp _].
  destruct Hhttp as [[Hfalse _] | (_ & _ & r & Hr & Hfrom)].
  - unfold range_order. reflexivity.
  - vm_compute. reflexivity.
  - discriminate Hfalse.
  - injection Hr as <-. exact Hfrom.
Defined.

End ResolverRuns.

(** * [Config.Validate] *)

Lemma defaulted_eta {PricingRule ChainVerifier : Type}
  (c : Resolver.Config PricingRule ChainVerifier) :
  (ValidityDuration c =? 0) = false -> Props.defaulted c = c.
Proof.
  unfold Props.defaulted, Props.set_ValidityDuration. intros ->.
  destruct c; reflexivity.
Qed.

Section ValidateV2.
Import V2.
Variable lib : Lib.

Lemma v2_token_valid (t : TokenRequirement.t) :
  TokenRequirement_Validate lib t = None <-> Props.V2.valid_token t.
Proof.
  unfold TokenRequirement_Validate, Props.V2.valid_token.
  repeat match goal with
         | |- context [String.eqb ?x ""] =>
             destruct (String.eqb_spec x "")
         end; split; try discriminate; try tauto; intuition congruence.
Qed.

Lemma v2_tokens_valid (tokens : list TokenRequirement.t) :
  forall i, validate_tokens lib i tokens = None
            <-> Forall Props.V2.valid_token tokens.
Proof.
  induction tokens as [| t tokens IH]; intros i; simpl.
  - split; auto.
  - destruct (TokenRequirement_Validate lib t) eqn:Ht.
    + split; [discriminate|]. intros Hall. inversion Hall; subst.
      apply v2_token_valid in H1. congruence.
    + rewrite IH. apply v2_token_valid in Ht. split.
      * intros. now constructor.
      * intros Hall. now inversion Hall.
Qed.

Lemma v2_rule_valid (p : PricingRule.t) :
  PricingRule_Validate lib p = None <-> Props.V2.valid_rule p.
Proof.
  unfold PricingRule_Validate, Props.V2.valid_rule.
  destruct (PricingRule.AcceptedTokens p) as [| t tokens] eqn:Htokens.
  - simpl. split; [discriminate | intros [[] _]; reflexivity].
  - cbn [List.length Nat.eqb]. rewrite v2_tokens_valid. split.
    + intros H. split; [discriminate | exact H].
    + intros [_ H]. exact H.
Qed.

Lemma v2_rules_valid (format : string)
  (order : list (string * PricingRule.t)) :
  validate_rules lib format order = None
  <-> forall pattern rule, In (pattern, rule) order ->
        Props.V2.valid_rule rule.
Proof.
  induction order as [| [p r] order IH]; simpl.
  - split; [intros _ ? ? [] | reflexivity].
  - destruct (PricingRule_Validate lib r) eqn:Hr.
    + split; [discriminate|]. intros Hall.
      assert (Hv : Props.V2.valid_rule r) by (apply (Hall p); now left).
      apply v2_rule_valid in Hv. congruence.
    + rewrite IH. apply v2_rule_valid in Hr. split.
      * intros Hall pattern rule [[= <- <-] | Hin]; eauto.
      * intros Hall pattern rule Hin. apply (Hall pattern). now right.
Qed.


(** X4.  [Validate] of package [v2] accepts a configuration exactly
    when it has a verifier and every rule of the two pricing maps and
    the default rule has at least one accepted token, each token with a
    network, a symbol, a recipient, an asset contract and an amount;
    nothing else is checked.  The configuration is left as it was, except
    that a zero validity duration becomes five minutes. *)
Theorem X4_v2_Validate_accepts (c c' : Config)
  (endpointOrder methodOrder : list (string * PricingRule.t)) :
  range_order (EndpointPricing c) endpointOrder ->
  range_order (MethodPricing c) methodOrder ->
  Validate lib c endpointOrder methodOrder = Ok c'
  <-> Verifier c <> None
      /\ Props.all_rules Props.V2.valid_rule c
      /\ c' = Props.defaulted c.
Proof.
  unfold range_order, Props.all_rules. intros He Hm.
  assert (Hin : forall (table : gmap string PricingRule.t) order,
            order ≡ₚ map_to_list table ->
            (forall pattern rule, In (pattern, rule) order ->
               Props.V2.valid_rule rule)
            <-> (forall pattern (rule : PricingRule.t),
                   table !! pattern = Some rule ->
                   Props.V2.valid_rule rule)).
  { intros table order Hord.
    split; intros H pattern rule Hl; apply (H pattern).
    - rewrite <- list_elem_of_In, Hord. now apply elem_of_map_to_list.
    - rewrite <- list_elem_of_In, Hord in Hl.
      now apply elem_of_map_to_list in Hl. }
  rewrite <- (Hin _ _ He), <- (Hin _ _ Hm).
  rewrite <- (v2_rules_valid "invalid pricing rule for pattern %q: %w"
                endpointOrder).
  rewrite <- (v2_rules_valid "invalid pricing rule for method %q: %w"
                methodOrder).
  unfold Validate.
  change {| Verifier := Verifier c;
            EndpointPricing := EndpointPricing c;
            MethodPricing := MethodPricing c;
            DefaultPricing := DefaultPricing c;
            ValidityDuration := 5 * Minute;
            SkipPaths := SkipPaths c;
            SkipMethods := SkipMethods c;
            CustomPaywallHTML := CustomPaywallHTML c |}
    with (Props.set_ValidityDuration c (5 * Minute)).
  destruct (Verifier c) as [verifier|] eqn:Hver.
  2: { split; [discriminate | intros [[] _]; reflexivity]. }
  destruct (validate_rules lib _ endpointOrder) eqn:Hre.
  { split; [discriminate | intros (_ & (Hc & _) & _); discriminate Hc]. }
  destruct (validate_rules lib _ methodOrder) eqn:Hrm.
  { split; [discriminate | intros (_ & (_ & Hc & _) & _); discriminate Hc]. }
  assert (Hd : DefaultPricing
                 (if ValidityDuration c =? 0
                  then Props.set_ValidityDuration c (5 * Minute) else c)
               = DefaultPricing c)
    by (destruct (ValidityDuration c =? 0); reflexivity).
  assert (Hc : (if ValidityDuration c =? 0
                then Props.set_ValidityDuration c (5 * Minute) else c)
               = Props.defaulted c).
  { destruct (ValidityDuration c =? 0) eqn:Hz.
    - unfold Props.defaulted. now rewrite Hz.
    - symmetry. now apply defaulted_eta. }
  cbv zeta. rewrite Hd, Hc.
  destruct (DefaultPricing c) as [rule|] eqn:Hdef.
  - destruct (PricingRule_Validate lib rule) eqn:Hr.
    + split; [discriminate|]. intros (_ & (_ & _ & Hv) & _).
      specialize (Hv rule eq_refl). apply v2_rule_valid in Hv. congruence.
    + apply v2_rule_valid in Hr. split.
      * intros [= <-]. split; [discriminate|]. split; [|reflexivity].
        split; [reflexivity|]. split; [reflexivity|].
        now intros ? [= <-].
      * intros (_ & _ & ->). reflexivity.
  - split.
    + intros [= <-]. split; [discriminate|]. split; [|reflexivity].
      split; [reflexivity|]. split; [reflexivity|]. discriminate.
    + intros (_ & _ & ->). reflexivity.
Qed.

End ValidateV2.

Section ValidateV1.
Import V1.
Variable lib : Lib.

Lemma v1_token_valid (t : TokenRequirement.t) :
  TokenRequirement_Validate lib t = None <-> Props.V1.valid_token t.
Proof.
  unfold TokenRequirement_Validate, Props.V1.valid_token.
  repeat match goal with
         | |- context [String.eqb ?x ""] =>
             destruct (String.eqb_spec x "")
         end; split; try discriminate; try tauto; intuition congruence.
Qed.

Lemma v1_tokens_valid (tokens : list TokenRequirement.t) :
  forall i, validate_tokens lib i tokens = None
            <-> Forall Props.V1.valid_token tokens.
Proof.
  induction tokens as [| t tokens IH]; intros i; simpl.
  - split; auto.
  - destruct (TokenRequirement_Validate lib t) eqn:Ht.
    + split; [discriminate|]. intros Hall. inversion Hall; subst.
      apply v1_token_valid in H1. congruence.
    + rewrite IH. apply v1_token_valid in Ht. split.
      * intros. now constructor.
      * intros Hall. now inversion Hall.
Qed.

Lemma v1_rule_valid (p : PricingRule.t) :
  PricingRule_Validate lib p = None <-> Props.V1.valid_rule p.
Proof.
  unfold PricingRule_Validate, Props.V1.valid_rule.
  destruct (String.eqb_spec (PricingRule.Amount p) "") as [Ha | Ha].
  { split; [discriminate | intros [Hc _]; contradiction]. }
  destruct (PricingRule.AcceptedTokens p) as [| t tokens] eqn:Htokens.
  - simpl. split; [discriminate | intros (_ & [] & _); reflexivity].
  - cbn [List.length Nat.eqb]. rewrite v1_tokens_valid. split.
    + intros H. split; [exact Ha|]. split; [discriminate | exact H].
    + intros (_ & _ & H). exact H.
Qed.

Lemma v1_rules_valid (format : string)
  (order : list (string * PricingRule.t)) :
  validate_rules lib format order = None
  <-> forall pattern rule, In (pattern, rule) order ->
        Props.V1.valid_rule rule.
Proof.
  induction order as [| [p r] order IH]; simpl.
  - split; [intros _ ? ? [] | reflexivity].
  - destruct (PricingRule_Validate lib r) eqn:Hr.
    + split; [discriminate|]. intros Hall.
      assert (Hv : Props.V1.valid_rule r) by (apply (Hall p); now left).
      apply v1_rule_valid in Hv. congruence.
    + rewrite IH. apply v1_rule_valid in Hr. split.
      * intros Hall pattern rule [[= <- <-] | Hin]; eauto.
      * intros Hall pattern rule Hin. apply (Hall pattern). now right.
Qed.


(** X5.  [Validate] of the root package accepts a configuration
    exactly when it has a verifier and every rule of the two pricing
    maps and the default rule has an amount and at least one accepted
    token, each token with a network, a symbol, a recipient and an asset
    contract; nothing else is checked.  The configuration is left as it
    was, except that a zero validity duration becomes five minutes. *)
Theorem X5_v1_Validate_accepts (c c' : Config)
  (endpointOrder methodOrder : list (string * PricingRule.t)) :
  range_order (EndpointPricing c) endpointOrder ->
  range_order (MethodPricing c) methodOrder ->
  Validate lib c endpointOrder methodOrder = Ok c'
  <-> Verifier c <> None
      /\ Props.all_rules Props.V1.valid_rule c
      /\ c' = Props.defaulted c.
Proof.
  unfold range_order, Props.all_rules. intros He Hm.
  assert (Hin : forall (table : gmap string PricingRule.t) order,
            order ≡ₚ map_to_list table ->
            (forall pattern rule, In (pattern, rule) order ->
               Props.V1.valid_rule rule)
            <-> (forall pattern (rule : PricingRule.t),
                   table !! pattern = Some rule ->
                   Props.V1.valid_rule rule)).
  { intros table order Hord.
    split; intros H pattern rule Hl; apply (H pattern).
    - rewrite <- list_elem_of_In, Hord. now apply elem_of_map_to_list.
    - rewrite <- list_elem_of_In, Hord in Hl.
      now apply elem_of_map_to_list in Hl. }
  rewrite <- (Hin _ _ He), <- (Hin _ _ Hm).
  rewrite <- (v1_rules_valid "invalid pricing rule for pattern %q: %w"
                endpointOrder).
  rewrite <- (v1_rules_valid "invalid pricing rule for method %q: %w"
                methodOrder).
  unfold Validate.
  change {| Verifier := Verifier c;
            EndpointPricing := EndpointPricing c;
            MethodPricing := MethodPricing c;
            DefaultPricing := DefaultPricing c;
            ValidityDuration := 5 * Minute;
            SkipPaths := SkipPaths c;
            SkipMethods := SkipMethods c;
            CustomPaywallHTML := CustomPaywallHTML c |}
    with (Props.set_ValidityDuration c (5 * Minute)).
  destruct (Verifier c) as [verifier|] eqn:Hver.
  2: { split; [discriminate | intros [[] _]; reflexivity]. }
  destruct (validate_rules lib _ endpointOrder) eqn:Hre.
  { split; [discriminate | intros (_ & (Hc & _) & _); discriminate Hc]. }
  destruct (validate_rules lib _ methodOrder) eqn:Hrm.
  { split; [discriminate | intros (_ & (_ & Hc & _) & _); discriminate Hc]. }
  assert (Hd : DefaultPricing
                 (if ValidityDuration c =? 0
                  then Props.set_ValidityDuration c (5 * Minute) else c)
               = DefaultPricing c)
    by (destruct (ValidityDuration c =? 0); reflexivity).
  assert (Hc : (if ValidityDuration c =? 0
                then Props.set_ValidityDuration c (5 * Minute) else c)
               = Props.defaulted c).
  { destruct (ValidityDuration c =? 0) eqn:Hz.
    - unfold Props.defaulted. now rewrite Hz.
    - symmetry. now apply defaulted_eta. }
  cbv zeta. rewrite Hd, Hc.
  destruct (DefaultPricing c) as [rule|] eqn:Hdef.
  - destruct (PricingRule_Validate lib rule) eqn:Hr.
    + split; [discriminate|]. intros (_ & (_ & _ & Hv) & _).
      specialize (Hv rule eq_refl). apply v1_rule_valid in Hv. congruence.
    + apply v1_rule_valid in Hr. split.
      * intros [= <-]. split; [discriminate|]. split; [|reflexivity].
        split; [reflexivity|]. split; [reflexivity|].
        now intros ? [= <-].
      * intros (_ & _ & ->). reflexivity.
  - split.
    + intros [= <-]. split; [discriminate|]. split; [|reflexivity].
      split; [reflexivity|]. split; [reflexivity|]. discriminate.
    + intros (_ & _ & ->). reflexivity.
Qed.

End ValidateV1.

Section ValidateRuns.
Import Testdata Fixtures.

Lemma X4_witness :
  Verifier testConfig <> None
  /\ Props.all_rules Props.V2.valid_rule testConfig
  /\ Props.defaulted testConfig = Props.defaulted testConfig.
Proof.
  apply (X4_v2_Validate_accepts lib testConfig (Props.defaulted testConfig)
           endpointOrder methodOrder).
  - unfold range_order. reflexivity.
  - unfold range_order. reflexivity.
  - vm_compute. reflexivity.
Defined.

Lemma X5_witness :
  Verifier Root.config <> None
  /\ Props.all_rules Props.V1.valid_rule Root.config
  /\ Props.set_ValidityDuration Root.config (5 * Minute)
     = Props.defaulted Root.config.
Proof.
  apply (X5_v1_Validate_accepts Root.lib Root.config
           (Props.set_ValidityDuration Root.config (5 * Minute))
           (map_to_list (EndpointPricing Root.config))
           (map_to_list (MethodPricing Root.config))).
  - unfold range_order. reflexivity.
  - unfold range_order. reflexivity.
  - vm_compute. reflexivity.
Defined.

End ValidateRuns.

(** * No request makes a validated middleware panic *)

Section NoPanicV2.
Import V2 Protocol.
Variable lib : Lib.




End NoPanicV2.

Section NoPanicV1.
Import V1.
Variable lib : Lib.


Ltac decide_all :=
  repeat match goal with
         | |- context [match ?x with _ => _ end] =>
             lazymatch x with
             | context [match _ with _ => _ end] => fail
             | _ => destruct x eqn:?
             end
         end.







End NoPanicV1.

Section NoPanicRuns.
Import Testdata Fixtures.






End NoPanicRuns.

(** * The middleware and the interceptors of the root package *)

Section GateV1.
Import V1.
Variable lib : Lib.

Ltac scrutinee x :=
  lazymatch x with
  | context [match ?y with _ => _ end] => scrutinee y
  | _ => x
  end.

Ltac crunch H :=
  unfold bind, deref in H;
  repeat (cbn [negb] in H;
          match type of H with
          | context [match ?x with _ => _ end] =>
              let y := scrutinee x in
              destruct y eqn:?; try discriminate H
          end);
  cbn [negb] in H.

Lemma v1_StatusCode_Write (bytes : string) (w : ResponseWriter) (code : Z) :
  StatusCode w = Some code -> StatusCode (Write bytes w) = Some code.
Proof.
  intros H. unfold StatusCode in *.
  destruct (Sent w) as [[c h]|] eqn:E; [|discriminate].
  unfold Write, WriteHeader. rewrite E. cbn [Sent]. now rewrite E.
Qed.

Lemma v1_StatusCode_Encode (v : Marshalable) (w : ResponseWriter)
  (code : Z) :
  StatusCode w = Some code -> StatusCode (Encode lib v w) = Some code.
Proof.
  intros H. unfold Encode. destruct (json_Marshal lib v); auto.
  now apply v1_StatusCode_Write.
Qed.

Lemma v1_sendError_status (w : World) (code : Z) (message : string) :
  Sent (writer w) = None ->
  StatusCode (writer (sendError lib w code message)) = Some code.
Proof.
  intros Hfresh. unfold sendError, on_writer. cbn [writer].
  apply v1_StatusCode_Encode. unfold StatusCode, WriteHeader, SetHeader.
  cbn [Sent]. now rewrite Hfresh.
Qed.

Lemma v1_sendPaymentRequired_status now (w : World) (r : Request)
  (rule : option PricingRule.t) (cfg : Config) w' :
  sendPaymentRequired lib now w r rule cfg = Done w' ->
  served w' = served w
  /\ (Sent (writer w) = None ->
      StatusCode (writer w') = Some StatusPaymentRequired).
Proof.
  unfold sendPaymentRequired. intros H. crunch H; injection H as <-;
    (split; [reflexivity|]); intros Hfresh; unfold on_writer;
    cbn [writer].
  - apply v1_StatusCode_Write. unfold StatusCode, WriteHeader, SetHeader.
    cbn [Sent]. now rewrite Hfresh.
  - apply v1_StatusCode_Encode. unfold StatusCode, WriteHeader, SetHeader.
    cbn [Sent]. now rewrite Hfresh.
Qed.

(** X9.  The HTTP middleware of the root package calls the wrapped
    handler in two cases only: the path requires no payment, and the
    handler gets the request as it came; or the [X-PAYMENT] header
    parses, the verifier finds the payment valid and settles it, and the
    handler gets the request with the payment context, on a writer whose
    [X-PAYMENT-RESPONSE] header carries the receipt.  In every other
    case the handler is not called and a fresh writer is answered with
    status 402, 400 or 500. *)
Theorem X9_v1_http_handler_runs_only_when_settled (cfg : Config)
  (order : list (string * PricingRule.t)) (now : Time) (next : Handler)
  (w : World) (r : Request) (w' : World) :
  ServePayment lib cfg order now next w r = Done w' ->
  let requiresPayment :=
    snd (MatchEndpoint (path_Match lib) cfg order (URL_Path r)) in
  (requiresPayment = true
   /\ served w' = served w
   /\ (Sent (writer w) = None ->
       exists code,
         StatusCode (writer w') = Some code
         /\ (code = StatusPaymentRequired \/ code = StatusBadRequest
             \/ code = StatusInternalServerError)))
  \/ (requiresPayment = false /\ w' = ServeHTTP next w r)
  \/ (requiresPayment = true
      /\ exists payment verifyResult settlementResult wr,
           parsePayment lib (Header_Get (ReqHeader r) "X-PAYMENT")
           = Ok payment
           /\ Props.V1.settles cfg (ReqContext r) payment verifyResult
                settlementResult
           /\ w' = ServeHTTP next wr
                     (WithContext r
                        (Props.V1.paid_context (ReqContext r) verifyResult
                           payment settlementResult))
           /\ served wr = served w
           /\ forall responseJSON,
                json_Marshal lib
                  (MarshalPaymentResponse (paymentResponse settlementResult))
                = Ok responseJSON ->
                Header_Get (RespHeader (writer wr)) "X-PAYMENT-RESPONSE"
                = base64_EncodeToString lib responseJSON).
Proof.
  unfold ServePayment. intros H.
  destruct (MatchEndpoint _ cfg order (URL_Path r)) as [rule [|]];
    cbn [negb snd] in *.
  2: { injection H as <-. right; left. auto. }
  crunch H.
  all: try (apply v1_sendPaymentRequired_status in H; destruct H as [Hs Hc];
            left; split; [reflexivity|]; split; [exact Hs|]; intros Hfresh;
            exists StatusPaymentRequired; auto; fail).
  all: injection H as <-.
  all: try (left; split; [reflexivity|]; split; [reflexivity|];
            intros Hfresh; eexists;
            split; [now apply v1_sendError_status | auto]; fail).
  all: right; right; split; [reflexivity|];
    eexists _, _, _, _; split; [reflexivity|];
    (split;
     [ eexists; repeat split; eauto;
       now destruct (VerificationResult.Valid _) |]);
    split; [reflexivity|]; split; [reflexivity|];
    intros responseJSON Hjson;
    match goal with
    | Hm : json_Marshal lib _ = _ |- _ =>
        lazymatch Hm with
        | Hjson => fail
        | _ => rewrite Hm in Hjson
        end
    end;
    first
      [ discriminate Hjson
      | injection Hjson as <-;
        unfold on_writer, SetHeader, Header_Get, Header_Set;
        cbn [writer RespHeader]; now rewrite lookup_insert_eq ].
Qed.

Lemma v1_grpc_refusal now (rule : option PricingRule.t) fullMethod
  (cfg : Config) reason err :
  GrpcV1.sendPaymentRequiredWithReason lib now rule fullMethod cfg reason
  = Done err ->
  Props.V1.refusal err.
Proof.
  unfold GrpcV1.sendPaymentRequiredWithReason,
    GrpcV1.BuildPaymentRequirements.
  intros H. crunch H; injection H as <-; eexists _, _; split; eauto.
Qed.

(** X10.  The unary and the stream interceptor of the root package call
    the wrapped handler in two cases only: the method requires no
    payment, and the handler gets the context as it came; or the first
    [x402-payment] value decodes, the verifier finds the payment valid
    and settles it, and the handler gets the context with the payment.
    What the handler returns is returned, and the receipt trailer is set
    only when the handler returned no error.  In every other case the
    handler is not called, no trailer is set, and the call is refused
    with RESOURCE_EXHAUSTED, INVALID_ARGUMENT, INTERNAL or
    UNAVAILABLE. *)
Theorem X10_v1_grpc_handler_runs_only_when_settled (cfg : Config)
  (order : list (string * PricingRule.t)) (now : Time) (ctx : Context)
  (fullMethod : string) (t t' : Trace) :
  let requiresPayment :=
    snd (MatchMethod (path_Match lib) cfg order fullMethod) in
  let settled (P : Context -> SettlementResult.t -> Prop) :=
    exists md value rest payment verifyResult settlementResult,
      FromIncomingContext ctx = Some md
      /\ MD_Get md GrpcV1.MetadataKeyPayment = value :: rest
      /\ GrpcV1.DecodePayment lib value = Ok payment
      /\ Props.V1.settles cfg ctx payment verifyResult settlementResult
      /\ P (Props.V1.paid_context ctx verifyResult payment settlementResult)
           settlementResult in
  (forall (req : Any) (handler : UnaryHandler) result,
     GrpcV1.UnaryIntercept lib cfg order now ctx req fullMethod handler t
     = Done (result, t') ->
     (requiresPayment = true /\ t' = t
      /\ exists err, result = Err err /\ Props.V1.refusal err)
     \/ (requiresPayment = false
         /\ result = handler ctx req /\ t' = log_handled ctx t)
     \/ (requiresPayment = true
         /\ settled (fun ctx' settlementResult =>
               result = handler ctx' req
               /\ t' = match result with
                       | Ok _ =>
                           GrpcV1.setPaymentTrailer lib settlementResult
                             (log_handled ctx' t)
                       | Err _ => log_handled ctx' t
                       end)))
  /\ (forall (srv : Any) (handler : StreamHandler) result,
        GrpcV1.StreamIntercept lib cfg order now srv ctx fullMethod handler t
        = Done (result, t') ->
        (requiresPayment = true /\ t' = t
         /\ exists err, result = Some err /\ Props.V1.refusal err)
        \/ (requiresPayment = false
            /\ result = handler srv ctx /\ t' = log_handled ctx t)
        \/ (requiresPayment = true
            /\ settled (fun ctx' settlementResult =>
                  result = handler srv ctx'
                  /\ t' = match result with
                          | None =>
                              GrpcV1.setPaymentTrailer lib settlementResult
                                (log_handled ctx' t)
                          | Some _ => log_handled ctx' t
                          end))).
Proof.
  cbv zeta. split.
  - intros req handler result H. unfold GrpcV1.UnaryIntercept in H.
    destruct (MatchMethod _ cfg order fullMethod) as [rule [|]];
      cbn [negb snd] in *.
    2: { injection H as <- <-. right; left. auto. }
    unfold GrpcV1.sendPaymentRequired in H.
    crunch H; injection H as <- <-.
    all: try (left; split; [reflexivity|]; split; [reflexivity|];
              eexists; split; [reflexivity|];
              first
                [ eapply v1_grpc_refusal; eassumption
                | eexists _, _; split; [reflexivity | auto] ]; fail).
    all: right; right; split; [reflexivity|];
      eexists _, _, _, _, _, _; split; [reflexivity|];
      split; [eassumption|]; split; [eassumption|];
      (split;
       [ eexists; repeat split; eauto;
         now destruct (VerificationResult.Valid _) |]);
      unfold Props.V1.paid_context;
      split; [symmetry; eassumption | reflexivity].
  - intros srv handler result H. unfold GrpcV1.StreamIntercept in H.
    destruct (MatchMethod _ cfg order fullMethod) as [rule [|]];
      cbn [negb snd] in *.
    2: { injection H as <- <-. right; left. auto. }
    unfold GrpcV1.sendPaymentRequired in H.
    crunch H; injection H as <- <-.
    all: try (left; split; [reflexivity|]; split; [reflexivity|];
              eexists; split; [reflexivity|];
              first
                [ eapply v1_grpc_refusal; eassumption
                | eexists _, _; split; [reflexivity | auto] ]; fail).
    all: right; right; split; [reflexivity|];
      eexists _, _, _, _, _, _; split; [reflexivity|];
      split; [eassumption|]; split; [eassumption|];
      (split;
       [ eexists; repeat split; eauto;
         now destruct (VerificationResult.Valid _) |]);
      unfold Props.V1.paid_context;
      split; [symmetry; eassumption | reflexivity].
Qed.

End GateV1.

Section GateV1Runs.
Import Testdata Fixtures.

(** [TestPaymentMiddleware_ValidPayment]: the handler is called once, on
    a writer that carries the receipt. *)
Lemma X9_witness :
  exists w' wr r',
    V1.ServePayment Root.lib Root.config
      (map_to_list (EndpointPricing Root.config)) Root.now okHandler
      recorder Root.paidRequest = Done w'
    /\ served w' = [(wr, r')]
    /\ Header_Get (RespHeader wr) "X-PAYMENT-RESPONSE"
       = EncodeToString (print (Root.response_doc Root.receipt)).
Proof.
  destruct (V1.ServePayment Root.lib Root.config
              (map_to_list (EndpointPricing Root.config)) Root.now
              okHandler recorder Root.paidRequest) as [w'|msg] eqn:E.
  2: { vm_compute in E. discriminate E. }
  destruct (X9_v1_http_handler_runs_only_when_settled _ _ _ _ _ _ _ _ E)
    as [(_ & Hs & _)
       | [(Hf & _)
         | (_ & payment & vr & sr & wr & _ & Hset & -> & Hsw & Hrec)]].
  - vm_compute in E. injection E as <-. vm_compute in Hs. discriminate Hs.
  - vm_compute in Hf. discriminate Hf.
  - eexists _, (writer wr), _. split; [reflexivity|]. split.
    + unfold ServeHTTP. cbn [served]. rewrite Hsw. reflexivity.
    + destruct Hset as (verifier & Hv & _ & _ & Hsettle).
      injection Hv as <-. injection Hsettle as <-.
      apply Hrec. vm_compute. reflexivity.
Defined.

(** The same payment on a unary call: the handler is called once, on
    the context with the payment. *)
Lemma X10_witness :
  exists result t',
    GrpcV1.UnaryIntercept Root.lib Root.config
      (map_to_list (MethodPricing Root.config)) Root.now Root.paidCall
      (AnyString "request") paidMethod okUnary no_trace = Done (result, t')
    /\ exists payment,
         handled t'
         = [Props.V1.paid_context Root.paidCall Root.verification payment
              Root.settlement].
Proof.
  destruct (GrpcV1.UnaryIntercept Root.lib Root.config
              (map_to_list (MethodPricing Root.config)) Root.now
              Root.paidCall (AnyString "request") paidMethod okUnary
              no_trace) as [[result t']|msg] eqn:E.
  2: { vm_compute in E. discriminate E. }
  destruct (X10_v1_grpc_handler_runs_only_when_settled Root.lib Root.config
              (map_to_list (MethodPricing Root.config)) Root.now
              Root.paidCall paidMethod no_trace t') as [Hunary _].
  destruct (Hunary _ _ _ E)
    as [(_ & Ht & _)
       | [(Hf & _)
         | (_ & md & value & rest & payment & vr & sr & _ & _ & _ & Hset
            & Hres & Ht)]].
  - vm_compute in E. injection E as <- <-. vm_compute in Ht.
    discriminate Ht.
  - vm_compute in Hf. discriminate Hf.
  - exists result, t'. split; [reflexivity|]. exists payment.
    destruct Hset as (verifier & Hv & Hver & _ & Hsettle).
    injection Hv as <-. injection Hver as <-. injection Hsettle as <-.
    rewrite Ht. destruct result; [|reflexivity].
    apply v1_setPaymentTrailer_handled.
Defined.

End GateV1Runs.

(** * A rejected payment is answered as a missing one *)

Section Rejected.

Lemma Header_Get_without (key key' : string) (r : Request) :
  Header_Get (ReqHeader (Props.without_header key r)) key'
  = if decide (CanonicalMIMEHeaderKey key = CanonicalMIMEHeaderKey key')
    then EmptyString
    else Header_Get (ReqHeader r) key'.
Proof.
  unfold Header_Get, Props.without_header. cbn [ReqHeader].
  destruct (decide _) as [-> | Hne].
  - now rewrite lookup_delete_eq.
  - now rewrite lookup_delete_ne.
Qed.

Lemma MD_Get_without (key key' : string) (md : MD) :
  MD_Get (delete (ToLower key) md) key'
  = if decide (ToLower key = ToLower key') then [] else MD_Get md key'.
Proof.
  unfold MD_Get. destruct (decide _) as [-> | Hne].
  - now rewrite lookup_delete_eq.
  - now rewrite lookup_delete_ne.
Qed.

Lemma v2_sendPaymentRequired_without lib key (w : World) (r : Request)
  rule (cfg : V2.Config) :
  CanonicalMIMEHeaderKey key <> CanonicalMIMEHeaderKey "User-Agent" ->
  V2.sendPaymentRequired lib w (Props.without_header key r) rule cfg
  = V2.sendPaymentRequired lib w r rule cfg.
Proof.
  intros Hne. unfold V2.sendPaymentRequired, V2.isBrowserRequest.
  rewrite Header_Get_without. now destruct (decide _).
Qed.

Lemma v1_sendPaymentRequired_without lib now key (w : World) (r : Request)
  rule (cfg : V1.Config) :
  CanonicalMIMEHeaderKey key <> CanonicalMIMEHeaderKey "User-Agent" ->
  V1.sendPaymentRequired lib now w (Props.without_header key r) rule cfg
  = V1.sendPaymentRequired lib now w r rule cfg.
Proof.
  intros Hne. unfold V1.sendPaymentRequired, V1.isBrowserRequest.
  rewrite Header_Get_without. now destruct (decide _).
Qed.

(** X11.  In the HTTP middleware of package [v2], a request whose
    credential the verifier rejects is answered exactly as the same
    request without its [PAYMENT-SIGNATURE] and [X-PAYMENT] headers: the
    reason that the verifier gives does not reach the response. *)
Theorem X11_v2_http_rejected_as_missing (lib : V2.Lib) (cfg : V2.Config)
  (order : list (string * V2.PricingRule.t)) (next : Handler) (w : World)
  (r : Request) (rule : option V2.PricingRule.t) :
  MatchEndpoint (V2.path_Match lib) cfg order (URL_Path r) = (rule, true) ->
  Protocol.HTTPFails lib cfg rule r Protocol.VerifierRejected ->
  V2.ServePayment lib cfg order next w r
  = V2.ServePayment lib cfg order next w
      (Props.without_header V2.HeaderLegacyPayment
         (Props.without_header V2.HeaderPaymentSignature r)).
Proof.
  intros Hmatch Hfail.
  assert (Hmissing :
            V2.ServePayment lib cfg order next w
              (Props.without_header V2.HeaderLegacyPayment
                 (Props.without_header V2.HeaderPaymentSignature r))
            = V2.sendPaymentRequired lib w r rule cfg).
  { unfold V2.ServePayment. cbn [URL_Path Props.without_header].
    rewrite Hmatch. cbn [negb]. unfold V2.detectPaymentHeader.
    rewrite !Header_Get_without.
    change (Props.without_header V2.HeaderPaymentSignature r)
      with (Props.without_header "PAYMENT-SIGNATURE" r).
    destruct (decide (CanonicalMIMEHeaderKey V2.HeaderLegacyPayment
                      = CanonicalMIMEHeaderKey V2.HeaderPaymentSignature))
      as [Hc | _]; [vm_compute in Hc; discriminate Hc|].
    destruct (decide (CanonicalMIMEHeaderKey V2.HeaderPaymentSignature
                      = CanonicalMIMEHeaderKey V2.HeaderPaymentSignature))
      as [_ | Hc]; [|contradiction].
    destruct (decide (CanonicalMIMEHeaderKey V2.HeaderLegacyPayment
                      = CanonicalMIMEHeaderKey V2.HeaderLegacyPayment))
      as [_ | Hc]; [|contradiction].
    cbn [String.eqb].
    rewrite !v2_sendPaymentRequired_without;
      [reflexivity | vm_compute; discriminate ..]. }
  rewrite Hmissing. unfold V2.ServePayment. rewrite Hmatch. cbn [negb].
  inversion Hfail as
    [ | | requirements payload verifier verifyResult Hsome Hbuild Hparse
          Hver Hverify Hvalid | | ].
  unfold Protocol.parseHeader in Hparse.
  destruct (V2.detectPaymentHeader r) as [hdr isV2]. cbn [fst] in *.
  apply String.eqb_neq in Hsome. rewrite Hsome, Hbuild. cbn [bind].
  rewrite Hparse, Hver. cbn [deref bind]. rewrite Hverify, Hvalid.
  reflexivity.
Qed.

(** X12.  In the middleware and in the two interceptors of the root
    package, a request whose payment the verifier rejects is answered
    exactly as the same request without its payment: the HTTP response
    is that of the request without the [X-PAYMENT] header, and the
    status returned to the gRPC caller is that of the call without the
    [x402-payment] metadata.  The reason of the verifier is dropped. *)
Theorem X12_v1_rejected_as_missing (lib : V1.Lib) (cfg : V1.Config)
  (order : list (string * V1.PricingRule.t)) (now : Time)
  (rule : option V1.PricingRule.t) (payment : V1.Payment.t)
  (verifier : V1.ChainVerifier.t) (verifyResult : V1.VerificationResult.t) :
  Verifier cfg = Some verifier ->
  V1.VerificationResult.Valid verifyResult = false ->
  (forall (next : Handler) (w : World) (r : Request),
     MatchEndpoint (V1.path_Match lib) cfg order (URL_Path r)
     = (rule, true) ->
     Header_Get (ReqHeader r) "X-PAYMENT" <> EmptyString ->
     V1.parsePayment lib (Header_Get (ReqHeader r) "X-PAYMENT")
     = Ok payment ->
     V1.ChainVerifier.Verify verifier (ReqContext r) payment
     = Ok verifyResult ->
     V1.ServePayment lib cfg order now next w r
     = V1.ServePayment lib cfg order now next w
         (Props.without_header "X-PAYMENT" r))
  /\ (forall (ctx : Context) (fullMethod : string) (t : Trace) md value rest,
        MatchMethod (V1.path_Match lib) cfg order fullMethod
        = (rule, true) ->
        FromIncomingContext ctx = Some md ->
        MD_Get md GrpcV1.MetadataKeyPayment = value :: rest ->
        GrpcV1.DecodePayment lib value = Ok payment ->
        V1.ChainVerifier.Verify verifier ctx payment = Ok verifyResult ->
        (forall (req : Any) (handler : UnaryHandler),
           GrpcV1.UnaryIntercept lib cfg order now ctx req fullMethod
             handler t
           = GrpcV1.UnaryIntercept lib cfg order now
               (Props.without_metadata GrpcV1.MetadataKeyPayment ctx) req
               fullMethod handler t)
        /\ (forall (srv : Any) (handler : StreamHandler),
              GrpcV1.StreamIntercept lib cfg order now srv ctx fullMethod
                handler t
              = GrpcV1.StreamIntercept lib cfg order now srv
                  (Props.without_metadata GrpcV1.MetadataKeyPayment ctx)
                  fullMethod handler t)).
Proof.
  intros Hver Hvalid. split.
  - intros next w r Hmatch Hsome Hparse Hverify.
    unfold V1.ServePayment. cbn [URL_Path Props.without_header].
    rewrite Hmatch. cbn [negb].
    change {| URL_Path := URL_Path r;
              ReqHeader := delete (CanonicalMIMEHeaderKey "X-PAYMENT")
                             (ReqHeader r);
              ReqContext := ReqContext r |}
      with (Props.without_header "X-PAYMENT" r).
    rewrite Header_Get_without.
    destruct (decide _) as [_ | Hc]; [|contradiction].
    cbn [String.eqb]. apply String.eqb_neq in Hsome.
    rewrite Hsome, Hparse, Hver. cbn [deref bind].
    rewrite Hverify, Hvalid. cbn [negb].
    rewrite v1_sendPaymentRequired_without;
      [reflexivity | vm_compute; discriminate].
  - intros ctx fullMethod t md value rest Hmatch Hmd Hget Hdecode Hverify.
    assert (Hmd' : FromIncomingContext
                     (Props.without_metadata GrpcV1.MetadataKeyPayment ctx)
                   = Some (delete (ToLower GrpcV1.MetadataKeyPayment) md)).
    { unfold FromIncomingContext, Props.without_metadata in *.
      cbn [incomingMD]. now rewrite Hmd. }
    assert (Hget' : MD_Get (delete (ToLower GrpcV1.MetadataKeyPayment) md)
                      GrpcV1.MetadataKeyPayment = []).
    { rewrite MD_Get_without. now destruct (decide _). }
    split.
    + intros req handler. unfold GrpcV1.UnaryIntercept.
      rewrite Hmatch, Hmd, Hmd', Hget, Hget', Hdecode, Hver.
      cbn [negb deref bind]. rewrite Hverify, Hvalid. reflexivity.
    + intros srv handler. unfold GrpcV1.StreamIntercept.
      rewrite Hmatch, Hmd, Hmd', Hget, Hget', Hdecode, Hver.
      cbn [negb deref bind]. rewrite Hverify, Hvalid. reflexivity.
Qed.

End Rejected.

Section RejectedRuns.
Import Testdata Fixtures.

Lemma X11_witness :
  V2.ServePayment lib rejectingConfig endpointOrder okHandler recorder
    v2Request
  = V2.ServePayment lib rejectingConfig endpointOrder okHandler recorder
      (Props.without_header V2.HeaderLegacyPayment
         (Props.without_header V2.HeaderPaymentSignature v2Request)).
Proof.
  apply (X11_v2_http_rejected_as_missing lib rejectingConfig endpointOrder
           okHandler recorder v2Request (Some paidRule)).
  - vm_compute. reflexivity.
  - eapply (Protocol.http_verifier_rejected lib rejectingConfig
              (Some paidRule) v2Request (Some paidRequirements) v2Payload
              RejectingVerifier).
    + vm_compute. discriminate.
    + vm_compute. reflexivity.
    + vm_compute. reflexivity.
    + reflexivity.
    + reflexivity.
    + reflexivity.
Defined.

Lemma X12_witness :
  V1.ServePayment Root.lib Root.rejectingConfig
    (map_to_list (EndpointPricing Root.rejectingConfig)) Root.now okHandler
    recorder Root.paidRequest
  = V1.ServePayment Root.lib Root.rejectingConfig
      (map_to_list (EndpointPricing Root.rejectingConfig)) Root.now
      okHandler recorder (Props.without_header "X-PAYMENT" Root.paidRequest).
Proof.
  destruct (X12_v1_rejected_as_missing Root.lib Root.rejectingConfig
              (map_to_list (EndpointPricing Root.rejectingConfig)) Root.now
              (Some (Root.rule "1.00")) Root.payment Root.rejecting
              {| V1.VerificationResult.Valid := false;
                 V1.VerificationResult.Reason := "insufficient balance";
                 V1.VerificationResult.PayerAddress := "";
                 V1.VerificationResult.Amount := "";
                 V1.VerificationResult.TokenSymbol := "" |}
              eq_refl eq_refl) as [Hhttp _].
  apply Hhttp.
  - vm_compute. reflexivity.
  - vm_compute. discriminate.
  - vm_compute. reflexivity.
  - reflexivity.
Defined.

End RejectedRuns.

(** * Credentials and receipts between client and server *)

Section CodecV2.
Import V2.
Variable lib : Lib.

(** X13.  In package [v2], a credential that [EncodePaymentPayload]
    encodes is decoded to the same payload by [parsePaymentPayload]
    exactly when its version is at least 2 and its payload is not nil,
    and by [DecodePaymentPayload] of the gRPC package exactly when its
    payload is not nil; otherwise the decoders reject what the encoder
    produced.  The gRPC encoder produces the same text as the HTTP one.
    The library is assumed to decode what it encoded. *)
Theorem X13_v2_credential_round_trip (payload : PaymentPayload.t)
  (header : string) :
  EncodePaymentPayload lib payload = Ok header ->
  Props.V2.decodes lib (json_Unmarshal_PaymentPayload lib)
    (MarshalPaymentPayload payload) payload ->
  (parsePaymentPayload lib header = Ok payload
   <-> 2 <= PaymentPayload.X402Version payload
       /\ isNil (PaymentPayload.Payload payload) = false)
  /\ (GrpcV2.DecodePaymentPayload lib header = Ok payload
      <-> isNil (PaymentPayload.Payload payload) = false)
  /\ Client.V2.grpc_EncodePaymentPayload lib payload = Ok header.
Proof.
  unfold EncodePaymentPayload, Client.V2.grpc_EncodePaymentPayload.
  intros Henc Hlib.
  destruct (json_Marshal lib (MarshalPaymentPayload payload))
    as [json|err] eqn:Hjson; [|discriminate].
  injection Henc as <-. destruct (Hlib json Hjson) as [Hb64 Hun].
  unfold parsePaymentPayload, GrpcV2.DecodePaymentPayload.
  rewrite Hb64, Hun. split; [|split; [|reflexivity]].
  - destruct (Z.ltb_spec (PaymentPayload.X402Version payload) 2).
    + split; [discriminate | intros [? _]; lia].
    + destruct (isNil (PaymentPayload.Payload payload)).
      * split; [discriminate | intros [_ ?]; discriminate].
      * split; auto.
  - destruct (isNil (PaymentPayload.Payload payload)).
    + split; discriminate.
    + split; auto.
Qed.

End CodecV2.

Section CodecV1.
Import V1.
Variable lib : Lib.

(** X14.  In the root package, a payment that [EncodePayment] encodes
    is decoded to the same payment by [parsePayment], and by
    [DecodePayment] and [ExtractPaymentFromMetadata] of the gRPC
    package, exactly when its version is not 0, its scheme and its
    network are not empty and its payload is not nil; otherwise the
    decoders reject what the encoder produced.  The library is assumed
    to decode what it encoded. *)
Theorem X14_v1_payment_round_trip (payment : Payment.t) (header : string) :
  Client.V1.EncodePayment lib payment = Ok header ->
  Props.V1.decodes lib (json_Unmarshal_Payment lib)
    (MarshalPayment payment) payment ->
  let accepted :=
    Payment.X402Version payment <> 0
    /\ Payment.Scheme payment <> ""
    /\ Payment.Network payment <> ""
    /\ isNil (Payment.Payload payment) = false in
  (parsePayment lib header = Ok payment <-> accepted)
  /\ (GrpcV1.DecodePayment lib header = Ok payment <-> accepted)
  /\ (Client.V1.ExtractPaymentFromMetadata lib
        (Pairs GrpcV1.MetadataKeyPayment header) = Ok payment
      <-> accepted)
  /\ Client.V1.grpc_EncodePayment lib payment = Ok header.
Proof.
  unfold Client.V1.EncodePayment, Client.V1.grpc_EncodePayment.
  intros Henc Hlib.
  destruct (json_Marshal lib (MarshalPayment payment))
    as [json|err] eqn:Hjson; [|discriminate].
  injection Henc as <-. destruct (Hlib json Hjson) as [Hb64 Hun].
  assert (Hget : MD_Get (Pairs GrpcV1.MetadataKeyPayment
                           (base64_EncodeToString lib json))
                   GrpcV1.MetadataKeyPayment
                 = [base64_EncodeToString lib json]).
  { unfold MD_Get, Pairs. now rewrite lookup_singleton_eq. }
  unfold Client.V1.ExtractPaymentFromMetadata. rewrite Hget.
  unfold parsePayment, GrpcV1.DecodePayment.
  rewrite Hb64, Hun. cbv zeta.
  destruct (Z.eqb_spec (Payment.X402Version payment) 0);
    [repeat split; try discriminate; intros (? & _); contradiction|].
  destruct (String.eqb_spec (Payment.Scheme payment) "");
    [repeat split; try discriminate; intros (_ & ? & _); contradiction|].
  destruct (String.eqb_spec (Payment.Network payment) "");
    [repeat split; try discriminate; intros (_ & _ & ? & _);
     contradiction|].
  destruct (isNil (Payment.Payload payment));
    [repeat split; try discriminate; intros (_ & _ & _ & ?);
     discriminate|].
  repeat split; auto.
Qed.

End CodecV1.

Section OfferV2.
Import V2.
Variable lib : Lib.
Variable unmarshal : string -> Result PaymentRequiredResponse.t.


Lemma received_after_Write (bytes : string) (w : ResponseWriter) code header :
  Sent w = Some (code, header) ->
  Client.received (Write bytes w)
  = {| Client.StatusCode := code; Client.Header := header;
       Client.Body := Ok (Body w ++ bytes) |}.
Proof.
  intros H. unfold Client.received, Write, WriteHeader. rewrite H.
  cbn [Sent Body]. now rewrite H.
Qed.


End OfferV2.

Section ReceiptV2.
Import V2 Protocol.
Variable lib : Lib.

(** X16.  In package [v2], the receipt that a settled request gets
    decodes, with [DecodePaymentResponse], to the facts of the
    settlement: success, the transaction hash, the network and the
    payer.  On HTTP it is the header under the response key of the
    version of the credential, present when the wrapped handler is
    called; on a unary gRPC call it is the one trailer set after the
    handler has returned without error.  The library is assumed to
    encode the receipt and to decode what it encoded. *)
Theorem X16_v2_receipt_round_trip (cfg : Config)
  (order : list (string * PricingRule.t)) (rule : option PricingRule.t)
  (requirements : PaymentRequirements.t)
  (verifyResult : VerificationResult.t)
  (settlementResult : SettlementResult.t) (json : string) :
  let receipt := {|
    PaymentResponse.Success := true;
    PaymentResponse.Transaction :=
      SettlementResult.TransactionHash settlementResult;
    PaymentResponse.Network := SettlementResult.Network settlementResult;
    PaymentResponse.Payer := SettlementResult.PayerAddress settlementResult;
    PaymentResponse.ErrorReason := "" |} in
  json_Marshal lib (MarshalPaymentResponse receipt) = Ok json ->
  Props.V2.decodes lib (json_Unmarshal_PaymentResponse lib)
    (MarshalPaymentResponse receipt) receipt ->
  (forall (next : Handler) (w : World) (r : Request),
     MatchEndpoint (path_Match lib) cfg order (URL_Path r) = (rule, true) ->
     HTTPSettles lib cfg rule r requirements verifyResult settlementResult ->
     exists wr r',
       ServePayment lib cfg order next w r = Done (ServeHTTP next wr r')
       /\ DecodePaymentResponse lib
            (Header_Get (RespHeader (writer wr))
               (http_response_key (snd (detectPaymentHeader r))))
          = Ok receipt)
  /\ (forall (ctx : Context) (req : Any) fullMethod (handler : UnaryHandler)
             (t : Trace) isV2 resp,
        MatchMethod (path_Match lib) cfg order fullMethod = (rule, true) ->
        GRPCSettles lib cfg rule ctx fullMethod isV2 requirements
          verifyResult settlementResult ->
        handler (withPayment ctx requirements verifyResult settlementResult)
          req = Ok resp ->
        exists t' encoded,
          GrpcV2.UnaryIntercept lib cfg order ctx req fullMethod handler t
          = Done (Ok resp, t')
          /\ trailers t'
             = (trailers t ++ [Pairs (grpc_response_key isV2) encoded])%list
          /\ Client.V2.grpc_DecodePaymentResponse lib encoded = Ok receipt).
Proof.
  intros receipt Hjson Hlib. destruct (Hlib json Hjson) as [Hb64 Hun].
  split.
  - intros next w r Hmatch Hsettles.
    rewrite (http_settled lib cfg order next w r rule requirements
               verifyResult settlementResult Hmatch Hsettles).
    eexists _, _. split; [reflexivity|].
    destruct (withReceipt_headers lib (snd (detectPaymentHeader r))
                settlementResult w) as [Hheader _].
    rewrite (Hheader (base64_EncodeToString lib json)).
    + unfold DecodePaymentResponse. now rewrite Hb64, Hun.
    + unfold httpReceipt. fold receipt. now rewrite Hjson.
  - intros ctx req fullMethod handler t isV2 resp Hmatch Hsettles Hresp.
    pose proof (unary_settled lib cfg order ctx req fullMethod handler t
                  rule isV2 requirements verifyResult settlementResult
                  Hmatch Hsettles) as Hrun.
    cbv zeta in Hrun. rewrite Hresp in Hrun.
    eexists _, (base64_EncodeToString lib json).
    split; [exact Hrun|]. split.
    + rewrite setPaymentTrailer_trailers. cbn [trailers log_handled].
      unfold receiptTrailers, GrpcV2.EncodePaymentResponse,
        GrpcV2.paymentResponse.
      fold receipt. now rewrite Hjson.
    + unfold Client.V2.grpc_DecodePaymentResponse. now rewrite Hb64, Hun.
Qed.

End ReceiptV2.

Section ReceiptV1.
Import V1.
Variable lib : Lib.

(** X17.  In the root package, the receipt that a settled request gets
    decodes, with [DecodePaymentResponse], to the transaction hash and
    the status of the settlement.  On HTTP it is the
    [X-PAYMENT-RESPONSE] header, present when the wrapped handler is
    called; on a unary gRPC call it is the one
    [x402-payment-response] trailer set after the handler has returned
    without error.  The library is assumed to encode the receipt and to
    decode what it encoded. *)
Theorem X17_v1_receipt_round_trip (cfg : Config)
  (order : list (string * PricingRule.t)) (now : Time)
  (rule : option PricingRule.t) (payment : Payment.t)
  (verifyResult : VerificationResult.t)
  (settlementResult : SettlementResult.t) (json : string) :
  let receipt := {|
    PaymentResponse.TransactionHash :=
      SettlementResult.TransactionHash settlementResult;
    PaymentResponse.Status := SettlementResult.Status settlementResult;
    PaymentResponse.Message := "" |} in
  json_Marshal lib (MarshalPaymentResponse receipt) = Ok json ->
  Props.V1.decodes lib (json_Unmarshal_PaymentResponse lib)
    (MarshalPaymentResponse receipt) receipt ->
  (forall (next : Handler) (w : World) (r : Request),
     MatchEndpoint (path_Match lib) cfg order (URL_Path r) = (rule, true) ->
     Header_Get (ReqHeader r) "X-PAYMENT" <> "" ->
     parsePayment lib (Header_Get (ReqHeader r) "X-PAYMENT") = Ok payment ->
     Props.V1.settles cfg (ReqContext r) payment verifyResult
       settlementResult ->
     exists wr r',
       ServePayment lib cfg order now next w r
       = Done (ServeHTTP next wr r')
       /\ Client.V1.DecodePaymentResponse lib
            (Header_Get (RespHeader (writer wr)) "X-PAYMENT-RESPONSE")
          = Ok receipt)
  /\ (forall (ctx : Context) (req : Any) fullMethod (handler : UnaryHandler)
             (t : Trace) md value rest resp,
        MatchMethod (path_Match lib) cfg order fullMethod = (rule, true) ->
        FromIncomingContext ctx = Some md ->
        MD_Get md GrpcV1.MetadataKeyPayment = value :: rest ->
        GrpcV1.DecodePayment lib value = Ok payment ->
        Props.V1.settles cfg ctx payment verifyResult settlementResult ->
        handler (Props.V1.paid_context ctx verifyResult payment
                   settlementResult) req = Ok resp ->
        exists t' encoded,
          GrpcV1.UnaryIntercept lib cfg order now ctx req fullMethod
            handler t = Done (Ok resp, t')
          /\ trailers t'
             = (trailers t
                ++ [Pairs GrpcV1.MetadataKeyPaymentResponse encoded])%list
          /\ Client.V1.grpc_DecodePaymentResponse lib encoded = Ok receipt).
Proof.
  intros receipt Hjson Hlib. destruct (Hlib json Hjson) as [Hb64 Hun].
  split.
  - intros next w r Hmatch Hsome Hparse
      (verifier & Hver & Hverify & Hvalid & Hsettle).
    unfold ServePayment. rewrite Hmatch. cbn [negb].
    apply String.eqb_neq in Hsome. rewrite Hsome, Hparse, Hver.
    cbn [deref bind]. rewrite Hverify, Hvalid. cbn [negb].
    rewrite Hsettle. unfold paymentResponse. fold receipt. rewrite Hjson.
    eexists _, _. split; [reflexivity|].
    unfold on_writer, SetHeader, Header_Get, Header_Set.
    cbn [writer RespHeader]. rewrite lookup_insert_eq.
    unfold Client.V1.DecodePaymentResponse. now rewrite Hb64, Hun.
  - intros ctx req fullMethod handler t md value rest resp Hmatch Hmd Hget
      Hdecode (verifier & Hver & Hverify & Hvalid & Hsettle) Hresp.
    unfold GrpcV1.UnaryIntercept. rewrite Hmatch, Hmd, Hget, Hdecode, Hver.
    cbn [negb deref bind]. rewrite Hverify, Hvalid. cbn [negb].
    rewrite Hsettle. unfold Props.V1.paid_context in Hresp. rewrite Hresp.
    eexists _, (base64_EncodeToString lib json).
    split; [reflexivity|]. split.
    + unfold GrpcV1.setPaymentTrailer, GrpcV1.EncodePaymentResponse,
        paymentResponse.
      fold receipt. rewrite Hjson. reflexivity.
    + unfold Client.V1.grpc_DecodePaymentResponse. now rewrite Hb64, Hun.
Qed.

End ReceiptV1.

Section CodecRuns.
Import Testdata Fixtures.

Lemma X13_witness :
  (V2.parsePaymentPayload lib v2PaymentHeader = Ok v2Payload
   <-> 2 <= V2.PaymentPayload.X402Version v2Payload
       /\ isNil (V2.PaymentPayload.Payload v2Payload) = false)
  /\ (GrpcV2.DecodePaymentPayload lib v2PaymentHeader = Ok v2Payload
      <-> isNil (V2.PaymentPayload.Payload v2Payload) = false)
  /\ Client.V2.grpc_EncodePaymentPayload lib v2Payload = Ok v2PaymentHeader.
Proof.
  apply (X13_v2_credential_round_trip lib v2Payload v2PaymentHeader).
  - reflexivity.
  - intros json [= <-]. split; vm_compute; reflexivity.
Defined.

Lemma X14_witness :
  V1.parsePayment Root.lib Root.xPayment = Ok Root.payment
  /\ GrpcV1.DecodePayment Root.lib Root.xPayment = Ok Root.payment.
Proof.
  destruct (X14_v1_payment_round_trip Root.lib Root.payment Root.xPayment)
    as (Hhttp & Hgrpc & _).
  - reflexivity.
  - intros json [= <-]. split; vm_compute; reflexivity.
  - split; [apply Hhttp | apply Hgrpc];
      (split; [discriminate|]; split; [discriminate|];
       split; [discriminate | reflexivity]).
Defined.


Lemma client_v2_settles :
  Protocol.HTTPSettles clientLib testConfig (Some paidRule) v2Request
    paidRequirements mockVerification mockSettlement.
Proof.
  split; [vm_compute; discriminate|]. split; [vm_compute; reflexivity|].
  eexists _, MockVerifier. repeat split; vm_compute; reflexivity.
Qed.

(** [TestPaymentMiddleware_V2Header_ValidPayment] and
    [TestDecodePaymentResponse]. *)
Lemma X16_witness :
  exists wr r',
    V2.ServePayment clientLib testConfig endpointOrder okHandler recorder
      v2Request = Done (ServeHTTP okHandler wr r')
    /\ V2.DecodePaymentResponse clientLib
         (Header_Get (RespHeader (writer wr)) V2.HeaderPaymentResponse)
       = Ok receipt.
Proof.
  destruct (X16_v2_receipt_round_trip clientLib testConfig endpointOrder
              (Some paidRule) paidRequirements mockVerification
              mockSettlement
              (json_of (V2.MarshalPaymentResponse receipt)))
    as [Hhttp _].
  - reflexivity.
  - intros json [= <-]. split; vm_compute; reflexivity.
  - apply (Hhttp okHandler recorder v2Request).
    + vm_compute. reflexivity.
    + exact client_v2_settles.
Defined.

Lemma X17_witness :
  exists wr r',
    V1.ServePayment Root.lib Root.config
      (map_to_list (EndpointPricing Root.config)) Root.now okHandler
      recorder Root.paidRequest = Done (ServeHTTP okHandler wr r')
    /\ Client.V1.DecodePaymentResponse Root.lib
         (Header_Get (RespHeader (writer wr)) "X-PAYMENT-RESPONSE")
       = Ok Root.receipt.
Proof.
  destruct (X17_v1_receipt_round_trip Root.lib Root.config
              (map_to_list (EndpointPricing Root.config)) Root.now
              (Some (Root.rule "1.00")) Root.payment Root.verification
              Root.settlement
              (print (Root.response_doc Root.receipt)))
    as [Hhttp _].
  - reflexivity.
  - intros json [= <-]. split; vm_compute; reflexivity.
  - apply (Hhttp okHandler recorder Root.paidRequest).
    + vm_compute. reflexivity.
    + vm_compute. discriminate.
    + vm_compute. reflexivity.
    + exists Root.verifier. repeat split; reflexivity.
Defined.

End CodecRuns.

(** * The EVM verifiers *)

Section EvmV2.
Import V2 Evm.
Variable lib : Evm.Lib.
Variable Network : Type.
Variable Do : HTTPRequest.t -> Network -> Result HTTPResponse.t * Network.

Local Abbreviation World := (Evm.World Network).

Lemma parseEVMPayload_complete (payload : Any) (evmPayload : EVMPayload.t) :
  parseEVMPayload lib payload = Ok evmPayload ->
  exists auth,
    EVMPayload.Authorization evmPayload = Some auth
    /\ Props.complete (EVMPayload.Signature evmPayload)
         (Authorization.From auth) (Authorization.To auth)
         (Authorization.Value auth) (Authorization.Nonce auth).
Proof.
  unfold parseEVMPayload, Props.complete. intros H.
  destruct (json_Marshal_any lib payload); [|discriminate].
  destruct (json_Unmarshal_EVMPayload lib _) as [p|]; [|discriminate].
  destruct (String.eqb_spec (EVMPayload.Signature p) ""); [discriminate|].
  destruct (EVMPayload.Authorization p) as [auth|] eqn:Hauth;
    [|discriminate].
  destruct (String.eqb_spec (Authorization.From auth) "");
    [discriminate|].
  destruct (String.eqb_spec (Authorization.To auth) ""); [discriminate|].
  destruct (String.eqb_spec (Authorization.Value auth) "");
    [discriminate|].
  destruct (String.eqb_spec (Authorization.Nonce auth) "");
    [discriminate|].
  cbn in H. injection H as <-. exists auth.
  split; [exact Hauth|]. repeat split; assumption.
Qed.

(** X18.  [EVMVerifier.Verify] of [v2/evm] never panics and sends at
    most one request, a POST of the payload and the requirements to
    [/v2/x402/verify] of the facilitator.  It reports a valid payment
    only when the facilitator answered that request with status 200 and
    [isValid] true; the payer and the amount that it reports are those
    that the credential itself declares.  A payload that lacks the
    signature, the authorization or one of its payer, recipient, value
    and nonce is reported as not valid without any request, and without
    an error. *)
Theorem X18_v2_evm_Verify (v : EVMVerifier) (ctx : Context)
  (payload : PaymentPayload.t)
  (requirements : option PaymentRequirements.t) (w : World) :
  let url := (baseURL (facilitator v) ++ "/v2/x402/verify")%string in
  exists result w',
    EVMVerifier_Verify lib Network Do v ctx payload requirements w
    = (Done result, w')
    /\ (w' = w
        \/ exists body,
             json_Marshal_request lib
               {| FacilitatorRequest.Payload := payload;
                  FacilitatorRequest.Requirements := requirements |}
             = Ok body
             /\ sent Network w'
                = (sent Network w ++ [Props.posted ctx url body])%list)
    /\ (forall verifyResult,
          result = Ok verifyResult ->
          VerificationResult.Valid verifyResult = true ->
          exists body resp verifyResp evmPayload auth,
            Do (Props.posted ctx url body) (network Network w)
            = (Ok resp, network Network w')
            /\ HTTPResponse.StatusCode resp = StatusOK
            /\ json_Decode_VerifyResponse lib resp = Ok verifyResp
            /\ FacilitatorVerifyResponse.IsValid verifyResp = true
            /\ parseEVMPayload lib (PaymentPayload.Payload payload)
               = Ok evmPayload
            /\ EVMPayload.Authorization evmPayload = Some auth
            /\ VerificationResult.PayerAddress verifyResult
               = Authorization.From auth
            /\ VerificationResult.Amount verifyResult
               = Authorization.Value auth)
    /\ (forall err,
          parseEVMPayload lib (PaymentPayload.Payload payload) = Err err ->
          w' = w
          /\ exists verifyResult,
               result = Ok verifyResult
               /\ VerificationResult.Valid verifyResult = false).
Proof.
  cbv zeta. unfold EVMVerifier_Verify.
  destruct (parseEVMPayload lib (PaymentPayload.Payload payload))
    as [evmPayload|err] eqn:Hparse.
  2: { unfold ret. eexists _, _. split; [reflexivity|].
       split; [now left|]. split.
       - intros vr [= <-]. discriminate.
       - intros e _. split; [reflexivity|]. eexists. split; reflexivity. }
  destruct (parseEVMPayload_complete _ _ Hparse) as (auth & Hauth & _).
  unfold FacilitatorClient_Verify, NewRequestWithContext, mbind, ret,
    httpClient_Do, authorization.
  destruct (json_Marshal_request lib _) as [body|] eqn:Hbody.
  2: { eexists _, _. split; [reflexivity|]. split; [now left|].
       split; [intros vr Hc; discriminate Hc | intros e0 Hc; discriminate Hc]. }
  destruct (url_error lib _) eqn:Hurl.
  { eexists _, _. split; [reflexivity|]. split; [now left|].
    split; [intros vr Hc; discriminate Hc | intros e0 Hc; discriminate Hc]. }
  change (Header_Set _ "Content-Type" "application/json")
    with (Props.posted ctx (baseURL (facilitator v) ++ "/v2/x402/verify")
            body).
  destruct (Do _ (network Network w)) as [[resp|err] network'] eqn:Hdo.
  2: { eexists _, _. split; [reflexivity|].
       split; [right; exists body; split; reflexivity|].
       split; [intros vr Hc; discriminate Hc | intros e0 Hc; discriminate Hc]. }
  destruct (Z.eqb_spec (HTTPResponse.StatusCode resp) StatusOK)
    as [Hstatus | Hstatus]; cbn [negb].
  2: { eexists _, _. split; [reflexivity|].
       split; [right; exists body; split; reflexivity|].
       split; [intros vr Hc; discriminate Hc | intros e0 Hc; discriminate Hc]. }
  destruct (json_Decode_VerifyResponse lib resp) as [verifyResp|] eqn:Hdec.
  2: { eexists _, _. split; [reflexivity|].
       split; [right; exists body; split; reflexivity|].
       split; [intros vr Hc; discriminate Hc | intros e0 Hc; discriminate Hc]. }
  rewrite Hauth. eexists _, _. split; [reflexivity|].
  split; [right; exists body; split; reflexivity|]. split.
  - intros vr [= <-] Hvalid. cbn in Hvalid.
    exists body, resp, verifyResp, evmPayload, auth.
    cbn [network]. repeat split; auto.
  - intros e0 Hc. discriminate Hc.
Qed.

(** X19.  [EVMVerifier.Settle] of [v2/evm] never panics and sends at
    most one request, a POST of the payload and the requirements to
    [/v2/x402/settle] of the facilitator; it does not verify.  It
    returns a settlement only when the facilitator answered that request
    with status 200 and [success] true: the status is then "success",
    the transaction and the network are those of the answer, the time is
    the current time, and the amount, the payer and the recipient are
    those that the credential itself declares.  A payload that is not
    complete is an error, without any request. *)
Theorem X19_v2_evm_Settle (now : Time) (v : EVMVerifier) (ctx : Context)
  (payload : PaymentPayload.t)
  (requirements : option PaymentRequirements.t) (w : World) :
  let url := (baseURL (facilitator v) ++ "/v2/x402/settle")%string in
  exists result w',
    EVMVerifier_Settle lib Network Do now v ctx payload requirements w
    = (Done result, w')
    /\ (w' = w
        \/ exists body,
             json_Marshal_request lib
               {| FacilitatorRequest.Payload := payload;
                  FacilitatorRequest.Requirements := requirements |}
             = Ok body
             /\ sent Network w'
                = (sent Network w ++ [Props.posted ctx url body])%list)
    /\ (forall settlementResult,
          result = Ok settlementResult ->
          exists body resp settleResp evmPayload auth,
            Do (Props.posted ctx url body) (network Network w)
            = (Ok resp, network Network w')
            /\ HTTPResponse.StatusCode resp = StatusOK
            /\ json_Decode_SettleResponse lib resp = Ok settleResp
            /\ FacilitatorSettleResponse.Success settleResp = true
            /\ parseEVMPayload lib (PaymentPayload.Payload payload)
               = Ok evmPayload
            /\ EVMPayload.Authorization evmPayload = Some auth
            /\ settlementResult = {|
                 SettlementResult.TransactionHash :=
                   FacilitatorSettleResponse.Transaction settleResp;
                 SettlementResult.Status := "success";
                 SettlementResult.SettledAt := now;
                 SettlementResult.Amount := Authorization.Value auth;
                 SettlementResult.PayerAddress := Authorization.From auth;
                 SettlementResult.RecipientAddress := Authorization.To auth;
                 SettlementResult.Network :=
                   FacilitatorSettleResponse.Network settleResp |})
    /\ (forall err,
          parseEVMPayload lib (PaymentPayload.Payload payload) = Err err ->
          w' = w /\ exists e, result = Err e).
Proof.
  cbv zeta. unfold EVMVerifier_Settle.
  destruct (parseEVMPayload lib (PaymentPayload.Payload payload))
    as [evmPayload|err] eqn:Hparse.
  2: { unfold ret. eexists _, _. split; [reflexivity|].
       split; [now left|]. split.
       - intros sr Hc. discriminate Hc.
       - intros e _. split; [reflexivity|]. eexists. reflexivity. }
  destruct (parseEVMPayload_complete _ _ Hparse) as (auth & Hauth & _).
  unfold FacilitatorClient_Settle, NewRequestWithContext, mbind, ret,
    httpClient_Do, authorization.
  destruct (json_Marshal_request lib _) as [body|] eqn:Hbody.
  2: { eexists _, _. split; [reflexivity|]. split; [now left|].
       split; [intros vr Hc; discriminate Hc | intros e0 Hc; discriminate Hc]. }
  destruct (url_error lib _) eqn:Hurl.
  { eexists _, _. split; [reflexivity|]. split; [now left|].
    split; [intros vr Hc; discriminate Hc | intros e0 Hc; discriminate Hc]. }
  change (Header_Set _ "Content-Type" "application/json")
    with (Props.posted ctx (baseURL (facilitator v) ++ "/v2/x402/settle")
            body).
  destruct (Do _ (network Network w)) as [[resp|err] network'] eqn:Hdo.
  2: { eexists _, _. split; [reflexivity|].
       split; [right; exists body; split; reflexivity|].
       split; [intros vr Hc; discriminate Hc | intros e0 Hc; discriminate Hc]. }
  destruct (Z.eqb_spec (HTTPResponse.StatusCode resp) StatusOK)
    as [Hstatus | Hstatus]; cbn [negb].
  2: { eexists _, _. split; [reflexivity|].
       split; [right; exists body; split; reflexivity|].
       split; [intros vr Hc; discriminate Hc | intros e0 Hc; discriminate Hc]. }
  destruct (json_Decode_SettleResponse lib resp) as [settleResp|] eqn:Hdec.
  2: { eexists _, _. split; [reflexivity|].
       split; [right; exists body; split; reflexivity|].
       split; [intros vr Hc; discriminate Hc | intros e0 Hc; discriminate Hc]. }
  destruct (FacilitatorSettleResponse.Success settleResp) eqn:Hsuccess;
    cbn [negb].
  2: { eexists _, _. split; [reflexivity|].
       split; [right; exists body; split; reflexivity|].
       split; [intros vr Hc; discriminate Hc | intros e0 Hc; discriminate Hc]. }
  rewrite Hauth. eexists _, _. split; [reflexivity|].
  split; [right; exists body; split; reflexivity|]. split.
  - intros sr [= <-].
    exists body, resp, settleResp, evmPayload, auth.
    cbn [network]. repeat split; auto.
  - intros e0 Hc. discriminate Hc.
Qed.

End EvmV2.

Section EvmRoot.
Import V1 EvmV1.
Variable lib : EvmV1.Lib.
Variable Facilitator : Type.
Variable facilitator_Verify :
Context -> FacilitatorRequest.t -> Facilitator ->
Result FacilitatorVerifyResponse.t * Facilitator.
Variable facilitator_Settle :
Context -> FacilitatorRequest.t -> Facilitator ->
Result FacilitatorSettleResponse.t * Facilitator.

Local Abbreviation World := (EvmV1.World Facilitator).
Local Abbreviation Verify :=
  (EVMVerifier_Verify lib Facilitator facilitator_Verify).
Local Abbreviation Settle :=
  (EVMVerifier_Settle lib Facilitator facilitator_Verify facilitator_Settle).

(** The document sent to the facilitator for a payment. *)
Local Abbreviation request_of payment :=
  {| FacilitatorRequest.X402Version := Payment.X402Version payment;
     FacilitatorRequest.Scheme := Payment.Scheme payment;
     FacilitatorRequest.Network := Payment.Network payment;
     FacilitatorRequest.Payload := Payment.Payload payment |}.

Lemma v1_parseEVMPayload_complete (payload : Any)
  (evmPayload : EVMPayload.t) :
  parseEVMPayload lib payload = Ok evmPayload ->
  exists auth,
    EVMPayload.Authorization evmPayload = Some auth
    /\ Props.complete (EVMPayload.Signature evmPayload)
         (Authorization.From auth) (Authorization.To auth)
         (Authorization.Value auth) (Authorization.Nonce auth).
Proof.
  unfold parseEVMPayload, Props.complete. intros H.
  destruct (json_Marshal_any lib payload); [|discriminate].
  destruct (json_Unmarshal_EVMPayload lib _) as [p|]; [|discriminate].
  destruct (String.eqb_spec (EVMPayload.Signature p) ""); [discriminate|].
  destruct (EVMPayload.Authorization p) as [auth|] eqn:Hauth;
    [|discriminate].
  destruct (String.eqb_spec (Authorization.From auth) "");
    [discriminate|].
  destruct (String.eqb_spec (Authorization.To auth) ""); [discriminate|].
  destruct (String.eqb_spec (Authorization.Value auth) "");
    [discriminate|].
  destruct (String.eqb_spec (Authorization.Nonce auth) "");
    [discriminate|].
  cbn in H. injection H as <-. exists auth.
  split; [exact Hauth|]. repeat split; assumption.
Qed.

(** What one run of [Verify] does, case by case. *)
Lemma v1_evm_Verify_cases (v : EVMVerifier) (ctx : Context)
  (payment : Payment.t) (w : World) :
  (exists verifyResult,
     Verify v ctx payment w = (Done (Ok verifyResult), w)
     /\ VerificationResult.Valid verifyResult = false
     /\ (Payment.X402Version payment <> 1
         \/ Payment.Scheme payment <> "exact"
         \/ exists err,
              parseEVMPayload lib (Payment.Payload payment) = Err err))
  \/ (Payment.X402Version payment = 1
      /\ Payment.Scheme payment = "exact"
      /\ exists evmPayload auth response state',
           parseEVMPayload lib (Payment.Payload payment) = Ok evmPayload
           /\ EVMPayload.Authorization evmPayload = Some auth
           /\ facilitator_Verify ctx (request_of payment)
                (state Facilitator w) = (response, state')
           /\ Verify v ctx payment w
              = (Done match response with
                      | Err err =>
                          Err (Errorf lib
                                 "facilitator verification failed: %w"
                                 [ArgError err])
                      | Ok verifyResp =>
                          Ok {|
                            VerificationResult.Valid :=
                              FacilitatorVerifyResponse.Valid verifyResp;
                            VerificationResult.Reason :=
                              FacilitatorVerifyResponse.Reason verifyResp;
                            VerificationResult.PayerAddress :=
                              Authorization.From auth;
                            VerificationResult.Amount :=
                              Authorization.Value auth;
                            VerificationResult.TokenSymbol := "" |}
                      end,
                 {| state := state';
                    calls := calls Facilitator w
                             ++ [CallVerify ctx (request_of payment)] |})).
Proof.
  unfold EVMVerifier_Verify.
  destruct (Z.eqb_spec (Payment.X402Version payment) 1) as [Hv | Hv];
    cbn [negb].
  2: { left. eexists. split; [reflexivity|]. split; [reflexivity|]. auto. }
  destruct (String.eqb_spec (Payment.Scheme payment) "exact") as [Hs | Hs];
    cbn [negb].
  2: { left. eexists. split; [reflexivity|]. split; [reflexivity|]. auto. }
  destruct (parseEVMPayload lib (Payment.Payload payment))
    as [evmPayload|err] eqn:Hparse.
  2: { left. eexists. split; [reflexivity|]. split; [reflexivity|].
       right; right. eauto. }
  right. split; [exact Hv|]. split; [exact Hs|].
  destruct (v1_parseEVMPayload_complete _ _ Hparse) as (auth & Hauth & _).
  destruct (facilitator_Verify ctx (request_of payment)
              (state Facilitator w)) as [response state'] eqn:Hcall.
  exists evmPayload, auth, response, state'.
  split; [reflexivity|]. split; [exact Hauth|]. split; [reflexivity|].
  unfold mbind, call_Verify, ret, authorization. rewrite Hcall.
  destruct response; [rewrite Hauth|]; reflexivity.
Qed.

(** X20.  [EVMVerifier.Verify] of the root module never panics and
    makes at most one call to the facilitator, a verification of the
    version, scheme, network and payload of the payment.  It reports a
    valid payment only for version 1 and scheme "exact", when the
    facilitator answered that call with valid; the payer and the amount
    that it reports are those that the payment itself declares.  A
    payment of another version or scheme, or whose payload is not
    complete, is reported as not valid without any call, and without
    an error. *)
Theorem X20_v1_evm_Verify (v : EVMVerifier) (ctx : Context)
  (payment : Payment.t) (w : World) :
  exists result w',
    Verify v ctx payment w = (Done result, w')
    /\ (w' = w
        \/ calls Facilitator w'
           = (calls Facilitator w
              ++ [CallVerify ctx (request_of payment)])%list)
    /\ (forall verifyResult,
          result = Ok verifyResult ->
          VerificationResult.Valid verifyResult = true ->
          Payment.X402Version payment = 1
          /\ Payment.Scheme payment = "exact"
          /\ exists verifyResp evmPayload auth,
               facilitator_Verify ctx (request_of payment)
                 (state Facilitator w)
               = (Ok verifyResp, state Facilitator w')
               /\ FacilitatorVerifyResponse.Valid verifyResp = true
               /\ parseEVMPayload lib (Payment.Payload payment)
                  = Ok evmPayload
               /\ EVMPayload.Authorization evmPayload = Some auth
               /\ VerificationResult.PayerAddress verifyResult
                  = Authorization.From auth
               /\ VerificationResult.Amount verifyResult
                  = Authorization.Value auth)
    /\ (Payment.X402Version payment <> 1
        \/ Payment.Scheme payment <> "exact"
        \/ (exists err,
              parseEVMPayload lib (Payment.Payload payment) = Err err) ->
        w' = w
        /\ exists verifyResult,
             result = Ok verifyResult
             /\ VerificationResult.Valid verifyResult = false).
Proof.
  destruct (v1_evm_Verify_cases v ctx payment w)
    as [(vr & Hrun & Hinvalid & Hwhy)
       | (Hv & Hs & evmPayload & auth & response & state' & Hparse & Hauth
          & Hcall & Hrun)].
  - exists (Ok vr), w. split; [exact Hrun|]. split; [now left|]. split.
    + intros vr' [= <-] Hvalid. congruence.
    + intros _. split; [reflexivity|]. eauto.
  - eexists _, _. split; [exact Hrun|]. split; [now right|]. split.
    + intros vr Hres Hvalid. split; [exact Hv|]. split; [exact Hs|].
      destruct response as [verifyResp|err]; [|discriminate Hres].
      injection Hres as <-. cbn in Hvalid.
      exists verifyResp, evmPayload, auth. cbn [state].
      repeat split; auto.
    + intros [Hc | [Hc | [err Hc]]]; congruence.
Qed.


End EvmRoot.

(** A facilitator that accepts: the verifier reports the payer and the
    amount of the credential after one request answered with 200; a
    credential that names no payer is refused without a request. *)
Lemma X18_witness :
  (exists body resp,
     Fixtures.Facilitator.Do
       (Props.posted Testdata.background
          "https://facilitator.test/v2/x402/verify" body) 0%nat
     = (Ok resp, 1%nat)
     /\ Evm.HTTPResponse.StatusCode resp = StatusOK
     /\ fst (Evm.EVMVerifier_Verify Fixtures.Facilitator.lib nat
               Fixtures.Facilitator.Do Fixtures.Facilitator.verifier
               Testdata.background Testdata.v2Payload
               (Some Testdata.v2Accepted) Fixtures.Facilitator.start)
        = Done (Ok {| V2.VerificationResult.Valid := true;
                      V2.VerificationResult.Reason := "";
                      V2.VerificationResult.PayerAddress := "0xPayer";
                      V2.VerificationResult.Amount := "1000000";
                      V2.VerificationResult.TokenSymbol := "" |}))
  /\ exists verifyResult,
       Evm.EVMVerifier_Verify Fixtures.Facilitator.lib nat
         Fixtures.Facilitator.Do Fixtures.Facilitator.verifier
         Testdata.background Fixtures.Facilitator.anonymousCredential
         (Some Testdata.v2Accepted) Fixtures.Facilitator.start
       = (Done (Ok verifyResult), Fixtures.Facilitator.start)
       /\ V2.VerificationResult.Valid verifyResult = false.
Proof.
  split.
  - destruct (X18_v2_evm_Verify Fixtures.Facilitator.lib nat
                Fixtures.Facilitator.Do Fixtures.Facilitator.verifier
                Testdata.background Testdata.v2Payload
                (Some Testdata.v2Accepted) Fixtures.Facilitator.start)
      as (result & w' & Hrun & _ & Hvalid & _).
    rewrite Hrun. cbn [fst].
    vm_compute in Hrun. injection Hrun as <- <-.
    destruct (Hvalid _ eq_refl eq_refl)
      as (body & resp & _ & _ & _ & Hdo & Hstatus & _).
    exists body, resp. split; [exact Hdo|]. split; [exact Hstatus|].
    reflexivity.
  - destruct (X18_v2_evm_Verify Fixtures.Facilitator.lib nat
                Fixtures.Facilitator.Do Fixtures.Facilitator.verifier
                Testdata.background Fixtures.Facilitator.anonymousCredential
                (Some Testdata.v2Accepted) Fixtures.Facilitator.start)
      as (result & w' & Hrun & _ & _ & Hparse).
    destruct (Hparse (errorString "authorization missing required fields")
                eq_refl)
      as (-> & verifyResult & -> & Hinvalid).
    exists verifyResult. split; [exact Hrun | exact Hinvalid].
Defined.

(** A facilitator that settles: the settlement names the transaction and
    the network of its answer and the parties of the credential; a
    credential that names no payer is refused without a request. *)
Lemma X19_witness :
  (exists body resp,
     Fixtures.Facilitator.Do
       (Props.posted Testdata.background
          "https://facilitator.test/v2/x402/settle" body) 0%nat
     = (Ok resp, 1%nat)
     /\ Evm.HTTPResponse.StatusCode resp = StatusOK
     /\ fst (Evm.EVMVerifier_Settle Fixtures.Facilitator.lib nat
               Fixtures.Facilitator.Do Fixtures.Root.now
               Fixtures.Facilitator.verifier
               Testdata.background Testdata.v2Payload
               (Some Testdata.v2Accepted) Fixtures.Facilitator.start)
        = Done (Ok {| V2.SettlementResult.TransactionHash := "0xabc123";
                      V2.SettlementResult.Status := "success";
                      V2.SettlementResult.SettledAt := Fixtures.Root.now;
                      V2.SettlementResult.Amount := "1000000";
                      V2.SettlementResult.PayerAddress := "0xPayer";
                      V2.SettlementResult.RecipientAddress := "0xRecipient";
                      V2.SettlementResult.Network := "eip155:84532" |}))
  /\ exists err,
       Evm.EVMVerifier_Settle Fixtures.Facilitator.lib nat
         Fixtures.Facilitator.Do Fixtures.Root.now
         Fixtures.Facilitator.verifier
         Testdata.background Fixtures.Facilitator.anonymousCredential
         (Some Testdata.v2Accepted) Fixtures.Facilitator.start
       = (Done (Err err), Fixtures.Facilitator.start).
Proof.
  split.
  - destruct (X19_v2_evm_Settle Fixtures.Facilitator.lib nat
                Fixtures.Facilitator.Do Fixtures.Root.now
                Fixtures.Facilitator.verifier
                Testdata.background Testdata.v2Payload
                (Some Testdata.v2Accepted) Fixtures.Facilitator.start)
      as (result & w' & Hrun & _ & Hsettled & _).
    rewrite Hrun. cbn [fst].
    vm_compute in Hrun. injection Hrun as <- <-.
    destruct (Hsettled _ eq_refl)
      as (body & resp & _ & _ & _ & Hdo & Hstatus & _).
    exists body, resp. split; [exact Hdo|]. split; [exact Hstatus|].
    reflexivity.
  - destruct (X19_v2_evm_Settle Fixtures.Facilitator.lib nat
                Fixtures.Facilitator.Do Fixtures.Root.now
                Fixtures.Facilitator.verifier
                Testdata.background Fixtures.Facilitator.anonymousCredential
                (Some Testdata.v2Accepted) Fixtures.Facilitator.start)
      as (result & w' & Hrun & _ & _ & Hparse).
    destruct (Hparse (errorString "authorization missing required fields")
                eq_refl)
      as (-> & err & ->).
    exists err. exact Hrun.
Defined.

(** A facilitator that accepts: the verifier of the root module reports
    the payer and the amount of the payment after one call; a payment
    without a scheme is refused without a call. *)
Lemma X20_witness :
  (exists verifyResp,
     Fixtures.RootFacilitator.Verify Testdata.background
       {| EvmV1.FacilitatorRequest.X402Version := 1;
          EvmV1.FacilitatorRequest.Scheme := "exact";
          EvmV1.FacilitatorRequest.Network := "base-sepolia";
          EvmV1.FacilitatorRequest.Payload := Fixtures.Root.paymentPayload |}
       0%nat
     = (Ok verifyResp, 1%nat)
     /\ EvmV1.FacilitatorVerifyResponse.Valid verifyResp = true
     /\ fst (EvmV1.EVMVerifier_Verify Fixtures.RootFacilitator.lib nat
               Fixtures.RootFacilitator.Verify
               Fixtures.RootFacilitator.verifier Testdata.background
               Fixtures.Root.payment Fixtures.RootFacilitator.start)
        = Done (Ok {| V1.VerificationResult.Valid := true;
                      V1.VerificationResult.Reason := "";
                      V1.VerificationResult.PayerAddress := "0xpayer";
                      V1.VerificationResult.Amount := "1000000";
                      V1.VerificationResult.TokenSymbol := "" |}))
  /\ exists verifyResult,
       EvmV1.EVMVerifier_Verify Fixtures.RootFacilitator.lib nat
         Fixtures.RootFacilitator.Verify
         Fixtures.RootFacilitator.verifier Testdata.background
         Fixtures.Root.schemelessPayment Fixtures.RootFacilitator.start
       = (Done (Ok verifyResult), Fixtures.RootFacilitator.start)
       /\ V1.VerificationResult.Valid verifyResult = false.
Proof.
  split.
  - destruct (X20_v1_evm_Verify Fixtures.RootFacilitator.lib nat
                Fixtures.RootFacilitator.Verify
                Fixtures.RootFacilitator.verifier Testdata.background
                Fixtures.Root.payment Fixtures.RootFacilitator.start)
      as (result & w' & Hrun & _ & Hvalid & _).
    rewrite Hrun. cbn [fst].
    vm_compute in Hrun. injection Hrun as <- <-.
    destruct (Hvalid _ eq_refl eq_refl)
      as (_ & _ & verifyResp & _ & _ & Hcall & Hok & _).
    exists verifyResp. split; [exact Hcall|]. split; [exact Hok|].
    reflexivity.
  - destruct (X20_v1_evm_Verify Fixtures.RootFacilitator.lib nat
                Fixtures.RootFacilitator.Verify
                Fixtures.RootFacilitator.verifier Testdata.background
                Fixtures.Root.schemelessPayment
                Fixtures.RootFacilitator.start)
      as (result & w' & Hrun & _ & _ & Hrefused).
    destruct Hrefused as (-> & verifyResult & -> & Hinvalid).
    { right; left. discriminate. }
    exists verifyResult. split; [exact Hrun | exact Hinvalid].
Defined.


Section EvmCreate.
Import V2 Evm.
Variable lib : Evm.Lib.
Variable Network : Type.
Variable Do : HTTPRequest.t -> Network -> Result HTTPResponse.t * Network.

Local Abbreviation World := (Evm.World Network).

Lemma kinds_copied (l : list SupportedKind.t) :
  map (fun k => {| SupportedKind.Scheme := SupportedKind.Scheme k;
                   SupportedKind.Network := SupportedKind.Network k |}) l
  = l.
Proof.
  induction l as [| [scheme net] l IH]; [reflexivity|].
  cbn [map SupportedKind.Scheme SupportedKind.Network]. now rewrite IH.
Qed.

(** X25.  [NewEVMVerifier] of [v2/evm] never panics and sends at most
    one request, a GET of [/v2/x402/supported] of the facilitator
    without a body and without a header.  It returns a verifier only
    when the facilitator answered that request with status 200 and a
    document that decodes; the verifier then addresses the same
    facilitator, and [SupportedKinds] gives the kinds of that document
    in their order.  Every other answer, and a failure of the round
    trip, is an error. *)
Theorem X25_v2_NewEVMVerifier (timeout : Context) (facilitatorURL : string)
  (w : World) :
  let request := {|
    HTTPRequest.Ctx := timeout;
    HTTPRequest.Method := "GET";
    HTTPRequest.URL := (facilitatorURL ++ "/v2/x402/supported")%string;
    HTTPRequest.Header := ∅;
    HTTPRequest.Body := None |} in
  exists result w',
    NewEVMVerifier lib Network Do timeout facilitatorURL w
    = (Done result, w')
    /\ (w' = w
        \/ sent Network w' = (sent Network w ++ [request])%list)
    /\ (forall v,
          result = Ok v ->
          exists resp supported,
            Do request (network Network w)
            = (Ok resp, network Network w')
            /\ HTTPResponse.StatusCode resp = StatusOK
            /\ json_Decode_SupportedResponse lib resp = Ok supported
            /\ baseURL (facilitator v) = facilitatorURL
            /\ EVMVerifier_SupportedKinds v
               = FacilitatorSupportedResponse.Kinds supported)
    /\ (forall answer network',
          Do request (network Network w) = (answer, network') ->
          match answer with
          | Ok resp =>
              HTTPResponse.StatusCode resp <> StatusOK
              \/ exists err, json_Decode_SupportedResponse lib resp = Err err
          | Err _ => True
          end ->
          exists err, result = Err err).
Proof.
  cbv zeta.
  unfold NewEVMVerifier, FacilitatorClient_GetSupported,
    NewRequestWithContext, NewFacilitatorClient, mbind, httpClient_Do, ret.
  cbn [baseURL].
  destruct (url_error lib (facilitatorURL ++ "/v2/x402/supported"))
    as [urlErr|].
  { eexists _, _. split; [reflexivity|]. split; [now left|]. split.
    - intros v Hc. discriminate Hc.
    - intros answer network' _ _. eauto. }
  destruct (Do _ (network Network w)) as [[resp|err] network'] eqn:Hdo.
  2: { eexists _, _. split; [reflexivity|]. split; [now right|]. split.
       - intros v Hc. discriminate Hc.
       - intros answer network'' _ _. eauto. }
  destruct (Z.eqb_spec (HTTPResponse.StatusCode resp) StatusOK)
    as [Hok | Hbad]; cbn [negb].
  2: { eexists _, _. split; [reflexivity|]. split; [now right|]. split.
       - intros v Hc. discriminate Hc.
       - intros answer network'' _ _. eauto. }
  destruct (json_Decode_SupportedResponse lib resp)
    as [supported|err] eqn:Hdecode.
  2: { eexists _, _. split; [reflexivity|]. split; [now right|]. split.
       - intros v Hc. discriminate Hc.
       - intros answer network'' _ _. eauto. }
  eexists _, _. split; [reflexivity|]. split; [now right|]. split.
  - intros v [= <-]. exists resp, supported. cbn [network].
    split; [reflexivity|]. split; [exact Hok|]. split; [exact Hdecode|].
    split; [reflexivity|].
    unfold EVMVerifier_SupportedKinds. cbn [kinds]. apply kinds_copied.
  - intros answer network'' [= <- <-] [Hc | [err Hc]]; [contradiction|].
    rewrite Hdecode in Hc. discriminate Hc.
Qed.

End EvmCreate.

(** A facilitator that lists two kinds: the verifier supports them. *)
Lemma X25_witness :
  exists v w',
    Evm.NewEVMVerifier Fixtures.Facilitator.lib nat Fixtures.Facilitator.Do
      Testdata.background Fixtures.Facilitator.baseURL
      Fixtures.Facilitator.start
    = (Done (Ok v), w')
    /\ Evm.EVMVerifier_SupportedKinds v
       = [{| V2.SupportedKind.Scheme := "exact";
             V2.SupportedKind.Network := "eip155:8453" |};
          {| V2.SupportedKind.Scheme := "exact";
             V2.SupportedKind.Network := "eip155:84532" |}].
Proof.
  destruct (X25_v2_NewEVMVerifier Fixtures.Facilitator.lib nat
              Fixtures.Facilitator.Do Testdata.background
              Fixtures.Facilitator.baseURL Fixtures.Facilitator.start)
    as (result & w' & Hrun & _ & Hcreated & _).
  rewrite Hrun. vm_compute in Hrun. injection Hrun as <- <-.
  destruct (Hcreated _ eq_refl)
    as (resp & supported & Hdo & _ & Hdecode & _ & Hkinds).
  eexists _, _. split; [reflexivity|].
  rewrite Hkinds. vm_compute in Hdo. injection Hdo as <-.
  vm_compute in Hdecode. now injection Hdecode as <-.
Defined.

(** * What a refused gRPC call tells the client *)

Section GrpcOfferV2.
Import V2 GrpcV2 Protocol.
Variable lib : Lib.
Variable unmarshal : string -> Result PaymentRequiredResponse.t.


End GrpcOfferV2.

Section GrpcOfferRuns.
Import Testdata Fixtures.


End GrpcOfferRuns.

Section OfferV1.
Import V1 Protocol.
Variable lib : Lib.
Variable unmarshal : string -> Result PaymentRequiredResponse.t.

(** X23.  In the root package, what a refusal sends a client reads
    back.  Over HTTP, [ReadPaymentRequirements] reads from the body of
    the 402 response of a fresh writer one requirement per accepted
    token of the rule, in the order of the rule: version 1, scheme
    "exact", the amount of the rule, the path of the request as
    resource, and the current time plus the validity duration as
    expiry.  Over gRPC, a unary or streaming call of a priced method
    without the [x402-payment] metadata is refused with
    [RESOURCE_EXHAUSTED] without a call of the handler and without a
    trailer, and [DecodePaymentRequirements] reads from the message of
    the status the same requirements, with the method as resource and
    the error text in lower case.  The library is assumed to decode
    what it encoded. *)
Theorem X23_v1_client_reads_the_offer (cfg : Config) (now : Time)
  (rule : PricingRule.t) :
  (forall (w : World) (r : Request) (w' : World),
     let offer := Props.V1.offer now rule cfg (URL_Path r) in
     sendPaymentRequired lib now w r (Some rule) cfg = Done w' ->
     Sent (writer w) = None ->
     Body (writer w) = EmptyString ->
     negb (String.eqb (CustomPaywallHTML cfg) "") && isBrowserRequest r
     = false ->
     forall json,
       json_Marshal lib (MarshalPaymentRequiredResponse offer) = Ok json ->
       Props.V1.decodes_line lib unmarshal
         (MarshalPaymentRequiredResponse offer) offer ->
       Client.V1.ReadPaymentRequirements lib unmarshal
         (Client.received (writer w'))
       = Ok offer)
  /\ (forall (order : list (string * PricingRule.t)) (ctx : Context)
        (req srv : Any) (fullMethod : string) (unary : UnaryHandler)
        (stream : StreamHandler) (t : Trace) (json : string),
        let offer := Props.V1.grpc_offer now rule cfg fullMethod in
        MatchMethod (path_Match lib) cfg order fullMethod
        = (Some rule, true) ->
        (forall md, FromIncomingContext ctx = Some md ->
                    MD_Get md GrpcV1.MetadataKeyPayment = []) ->
        json_Marshal lib (MarshalPaymentRequiredResponse offer) = Ok json ->
        Props.V1.decodes lib unmarshal
          (MarshalPaymentRequiredResponse offer) offer ->
        let encoded := base64_EncodeToString lib json in
        GrpcV1.UnaryIntercept lib cfg order now ctx req fullMethod unary t
        = Done (Err (statusError ResourceExhausted encoded), t)
        /\ GrpcV1.StreamIntercept lib cfg order now srv ctx fullMethod
             stream t
           = Done (Some (statusError ResourceExhausted encoded), t)
        /\ Client.V1.DecodePaymentRequirements lib unmarshal encoded
           = Ok offer).
Proof.
  split.
  - intros w r w' offer Hsend Hfresh Hempty Hpaywall json Hjson Hlib.
    unfold sendPaymentRequired in Hsend. rewrite Hpaywall in Hsend.
    cbn [deref bind] in Hsend. injection Hsend as <-.
    change {| PaymentRequiredResponse.Error := "Payment required";
              PaymentRequiredResponse.PaymentRequirements := _ |}
      with offer.
    unfold on_writer, Encode. cbn [writer]. rewrite Hjson.
    set (sent := SetHeader "Content-Type" "application/json" (writer w)).
    rewrite (received_after_Write _ _ StatusPaymentRequired
               (RespHeader sent)).
    2: { unfold WriteHeader, sent, SetHeader. cbn [Sent].
         now rewrite Hfresh. }
    unfold Client.V1.ReadPaymentRequirements.
    cbn [Client.StatusCode Client.Header Client.Body negb Z.eqb
           StatusPaymentRequired Pos.eqb].
    unfold WriteHeader, sent, SetHeader. cbn [Sent]. rewrite Hfresh.
    cbn [Body]. rewrite Hempty.
    pose proof (Hlib json Hjson) as Hread. unfold Client.Body.
    change (unmarshal (json ++ String "010" EmptyString)%string = Ok offer)
      in Hread.
    change (EmptyString ++ (json ++ String "010" EmptyString))%string
      with (json ++ String "010" EmptyString)%string.
    now rewrite Hread.
  - intros order ctx req srv fullMethod unary stream t json offer
      Hmatch Hnone Hjson Hlib. cbv zeta.
    assert (Hsend : forall reason,
               GrpcV1.sendPaymentRequiredWithReason lib now (Some rule)
                 fullMethod cfg reason
               = Done (statusError ResourceExhausted
                         (base64_EncodeToString lib json))).
    { intros reason.
      unfold GrpcV1.sendPaymentRequiredWithReason,
        GrpcV1.BuildPaymentRequirements, GrpcV1.EncodePaymentRequirements.
      cbn [deref bind].
      change {| PaymentRequiredResponse.Error := "payment required";
                PaymentRequiredResponse.PaymentRequirements := _ |}
        with offer.
      now rewrite Hjson. }
    split; [|split].
    + unfold GrpcV1.UnaryIntercept, GrpcV1.sendPaymentRequired.
      rewrite Hmatch. cbn [negb].
      destruct (FromIncomingContext ctx) as [md|] eqn:Hmd.
      * rewrite (Hnone md eq_refl), Hsend. reflexivity.
      * rewrite Hsend. reflexivity.
    + unfold GrpcV1.StreamIntercept, GrpcV1.sendPaymentRequired.
      rewrite Hmatch. cbn [negb].
      destruct (FromIncomingContext ctx) as [md|] eqn:Hmd.
      * rewrite (Hnone md eq_refl), Hsend. reflexivity.
      * rewrite Hsend. reflexivity.
    + destruct (Hlib json Hjson) as [Hb64 Hun].
      unfold Client.V1.DecodePaymentRequirements. now rewrite Hb64, Hun.
Qed.

End OfferV1.

Section OfferRootRuns.
Import Testdata Fixtures.

(** [TestPaymentMiddleware_MissingPayment] of the root package, read by
    the client; and the refusal of a call of the priced method. *)
Lemma X23_witness :
  (exists w',
     V1.sendPaymentRequired Root.lib Root.early recorder
       (request "/v1/paid" []) (Some (Root.rule "1.00")) Root.config
     = Done w'
     /\ Client.V1.ReadPaymentRequirements Root.lib Root.Unmarshal_Required
          (Client.received (writer w'))
        = Ok (Props.V1.offer Root.early (Root.rule "1.00") Root.config
                "/v1/paid"))
  /\ exists encoded,
       GrpcV1.UnaryIntercept Root.lib Root.config
         (map_to_list (MethodPricing Root.config)) Root.early (incoming [])
         AnyNil paidMethod okUnary {| handled := []; trailers := [] |}
       = Done (Err (statusError ResourceExhausted encoded),
               {| handled := []; trailers := [] |})
       /\ Client.V1.DecodePaymentRequirements Root.lib
            Root.Unmarshal_Required encoded
          = Ok (Props.V1.grpc_offer Root.early (Root.rule "1.00") Root.config
                  paidMethod).
Proof.
  destruct (X23_v1_client_reads_the_offer Root.lib Root.Unmarshal_Required
              Root.config Root.early (Root.rule "1.00")) as [Hhttp Hgrpc].
  split.
  - eexists. split; [reflexivity|].
    eapply (Hhttp recorder (request "/v1/paid" [])).
    + reflexivity.
    + reflexivity.
    + reflexivity.
    + reflexivity.
    + reflexivity.
    + intros json [= <-]. vm_compute. reflexivity.
  - eexists.
    destruct (Hgrpc (map_to_list (MethodPricing Root.config)) (incoming [])
                AnyNil AnyNil paidMethod okUnary okStream
                {| handled := []; trailers := [] |}
                (print (Root.required_doc
                          (Props.V1.grpc_offer Root.early (Root.rule "1.00")
                             Root.config paidMethod))))
      as (Hunary & _ & Hclient).
    + vm_compute. reflexivity.
    + intros md [= <-]. reflexivity.
    + reflexivity.
    + intros json [= <-]. split; vm_compute; reflexivity.
    + split; [exact Hunary | exact Hclient].
Defined.

End OfferRootRuns.

(** * The detection of browsers *)

Section Browser.

(** A window of [s] at [i] equals [substr] exactly when [substr] occurs
    in [s] after [i] bytes. *)
Lemma substring_window (i : nat) (s substr : string) :
  (i + len substr <= len s)%nat ->
  String.substring i (len substr) s = substr ->
  exists pre post, s = (pre ++ substr ++ post)%string /\ len pre = i.
Proof.
  revert s. induction i as [| i IH]; intros s Hlen Hwin.
  - exists EmptyString, (String.substring (len substr) (len s - len substr) s).
    split; [|reflexivity]. cbn [String.append].
    rewrite <- Hwin at 1. apply substring_zero_split. lia.
  - destruct s as [| c s]; [unfold len in Hlen; simpl in Hlen; lia|].
    destruct (IH s) as (pre & post & Hs & Hpre).
    + unfold len in *. simpl in Hlen. lia.
    + exact Hwin.
    + exists (String c pre), post. split.
      * change (String c s = String c (pre ++ substr ++ post)).
        now f_equal.
      * unfold len in *. simpl. now f_equal.
Qed.

Lemma window_of_occurrence (pre substr post : string) :
  String.substring (len pre) (len substr) (pre ++ substr ++ post) = substr.
Proof.
  rewrite substring_skip_append. apply substring_zero_append.
Qed.

(** The hand-written search of the root package finds exactly the
    occurrences. *)
Lemma v1_contains_iff (s substr : string) :
  V1.contains s substr = true
  <-> exists pre post, s = (pre ++ substr ++ post)%string.
Proof.
  unfold V1.contains, V1.findSubstring.
  rewrite andb_true_iff, Nat.leb_le, existsb_exists. split.
  - intros [Hlen (i & Hin & Heq)]. apply in_seq in Hin.
    apply String.eqb_eq in Heq.
    destruct (substring_window i s substr) as (pre & post & Hs & _);
      [lia | exact Heq | eauto].
  - intros (pre & post & ->). rewrite !len_append. split; [lia|].
    exists (len pre). split.
    + apply in_seq. lia.
    + apply String.eqb_eq. apply window_of_occurrence.
Qed.

(** [strings.Contains] finds exactly the occurrences. *)
Lemma Contains_iff (s substr : string) :
  Contains s substr = true
  <-> exists pre post, s = (pre ++ substr ++ post)%string.
Proof.
  split.
  - induction s as [| c s IH]; cbn [Contains];
      rewrite orb_true_iff; intros [H | H].
    + apply HasPrefix_iff in H as [rest Hs]. now exists EmptyString, rest.
    + discriminate H.
    + apply HasPrefix_iff in H as [rest Hs]. now exists EmptyString, rest.
    + destruct (IH H) as (pre & post & ->). now exists (String c pre), post.
  - intros (pre & post & ->). induction pre as [| c pre IH].
    + change (Contains (substr ++ post) substr = true).
      assert (H : HasPrefix (substr ++ post) substr = true)
        by (apply HasPrefix_iff; eauto).
      revert H. generalize (substr ++ post)%string. intros s H.
      destruct s; unfold Contains; fold Contains; now rewrite H.
    + change (Contains (String c (pre ++ substr ++ post)) substr = true).
      cbn [Contains]. rewrite IH. apply orb_true_r.
Qed.

(** X24.  [isBrowserRequest] of both packages says that a request comes
    from a browser exactly when its [User-Agent] header contains one of
    [Mozilla/], [Chrome/], [Safari/], [Firefox/], [Edge/] and [Opera/],
    in that spelling and anywhere in the header; the search written by
    hand in the root package and [strings.Contains] in package [v2]
    decide alike. *)
Theorem X24_browser_detection (r : Request) :
  let userAgent := Header_Get (ReqHeader r) "User-Agent" in
  (V1.isBrowserRequest r = true
   <-> exists indicator pre post,
         In indicator
           ["Mozilla/"; "Chrome/"; "Safari/"; "Firefox/"; "Edge/"; "Opera/"]
         /\ userAgent = (pre ++ indicator ++ post)%string)
  /\ V2.isBrowserRequest r = V1.isBrowserRequest r.
Proof.
  cbv zeta. unfold V1.isBrowserRequest, V2.isBrowserRequest.
  set (userAgent := Header_Get (ReqHeader r) "User-Agent").
  set (indicators :=
         ["Mozilla/"; "Chrome/"; "Safari/"; "Firefox/"; "Edge/"; "Opera/"]).
  assert (Hsame : existsb (fun indicator => Contains userAgent indicator)
                    indicators
                  = existsb (fun indicator => V1.contains userAgent indicator)
                      indicators).
  { apply eq_true_iff_eq. rewrite !existsb_exists.
    split; intros (x & Hin & Hx); exists x; (split; [exact Hin|]).
    - apply v1_contains_iff. now apply Contains_iff.
    - apply Contains_iff. now apply v1_contains_iff. }
  split.
  - destruct (String.eqb_spec userAgent "") as [Hempty | Hsome].
    + split; [discriminate|].
      intros (indicator & pre & post & Hin & Hua). exfalso.
      rewrite Hempty in Hua.
      assert (Hlen : len indicator = 0%nat).
      { apply (f_equal len) in Hua. rewrite !len_append in Hua.
        unfold len in *. simpl in Hua. lia. }
      unfold indicators in Hin. simpl in Hin.
      repeat (destruct Hin as [<- | Hin]; [discriminate Hlen|]).
      exact Hin.
    + rewrite existsb_exists. split.
      * intros (x & Hin & Hx). apply v1_contains_iff in Hx
          as (pre & post & Hua). eauto.
      * intros (x & pre & post & Hin & Hua). exists x.
        split; [exact Hin|]. apply v1_contains_iff. eauto.
  - destruct (String.eqb userAgent ""); [reflexivity | exact Hsame].
Qed.

End Browser.
